(** * Doctor-Patient portal: the request handlers of [src/backend/server.js]

    A shallow embedding of the Express handlers and of the part of the
    Mongoose models they use.  Every handler is an [async] function; it is
    embedded as a [Task]: a tree whose nodes are the points where the
    JavaScript code touches the outside world (one node per [await] on the
    store, one for each fire-and-forget mail).  Running a task to
    completion gives the sequential behaviour of a request, stepping
    several tasks in turn gives the interleavings of the event loop. *)

From Stdlib Require Import List String Ascii ZArith NArith Bool Lia.
From ExtLib Require Import Structures.Monad Structures.MonadExc.
Import ListNotations.
Import MonadNotation.
Local Open Scope string_scope.
Local Open Scope list_scope.
Local Open Scope monad_scope.

Set Implicit Arguments.
Set Warnings "-register-all".

(** ** JavaScript values, as [express.json()] hands them to a handler *)

(** Numbers are kept as integers: JSON cannot encode NaN, and the only
    number the handlers look at is through its truthiness. *)
Inductive JsVal : Type :=
| JUndefined
| JNull
| JBool (b : bool)
| JNum (n : Z)
| JStr (s : string)
| JId (i : N)                       (* an ObjectId held by a document *)
| JArr (l : list JsVal)
| JObj (l : list (string * JsVal)).

(** [!v] is [negb (truthy v)]. *)
Definition truthy (v : JsVal) : bool :=
  match v with
  | JUndefined | JNull => false
  | JBool b => b
  | JNum n => negb (Z.eqb n 0)
  | JStr s => negb (String.eqb s "")
  | JId _ | JArr _ | JObj _ => true
  end.

(** [Array.isArray(v)] *)
Definition isArray (v : JsVal) : bool :=
  match v with JArr _ => true | _ => false end.

(** A parsed JSON object; [field k o] is [o.k], [undefined] when absent. *)
Definition Body := list (string * JsVal).

Fixpoint field (k : string) (o : Body) : JsVal :=
  match o with
  | [] => JUndefined
  | (k', v) :: o' => if String.eqb k k' then v else field k o'
  end.


(** [s.split(sep)] for a one-character separator. *)
Fixpoint split (sep : ascii) (s : string) : list string :=
  match s with
  | EmptyString => [EmptyString]
  | String c r =>
      if Ascii.eqb c sep then EmptyString :: split sep r
      else match split sep r with
           | h :: t => String c h :: t
           | [] => [String c EmptyString]
           end
  end.

(** ** The libraries the server loads

    [mongoose], [bcryptjs] and [jsonwebtoken] are not part of the
    repository.  What the handlers need from them is taken as an
    interface; [None] stands for a call that throws. *)

Definition ObjectId := N.

Inductive TokenPayload : Type :=
| DoctorIdPayload (doctorId : ObjectId)     (* { doctorId: doctor._id } *)
| PatientIdPayload (patientId : ObjectId).  (* { patientId: patient._id } *)

Class Libraries : Type := {
  (* mongoose: casting a value to the schema type of a path *)
  castString : JsVal -> option string;
  castNumber : JsVal -> option Z;
  castObjectId : JsVal -> option ObjectId;
  (* mongoose and the store: what a query that gives a String path an
     object of operators ([{ $ne: null }]) or an array (an implicit [$in])
     asks of the string a record holds there; [None] when the query is
     refused *)
  stringCondition : JsVal -> option (string -> bool);
  (* how an ObjectId is printed in a JSON response *)
  showObjectId : ObjectId -> string;
  (* bcryptjs *)
  bcrypt_hash : JsVal -> nat -> option string;
  bcrypt_compare : JsVal -> string -> option bool;
  (* jsonwebtoken: payload, secret, expiresIn *)
  jwt_sign : TokenPayload -> string -> string -> string;
  (* token, secret, current time: does jwt.verify return? *)
  jwt_verify : string -> string -> N -> bool
}.

(** ** Documents (section 2 of server.js) *)

Module Availability.
Record t : Type := mk {
  day : string;
  startTime : string;
  endTime : string;
  location : option string   (* [None] is a stored null *)
}.
End Availability.

Module Doctor.
Record t : Type := mk {
  _id : ObjectId;
  name : string;
  email : string;
  password : string;
  specialty : string;
  experience : Z;
  location : string;
  availability : list (option Availability.t)   (* [None] is a null entry *)
}.
End Doctor.

Module Patient.
(** [appointments] is the raw document's array.  PatientSchema does not
    declare it (the line is commented out in the source). *)
Record t : Type := mk {
  _id : ObjectId;
  name : string;
  email : string;
  password : string;
  age : Z;
  gender : string;
  phone : string;
  address : string;
  appointments : list ObjectId
}.
End Patient.

Module Appointment.
Record t : Type := mk {
  _id : ObjectId;
  patientName : string;
  patientEmail : string;
  doctorId : ObjectId;
  timeSlot : string;
  status : string
}.
End Appointment.

(** The paths each schema declares. *)
Definition AvailabilitySchema : list string :=
  ["day"; "startTime"; "endTime"; "location"].
Definition DoctorSchema : list string :=
  ["name"; "email"; "password"; "specialty"; "experience"; "location";
   "availability"].
Definition PatientSchema : list string :=
  ["name"; "email"; "password"; "age"; "gender"; "phone"; "address"].
Definition AppointmentSchema : list string :=
  ["patientName"; "patientEmail"; "doctorId"; "timeSlot"; "status"].

Definition declares (schema : list string) (path : string) : bool :=
  existsb (String.eqb path) schema.

(** ** The store and the world around a request *)

Record Store : Type := mkStore {
  doctors : list Doctor.t;
  patients : list Patient.t;
  appointments : list Appointment.t;
  next_id : ObjectId       (* the next fresh [_id] *)
}.

(** The text of a mail is a template literal. *)
Inductive TextPart : Type :=
| Lit (s : string)
| Interp (v : JsVal).

Record Email : Type := mkEmail {
  to : JsVal;
  subject : string;
  text : list TextPart
}.

Record World : Type := mkWorld {
  db : Store;
  outbox : list Email
}.

Definition emptyStore : Store := mkStore [] [] [] 0%N.
Definition emptyWorld : World := mkWorld emptyStore [].

Definition with_db (f : Store -> Store) (w : World) : World :=
  mkWorld (f w.(db)) w.(outbox).

(** What a rejected promise carries; every handler maps all of them to a
    500 response. *)
Inductive Exn : Type :=
| StoreError        (* the store did not answer *)
| CastError         (* mongoose could not cast a query value *)
| ValidationError   (* document validation failed on save *)
| DuplicateKey      (* unique index on email *)
| BcryptError.      (* bcryptjs refused its arguments *)

(** ** Tasks *)

Inductive Task (A : Type) : Type :=
| Ret (a : A)
| Throw (e : Exn)
| Do (X : Type) (op : World -> X * World) (k : X -> Task A).

Arguments Ret {A} a.
Arguments Throw {A} e.
Arguments Do {A X} op k.

Fixpoint bindT {A B : Type} (t : Task A) (f : A -> Task B) : Task B :=
  match t with
  | Ret a => f a
  | Throw e => Throw e
  | Do op k => Do op (fun x => bindT (k x) f)
  end.

(** [try { t } catch (e) { h e }] *)
Fixpoint try_catch {A : Type} (t : Task A) (h : Exn -> Task A) : Task A :=
  match t with
  | Ret a => Ret a
  | Throw e => h e
  | Do op k => Do op (fun x => try_catch (k x) h)
  end.

#[global] Instance Monad_Task : Monad Task :=
  {| ret := @Ret; bind := @bindT |}.

#[global] Instance MonadExc_Task : MonadExc Exn Task :=
  {| raise := @Throw; catch := @try_catch |}.

(** Running one task from start to end: a request served alone. *)
Fixpoint run {A : Type} (t : Task A) (w : World) : (Exn + A) * World :=
  match t with
  | Ret a => (inr a, w)
  | Throw e => (inl e, w)
  | Do op k => let (x, w') := op w in run (k x) w'
  end.

(** One turn of the event loop for a task. *)
Definition step {A : Type} (t : Task A) (w : World) : Task A * World :=
  match t with
  | Do op k => let (x, w') := op w in (k x, w')
  | _ => (t, w)
  end.

(** Several requests in flight: [sched] names, turn by turn, the task that
    is resumed. *)
Fixpoint replace_nth {A : Type} (n : nat) (x : A) (l : list A) : list A :=
  match l, n with
  | [], _ => []
  | _ :: l', O => x :: l'
  | y :: l', S n' => y :: replace_nth n' x l'
  end.

Fixpoint interleave {A : Type} (sched : list nat) (pool : list (Task A))
  (w : World) : list (Task A) * World :=
  match sched with
  | [] => (pool, w)
  | i :: sched' =>
      match nth_error pool i with
      | None => interleave sched' pool w
      | Some t =>
          let (t', w') := step t w in
          interleave sched' (replace_nth i t' pool) w'
      end
  end.

(** ** The environment of the process *)

(** Every [await] on the store is a place where the store may fail to
    answer; the handler then lands in its [catch]. *)
Inductive CallSite : Type :=
| RegisterDoctor_findOne | RegisterDoctor_save
| RegisterPatient_findOne | RegisterPatient_save
| LoginPatient_findOne | LoginDoctor_findOne
| GetDoctor_findById
| SetAvailability_findById | SetAvailability_save
| Book_findOne | Book_save | Book_linkPatient
| Cancel_findById | Cancel_delete | Cancel_detach | Cancel_commit
| Search_find.

Record Env : Type := mkEnv {
  faults : CallSite -> bool;      (* [true]: the call at this site rejects *)
  JWT_SECRET : option string;     (* process.env.JWT_SECRET *)
  now : N                         (* the clock jwt.verify reads *)
}.

(** [process.env.JWT_SECRET || "mysecret"] *)
Definition secret (env : Env) : string :=
  match env.(JWT_SECRET) with
  | Some s => if String.eqb s "" then "mysecret" else s
  | None => "mysecret"
  end.

Definition no_faults : CallSite -> bool := fun _ => false.

(** [await] on a store call made at [site]. *)
Definition await {X : Type} (env : Env) (site : CallSite)
  (op : World -> (Exn + X) * World) : Task X :=
  Do (fun w => if env.(faults) site then (inl StoreError, w) else op w)
     (fun r => match r with inl e => Throw e | inr x => Ret x end).

(** A read of the store. *)
Definition query {X : Type} (f : Store -> Exn + X)
  : World -> (Exn + X) * World :=
  fun w => (f w.(db), w).

(** A write: on success the store is replaced. *)
Definition write {X : Type} (f : Store -> Exn + (X * Store))
  : World -> (Exn + X) * World :=
  fun w => match f w.(db) with
           | inl e => (inl e, w)
           | inr (x, s) => (inr x, mkWorld s w.(outbox))
           end.

(** A library call that throws when it answers [None].  The calls to
    bcryptjs are awaited too, but they do not touch the world. *)
Definition orThrow {X : Type} (e : Exn) (o : option X) : Task X :=
  match o with Some x => Ret x | None => Throw e end.

(** ** Mongoose: casting and validation *)

Section Casting.
Context {L : Libraries}.

(** A key that names a query operator. *)
Definition isOperator (k : string) : bool :=
  match k with
  | String "$" _ => true
  | _ => false
  end.

(** A value that a query does not compare as it is: an object with an
    operator among its keys, or an array. *)
Definition isCondition (v : JsVal) : bool :=
  match v with
  | JObj o => existsb (fun kv => isOperator (fst kv)) o
  | JArr _ => true
  | _ => false
  end.

(** Casting to [String]: a string is kept as it is; an array or an object
    of operators is no string.  (An object that carries a string [_id]
    beside its operators is taken as an object of operators.) *)
Definition toString (v : JsVal) : option string :=
  match v with
  | JStr s => Some s
  | _ => if isCondition v then None else castString v
  end.

(** The query [{ path: v }] on a String path that every record holds, as
    a test on the string a record holds there.  [undefined] and [null]
    become the query [{ path: null }], which no record matches; an object
    of operators or an array is run as the condition it spells; any other
    value is cast to a string and compared. *)
Definition stringQuery (v : JsVal) : Exn + (string -> bool) :=
  match v with
  | JUndefined | JNull => inr (fun _ => false)
  | _ =>
      if isCondition v
      then match stringCondition v with
           | Some c => inr c
           | None => inl CastError
           end
      else match toString v with
           | Some e => inr (fun x => String.eqb x e)
           | None => inl CastError
           end
  end.

(** Casting to [ObjectId]: an ObjectId is kept as it is. *)
Definition toObjectId (v : JsVal) : option ObjectId :=
  match v with
  | JId i => Some i
  | _ => castObjectId v
  end.

(** The [_id] of a by-id call: [undefined] and [null] become the query
    [{ _id: null }], which matches nothing. *)
Definition castId (v : JsVal) : Exn + option ObjectId :=
  match v with
  | JUndefined | JNull => inr None
  | _ => match toObjectId v with
         | Some i => inr (Some i)
         | None => inl CastError
         end
  end.

(** A path declared [{ type: String, required: true }]; the empty string
    does not satisfy [required]. *)
Definition requiredString (v : JsVal) : Exn + string :=
  match v with
  | JUndefined | JNull => inl ValidationError
  | _ => match toString v with
         | None => inl ValidationError
         | Some s => if String.eqb s "" then inl ValidationError else inr s
         end
  end.

(** A path declared [String]; unset it reads as the empty string. *)
Definition optionalString (v : JsVal) : Exn + string :=
  match v with
  | JUndefined | JNull => inr ""
  | _ => match toString v with
         | None => inl ValidationError
         | Some s => inr s
         end
  end.

(** A path declared [{ type: String, default: d }]. *)
Definition defaultString (d : string) (v : JsVal) : Exn + string :=
  match v with
  | JUndefined => inr d
  | _ => optionalString v
  end.

(** A path declared [Number]. *)
Definition optionalNumber (v : JsVal) : Exn + Z :=
  match v with
  | JUndefined | JNull => inr 0%Z
  | _ => match castNumber v with
         | None => inl ValidationError
         | Some n => inr n
         end
  end.

(** [location: { type: String, default: "Office" }] *)
Definition locationOrDefault (v : JsVal) : Exn + option string :=
  match v with
  | JUndefined => inr (Some "Office")
  | JNull => inr None
  | _ => match toString v with
         | None => inl ValidationError
         | Some s => inr (Some s)
         end
  end.

(** One element of [availability] against AvailabilitySchema.  A null
    element (an absent one alike) is no subdocument: the cast of the
    array passes it over, the validation skips it, and it is stored as
    null.  Any other element that is not an object is refused. *)
Definition castAvailability (v : JsVal) : Exn + option Availability.t :=
  match v with
  | JUndefined | JNull => inr None
  | JObj o =>
      match requiredString (field "day" o),
            requiredString (field "startTime" o),
            requiredString (field "endTime" o),
            locationOrDefault (field "location" o) with
      | inr d, inr s, inr e, inr l => inr (Some (Availability.mk d s e l))
      | _, _, _, _ => inl ValidationError
      end
  | _ => inl ValidationError
  end.

Fixpoint castAvailabilities (l : list JsVal)
  : Exn + list (option Availability.t) :=
  match l with
  | [] => inr []
  | v :: l' =>
      match castAvailability v, castAvailabilities l' with
      | inr a, inr r => inr (a :: r)
      | _, _ => inl ValidationError
      end
  end.

(** The path [availability: [AvailabilitySchema]]: a value that is not an
    array is taken as a one-element array. *)
Definition castAvailabilityPath (v : JsVal)
  : Exn + list (option Availability.t) :=
  match v with
  | JUndefined | JNull => inr []
  | JArr l => castAvailabilities l
  | _ => castAvailabilities [v]
  end.
End Casting.

(** ** JSON of the documents

    The members a document has by its schema, in the order of the schema.
    What mongoose adds on its own (the version key of a document, the
    [_id] of each availability entry) is left out. *)

Section ToJSON.
Context {L : Libraries}.

Definition msg (s : string) : JsVal := JObj [("message", JStr s)].

Definition idToJSON (i : ObjectId) : JsVal := JStr (showObjectId i).

(** An entry of an availability list; a null entry is printed as null. *)
Definition availabilityToJSON (entry : option Availability.t) : JsVal :=
  match entry with
  | None => JNull
  | Some a =>
      JObj [("day", JStr a.(Availability.day));
            ("startTime", JStr a.(Availability.startTime));
            ("endTime", JStr a.(Availability.endTime));
            ("location", match a.(Availability.location) with
                         | Some s => JStr s
                         | None => JNull
                         end)]
  end.

Definition doctorToJSON (d : Doctor.t) : JsVal :=
  JObj [("_id", idToJSON d.(Doctor._id));
        ("name", JStr d.(Doctor.name));
        ("email", JStr d.(Doctor.email));
        ("password", JStr d.(Doctor.password));
        ("specialty", JStr d.(Doctor.specialty));
        ("experience", JNum d.(Doctor.experience));
        ("location", JStr d.(Doctor.location));
        ("availability",
          JArr (map availabilityToJSON d.(Doctor.availability)))].

Definition appointmentToJSON (a : Appointment.t) : JsVal :=
  JObj [("_id", idToJSON a.(Appointment._id));
        ("patientName", JStr a.(Appointment.patientName));
        ("patientEmail", JStr a.(Appointment.patientEmail));
        ("doctorId", idToJSON a.(Appointment.doctorId));
        ("timeSlot", JStr a.(Appointment.timeSlot));
        ("status", JStr a.(Appointment.status))].

(** The projection [.select("-path")] on a document. *)
Definition select_minus (path : string) (v : JsVal) : JsVal :=
  match v with
  | JObj l => JObj (filter (fun kv => negb (String.eqb path (fst kv))) l)
  | _ => v
  end.
End ToJSON.

(** ** Mongoose: the three models *)

Definition hasId {A : Type} (id_of : A -> ObjectId) (i : ObjectId) (x : A)
  : bool := N.eqb (id_of x) i.

(** Replace the first element that satisfies [p]. *)
Fixpoint update_first {A : Type} (p : A -> bool) (f : A -> A) (l : list A)
  : list A :=
  match l with
  | [] => []
  | x :: l' => if p x then f x :: l' else x :: update_first p f l'
  end.

(** Remove the first element that satisfies [p]. *)
Fixpoint delete_first {A : Type} (p : A -> bool) (l : list A) : list A :=
  match l with
  | [] => []
  | x :: l' => if p x then l' else x :: delete_first p l'
  end.

(** Update operators, as the handlers write them. *)
Inductive Update : Type :=
| Push (path : string) (v : JsVal)    (* { $push: { path: v } } *)
| Pull (path : string) (v : JsVal).   (* { $pull: { path: v } } *)

Section Updates.
Context {L : Libraries}.

(** An update is applied in strict mode: an operator on a path the schema
    does not declare is dropped.  [appointments] is the one array a
    patient document can hold. *)
Definition applies (schema : list string) (path : string) : bool :=
  declares schema path && String.eqb path "appointments".

Definition setAppointments (p : Patient.t) (l : list ObjectId) : Patient.t :=
  Patient.mk p.(Patient._id) p.(Patient.name) p.(Patient.email)
    p.(Patient.password) p.(Patient.age) p.(Patient.gender)
    p.(Patient.phone) p.(Patient.address) l.

Definition applyUpdate (schema : list string) (u : Update) (p : Patient.t)
  : Patient.t :=
  match u with
  | Push path v =>
      match applies schema path, toObjectId v with
      | true, Some x => setAppointments p (p.(Patient.appointments) ++ [x])
      | _, _ => p
      end
  | Pull path v =>
      match applies schema path, toObjectId v with
      | true, Some x =>
          setAppointments p
            (filter (fun y => negb (N.eqb y x)) p.(Patient.appointments))
      | _, _ => p
      end
  end.

(** The value of an operator that is kept must cast to the array's type. *)
Definition updateCasts (schema : list string) (u : Update) : bool :=
  match u with
  | Push path v | Pull path v =>
      if applies schema path
      then match toObjectId v with Some _ => true | None => false end
      else true
  end.
End Updates.

(** The writes a session has buffered; they reach the store on commit. *)
Inductive WriteOp : Type :=
| DeleteAppointment (i : ObjectId)
| UpdatePatient (schema : list string) (i : ObjectId) (u : Update).

Definition Session := list WriteOp.

Definition apply_write {L : Libraries} (s : Store) (o : WriteOp) : Store :=
  match o with
  | DeleteAppointment i =>
      mkStore s.(doctors) s.(patients)
        (delete_first (hasId Appointment._id i) s.(appointments))
        s.(next_id)
  | UpdatePatient schema i u =>
      mkStore s.(doctors)
        (update_first (hasId Patient._id i) (applyUpdate schema u)
           s.(patients))
        s.(appointments) s.(next_id)
  end.

(** What a session sees, and what its commit leaves. *)
Definition view {L : Libraries} (ss : Session) (s : Store) : Store :=
  fold_left apply_write ss s.

Section Models.
Context {L : Libraries}.

(** *** Doctor *)

(** [Doctor.findOne({ email })]: the first doctor the query selects. *)
Definition Doctor_findOne (email : JsVal) (s : Store)
  : Exn + option Doctor.t :=
  match stringQuery email with
  | inl e => inl e
  | inr c => inr (find (fun d => c d.(Doctor.email)) s.(doctors))
  end.

(** [Doctor.findById(id)] *)
Definition Doctor_findById (id : JsVal) (s : Store)
  : Exn + option Doctor.t :=
  match castId id with
  | inl e => inl e
  | inr None => inr None
  | inr (Some i) => inr (find (hasId Doctor._id i) s.(doctors))
  end.

(** [Doctor.find()] *)
Definition Doctor_find (s : Store) : Exn + list Doctor.t :=
  inr s.(doctors).

(** [new Doctor(o)] followed by [save()]: the paths DoctorSchema declares
    are cast and validated, [email] is unique. *)
Definition Doctor_create (o : Body) (s : Store)
  : Exn + (Doctor.t * Store) :=
  match requiredString (field "name" o),
        requiredString (field "email" o),
        requiredString (field "password" o),
        optionalString (field "specialty" o),
        optionalNumber (field "experience" o),
        optionalString (field "location" o),
        castAvailabilityPath (field "availability" o) with
  | inr n, inr e, inr p, inr sp, inr ex, inr lo, inr av =>
      if existsb (fun d => String.eqb d.(Doctor.email) e) s.(doctors)
      then inl DuplicateKey
      else
        let d := Doctor.mk s.(next_id) n e p sp ex lo av in
        inr (d, mkStore (s.(doctors) ++ [d]) s.(patients) s.(appointments)
                  (N.succ s.(next_id)))
  | _, _, _, _, _, _, _ => inl ValidationError
  end.

(** [doctor.availability = v; doctor.save()] on a document that was
    loaded before. *)
Definition Doctor_saveAvailability (d : Doctor.t) (v : JsVal) (s : Store)
  : Exn + (Doctor.t * Store) :=
  match castAvailabilityPath v with
  | inl e => inl e
  | inr av =>
      let d' := Doctor.mk d.(Doctor._id) d.(Doctor.name) d.(Doctor.email)
                  d.(Doctor.password) d.(Doctor.specialty)
                  d.(Doctor.experience) d.(Doctor.location) av in
      let setAv x :=
        Doctor.mk x.(Doctor._id) x.(Doctor.name) x.(Doctor.email)
          x.(Doctor.password) x.(Doctor.specialty) x.(Doctor.experience)
          x.(Doctor.location) av in
      if existsb (hasId Doctor._id d.(Doctor._id)) s.(doctors)
      then inr (d', mkStore
                      (update_first (hasId Doctor._id d.(Doctor._id)) setAv
                         s.(doctors))
                      s.(patients) s.(appointments) s.(next_id))
      else inl StoreError
  end.

(** *** Patient *)

(** [Patient.findOne({ email })]: the first patient the query selects. *)
Definition Patient_findOne (email : JsVal) (s : Store)
  : Exn + option Patient.t :=
  match stringQuery email with
  | inl e => inl e
  | inr c => inr (find (fun p => c p.(Patient.email)) s.(patients))
  end.

(** [new Patient(o)] followed by [save()]. *)
Definition Patient_create (o : Body) (s : Store)
  : Exn + (Patient.t * Store) :=
  match requiredString (field "name" o),
        requiredString (field "email" o),
        requiredString (field "password" o),
        optionalNumber (field "age" o),
        optionalString (field "gender" o),
        optionalString (field "phone" o),
        optionalString (field "address" o) with
  | inr n, inr e, inr p, inr ag, inr ge, inr ph, inr ad =>
      if existsb (fun x => String.eqb x.(Patient.email) e) s.(patients)
      then inl DuplicateKey
      else
        let x := Patient.mk s.(next_id) n e p ag ge ph ad [] in
        inr (x, mkStore s.(doctors) (s.(patients) ++ [x]) s.(appointments)
                  (N.succ s.(next_id)))
  | _, _, _, _, _, _, _ => inl ValidationError
  end.

(** [Patient.findByIdAndUpdate(id, u)], outside any session. *)
Definition Patient_findByIdAndUpdate (id : JsVal) (u : Update) (s : Store)
  : Exn + (unit * Store) :=
  match castId id with
  | inl e => inl e
  | inr None => inr (tt, s)
  | inr (Some i) =>
      if updateCasts PatientSchema u
      then inr (tt, apply_write s (UpdatePatient PatientSchema i u))
      else inl CastError
  end.

(** [Patient.findByIdAndUpdate(id, u, { session })] *)
Definition Patient_findByIdAndUpdate_in (ss : Session) (id : JsVal)
  (u : Update) (s : Store) : Exn + Session :=
  match castId id with
  | inl e => inl e
  | inr None => inr ss
  | inr (Some i) =>
      if updateCasts PatientSchema u
      then inr (ss ++ [UpdatePatient PatientSchema i u])
      else inl CastError
  end.

(** *** Appointment *)

(** [Appointment.findOne({ doctorId, timeSlot })] *)
Definition Appointment_findOne (doctorId timeSlot : JsVal) (s : Store)
  : Exn + option Appointment.t :=
  match toObjectId doctorId, toString timeSlot with
  | Some d, Some t =>
      inr (find (fun a => N.eqb a.(Appointment.doctorId) d &&
                          String.eqb a.(Appointment.timeSlot) t)
             s.(appointments))
  | _, _ => inl CastError
  end.

(** [new Appointment(o)] followed by [save()].  AppointmentSchema has no
    [patientId] path: that key of [o] is not stored.  (The handler gives a
    [doctorId] it has already cast in its query.) *)
Definition Appointment_create (o : Body) (s : Store)
  : Exn + (Appointment.t * Store) :=
  match optionalString (field "patientName" o),
        optionalString (field "patientEmail" o),
        toObjectId (field "doctorId" o),
        optionalString (field "timeSlot" o),
        defaultString "Booked" (field "status" o) with
  | inr pn, inr pe, Some d, inr t, inr st =>
      let a := Appointment.mk s.(next_id) pn pe d t st in
      inr (a, mkStore s.(doctors) s.(patients) (s.(appointments) ++ [a])
                (N.succ s.(next_id)))
  | _, _, _, _, _ => inl ValidationError
  end.

(** [Appointment.findById(id).session(ss)] *)
Definition Appointment_findById_in (ss : Session) (id : JsVal) (s : Store)
  : Exn + option Appointment.t :=
  match castId id with
  | inl e => inl e
  | inr None => inr None
  | inr (Some i) =>
      inr (find (hasId Appointment._id i) (view ss s).(appointments))
  end.

(** [Appointment.findByIdAndDelete(id).session(ss)] *)
Definition Appointment_findByIdAndDelete_in (ss : Session) (id : JsVal)
  (s : Store) : Exn + Session :=
  match castId id with
  | inl e => inl e
  | inr None => inr ss
  | inr (Some i) => inr (ss ++ [DeleteAppointment i])
  end.

(** [session.commitTransaction()] *)
Definition commitTransaction (ss : Session) (w : World)
  : (Exn + unit) * World :=
  (inr tt, with_db (view ss) w).

End Models.

(** ** The handlers *)

Record Response : Type := mkResponse {
  status : nat;
  json : JsVal
}.

(** [sendEmail(to, subject, text)]: the mail is handed to the relay and
    the handler goes on; what the relay answers is only logged. *)
Definition sendEmail (to : JsVal) (subject : string) (text : list TextPart)
  : Task unit :=
  Do (fun w => (tt, mkWorld w.(db) (w.(outbox) ++ [mkEmail to subject text])))
     (fun x => Ret x).

Section Handlers.
Context {L : Libraries}.
Variable env : Env.

(** [req.headers.authorization?.split(" ")[1]] *)
Definition bearer (authorization : option string) : JsVal :=
  match authorization with
  | None => JUndefined
  | Some h =>
      match nth_error (split " " h) 1 with
      | Some t => JStr t
      | None => JUndefined
      end
  end.

Definition authenticateToken (authorization : option string)
  (next : Task Response) : Task Response :=
  let token := bearer authorization in
  if negb (truthy token) then ret (mkResponse 401 (msg "Access denied"))
  else
    match token with
    | JStr t =>
        if jwt_verify t (secret env) env.(now) then next
        else ret (mkResponse 403 (msg "Invalid token"))
    | _ => ret (mkResponse 403 (msg "Invalid token"))
    end.

(** POST /api/registerDoctor *)
Definition registerDoctor (body : Body) : Task Response :=
  try_catch
    (let name := field "name" body in
     let email := field "email" body in
     let password := field "password" body in
     let specialty := field "specialty" body in
     let experience := field "experience" body in
     let location := field "location" body in
     let availability := field "availability" body in
     if negb (truthy name) || negb (truthy email) || negb (truthy password)
        || negb (truthy specialty) || negb (truthy experience)
        || negb (truthy location) || negb (truthy availability)
     then ret (mkResponse 400 (msg "All fields are required."))
     else
       existingDoctor <-
         await env RegisterDoctor_findOne (query (Doctor_findOne email)) ;;
       match existingDoctor with
       | Some _ =>
           ret (mkResponse 400
                  (msg "Doctor with this email already exists."))
       | None =>
           hashedPassword <- orThrow BcryptError (bcrypt_hash password 10) ;;
           doctor <-
             await env RegisterDoctor_save
               (write (Doctor_create
                         [("name", name); ("email", email);
                          ("password", JStr hashedPassword);
                          ("specialty", specialty);
                          ("experience", experience);
                          ("location", location);
                          ("availability", availability)])) ;;
           ret (mkResponse 201
                  (JObj [("message", JStr "Doctor registered successfully!");
                         ("doctor",
                           JObj [("id", idToJSON doctor.(Doctor._id));
                                 ("name", JStr doctor.(Doctor.name));
                                 ("email", JStr doctor.(Doctor.email))])]))
       end)
    (fun _ => ret (mkResponse 500 (msg "Internal server error."))).

(** POST /api/registerPatient *)
Definition registerPatient (body : Body) : Task Response :=
  try_catch
    (let name := field "name" body in
     let email := field "email" body in
     let password := field "password" body in
     let age := field "age" body in
     let gender := field "gender" body in
     let phone := field "phone" body in
     let address := field "address" body in
     if negb (truthy name) || negb (truthy email) || negb (truthy password)
        || negb (truthy age) || negb (truthy gender) || negb (truthy phone)
        || negb (truthy address)
     then ret (mkResponse 400 (msg "All fields are required."))
     else
       existingPatient <-
         await env RegisterPatient_findOne (query (Patient_findOne email)) ;;
       match existingPatient with
       | Some _ =>
           ret (mkResponse 400
                  (msg "Patient with this email already exists."))
       | None =>
           hashedPassword <- orThrow BcryptError (bcrypt_hash password 10) ;;
           _ <-
             await env RegisterPatient_save
               (write (Patient_create
                         [("name", name); ("email", email);
                          ("password", JStr hashedPassword);
                          ("age", age); ("gender", gender);
                          ("phone", phone); ("address", address)])) ;;
           ret (mkResponse 201 (msg "Patient registered successfully!"))
       end)
    (fun _ => ret (mkResponse 500 (msg "Internal server error."))).

(** POST /api/loginPatient *)
Definition loginPatient (body : Body) : Task Response :=
  try_catch
    (let email := field "email" body in
     let password := field "password" body in
     if negb (truthy email) || negb (truthy password)
     then ret (mkResponse 400 (msg "Email and password required."))
     else
       patient <-
         await env LoginPatient_findOne (query (Patient_findOne email)) ;;
       match patient with
       | None => ret (mkResponse 401 (msg "Patient not found."))
       | Some patient =>
           isPasswordValid <-
             orThrow BcryptError
               (bcrypt_compare password patient.(Patient.password)) ;;
           if negb isPasswordValid
           then ret (mkResponse 401 (msg "Invalid password."))
           else
             let token :=
               jwt_sign (PatientIdPayload patient.(Patient._id))
                 (secret env) "1h" in
             ret (mkResponse 200
                    (JObj [("success", JBool true);
                           ("message",
                             JStr "Patient logged in successfully!");
                           ("token", JStr token);
                           ("patient",
                             JObj [("id", idToJSON patient.(Patient._id));
                                   ("name", JStr patient.(Patient.name));
                                   ("email", JStr patient.(Patient.email));
                                   ("age", JNum patient.(Patient.age));
                                   ("gender", JStr patient.(Patient.gender));
                                   ("phone", JStr patient.(Patient.phone));
                                   ("address",
                                     JStr patient.(Patient.address))])]))
       end)
    (fun _ => ret (mkResponse 500 (msg "Internal server error."))).

(** POST /api/loginDoctor *)
Definition loginDoctor (body : Body) : Task Response :=
  try_catch
    (let email := field "email" body in
     let password := field "password" body in
     doctor <- await env LoginDoctor_findOne (query (Doctor_findOne email)) ;;
     match doctor with
     | None => ret (mkResponse 401 (msg "Doctor not found."))
     | Some doctor =>
         isPasswordValid <-
           orThrow BcryptError
             (bcrypt_compare password doctor.(Doctor.password)) ;;
         if negb isPasswordValid
         then ret (mkResponse 401 (msg "Invalid password."))
         else
           let token :=
             jwt_sign (DoctorIdPayload doctor.(Doctor._id))
               (secret env) "1h" in
           ret (mkResponse 200
                  (JObj [("success", JBool true);
                         ("message", JStr "Doctor logged in successfully!");
                         ("token", JStr token)]))
     end)
    (fun _ => ret (mkResponse 500 (msg "Server error."))).

(** GET /api/doctor/:doctorId *)
Definition getDoctor (authorization : option string) (doctorId : string)
  : Task Response :=
  authenticateToken authorization
    (try_catch
       (doctor <-
          await env GetDoctor_findById
            (query (Doctor_findById (JStr doctorId))) ;;
        match doctor with
        | None => ret (mkResponse 404 (msg "Doctor not found."))
        | Some doctor =>
            ret (mkResponse 200
                   (JObj [("availability",
                            JArr (map availabilityToJSON
                                    doctor.(Doctor.availability)))]))
        end)
       (fun _ => ret (mkResponse 500 (msg "Server error.")))).

(** POST /api/setAvailability *)
Definition setAvailability (authorization : option string) (body : Body)
  : Task Response :=
  authenticateToken authorization
    (try_catch
       (let doctorId := field "doctorId" body in
        let availability := field "availability" body in
        if negb (truthy doctorId) || negb (isArray availability)
        then ret (mkResponse 400 (msg "Invalid request format."))
        else
          doctor <-
            await env SetAvailability_findById
              (query (Doctor_findById doctorId)) ;;
          match doctor with
          | None => ret (mkResponse 404 (msg "Doctor not found."))
          | Some doctor =>
              doctor <-
                await env SetAvailability_save
                  (write (Doctor_saveAvailability doctor availability)) ;;
              ret (mkResponse 200
                     (JObj [("message",
                              JStr "Availability updated successfully!");
                            ("doctor",
                              JObj [("_id", idToJSON doctor.(Doctor._id));
                                    ("availability",
                                      JArr (map availabilityToJSON
                                              doctor.(Doctor.availability)))
                                   ])]))
          end)
       (fun _ => ret (mkResponse 500 (msg "Server error.")))).

(** POST /api/bookAppointment *)
Definition bookAppointment (body : Body) : Task Response :=
  try_catch
    (let doctorId := field "doctorId" body in
     let patientId := field "patientId" body in
     let patientName := field "patientName" body in
     let patientEmail := field "patientEmail" body in
     let timeSlot := field "timeSlot" body in
     if negb (truthy doctorId) || negb (truthy patientId)
        || negb (truthy patientName) || negb (truthy patientEmail)
        || negb (truthy timeSlot)
     then ret (mkResponse 400 (msg "All fields are required."))
     else
       existing <-
         await env Book_findOne
           (query (Appointment_findOne doctorId timeSlot)) ;;
       match existing with
       | Some _ => ret (mkResponse 400 (msg "Time slot already booked!"))
       | None =>
           appointment <-
             await env Book_save
               (write (Appointment_create
                         [("doctorId", doctorId); ("patientId", patientId);
                          ("patientName", patientName);
                          ("patientEmail", patientEmail);
                          ("timeSlot", timeSlot);
                          ("status", JStr "Booked")])) ;;
           _ <-
             await env Book_linkPatient
               (write (Patient_findByIdAndUpdate patientId
                         (Push "appointments"
                            (JId appointment.(Appointment._id))))) ;;
           _ <-
             sendEmail patientEmail "Appointment Confirmation"
               [Lit "Dear "; Interp patientName;
                Lit ", your appointment is booked for "; Interp timeSlot;
                Lit "."] ;;
           ret (mkResponse 201
                  (JObj [("message", JStr "Appointment booked successfully!");
                         ("appointment", appointmentToJSON appointment)]))
       end)
    (fun _ => ret (mkResponse 500 (msg "Internal server error"))).

(** POST /api/cancelAppointment.  The session starts empty; aborting it
    drops the buffered writes, so the [catch] and the two early returns
    only answer.  Starting, aborting and ending the session are taken not
    to fail. *)
Definition cancelAppointment (authorization : option string) (body : Body)
  : Task Response :=
  authenticateToken authorization
    (let session : Session := [] in
     try_catch
       (let appointmentId := field "appointmentId" body in
        let patientId := field "patientId" body in
        let patientEmail := field "patientEmail" body in
        if negb (truthy appointmentId)
        then ret (mkResponse 400 (msg "Appointment ID required."))
        else
          appointment <-
            await env Cancel_findById
              (query (Appointment_findById_in session appointmentId)) ;;
          match appointment with
          | None => ret (mkResponse 404 (msg "Appointment not found."))
          | Some appointment =>
              session <-
                await env Cancel_delete
                  (query (Appointment_findByIdAndDelete_in session
                            appointmentId)) ;;
              session <-
                await env Cancel_detach
                  (query (Patient_findByIdAndUpdate_in session patientId
                            (Pull "appointments" appointmentId))) ;;
              _ <- await env Cancel_commit (commitTransaction session) ;;
              _ <-
                sendEmail patientEmail "Appointment Cancelled"
                  [Lit "Your appointment on ";
                   Interp (JStr appointment.(Appointment.timeSlot));
                   Lit " was cancelled."] ;;
              ret (mkResponse 200 (msg "Appointment cancelled successfully!"))
          end)
       (fun _ => ret (mkResponse 500 (msg "Internal server error.")))).

(** GET /api/searchDoctors *)
Definition searchDoctors : Task Response :=
  try_catch
    (doctors <- await env Search_find (query Doctor_find) ;;
     ret (mkResponse 200
            (JArr (map (fun d => select_minus "password" (doctorToJSON d))
                     doctors))))
    (fun _ => ret (mkResponse 500 (msg "Internal server error."))).

End Handlers.

(** ** The server: one request, one handler *)

Inductive Request : Type :=
| POST_registerDoctor (body : Body)
| POST_registerPatient (body : Body)
| POST_loginDoctor (body : Body)
| POST_loginPatient (body : Body)
| GET_doctor (authorization : option string) (doctorId : string)
| POST_setAvailability (authorization : option string) (body : Body)
| POST_bookAppointment (body : Body)
| POST_cancelAppointment (authorization : option string) (body : Body)
| GET_searchDoctors.

Definition handle {L : Libraries} (env : Env) (r : Request) : Task Response :=
  match r with
  | POST_registerDoctor b => registerDoctor env b
  | POST_registerPatient b => registerPatient env b
  | POST_loginDoctor b => loginDoctor env b
  | POST_loginPatient b => loginPatient env b
  | GET_doctor a d => getDoctor env a d
  | POST_setAvailability a b => setAvailability env a b
  | POST_bookAppointment b => bookAppointment env b
  | POST_cancelAppointment a b => cancelAppointment env a b
  | GET_searchDoctors => searchDoctors env
  end.

(** The worlds the public endpoints can produce from an empty store, one
    request after the other, whatever the store's failures. *)
Inductive reachable {L : Libraries} : World -> Prop :=
| reach_init : reachable emptyWorld
| reach_step : forall w env r,
    reachable w -> reachable (snd (run (handle env r) w)).

(** ** A small instance of the libraries

    Enough of mongoose, bcryptjs and jsonwebtoken to run the handlers on
    concrete requests.  An ObjectId is written as its decimal digits, the
    hash of a password is the password behind a fixed prefix, and a token
    is a readable string that starts with the secret. *)

Module Sample.

Definition digit (c : ascii) : option N :=
  let n := N_of_ascii c in
  if (48 <=? n)%N && (n <=? 57)%N then Some (n - 48)%N else None.

Fixpoint parseDigits (acc : N) (s : string) : option N :=
  match s with
  | EmptyString => Some acc
  | String c r =>
      match digit c with
      | Some d => parseDigits (10 * acc + d)%N r
      | None => None
      end
  end.

Definition parseId (v : JsVal) : option ObjectId :=
  match v with
  | JStr (String c r) => parseDigits 0 (String c r)
  | _ => None
  end.

Fixpoint showDigits (fuel : nat) (n : N) (acc : string) : string :=
  match fuel with
  | O => acc
  | S fuel' =>
      let acc' := String (ascii_of_N (48 + n mod 10)) acc in
      if (n <? 10)%N then acc' else showDigits fuel' (n / 10)%N acc'
  end.

Definition showId (i : ObjectId) : string := showDigits 40 i "".

Definition hash (v : JsVal) (cost : nat) : option string :=
  match v with
  | JStr s => Some ("$2a$" ++ showId (N.of_nat cost) ++ "$" ++ s)%string
  | _ => None
  end.

Definition compare (v : JsVal) (h : string) : option bool :=
  match v with
  | JStr s => Some (String.eqb ("$2a$10$" ++ s)%string h)
  | _ => None
  end.

Definition sign (p : TokenPayload) (secret expiresIn : string) : string :=
  (secret ++ "." ++
   match p with
   | DoctorIdPayload i => "doctorId=" ++ showId i
   | PatientIdPayload i => "patientId=" ++ showId i
   end ++ "." ++ expiresIn)%string.

Definition verify (token secret : string) (now : N) : bool :=
  String.prefix (secret ++ ".")%string token.

(** The operators the sample store knows: [$ne] against a string or null,
    and [$eq] against a string. *)
Definition condition (v : JsVal) : option (string -> bool) :=
  match v with
  | JObj [(op, arg)] =>
      if String.eqb op "$ne"
      then match arg with
           | JNull => Some (fun _ => true)
           | JStr s => Some (fun x => negb (String.eqb x s))
           | _ => None
           end
      else if String.eqb op "$eq"
      then match arg with
           | JStr s => Some (fun x => String.eqb x s)
           | _ => None
           end
      else None
  | _ => None
  end.

#[global] Instance libraries : Libraries := {|
  castString := fun v => match v with
                         | JBool true => Some "true"
                         | JBool false => Some "false"
                         | JNum n => if (0 <=? n)%Z
                                     then Some (showId (Z.to_N n))
                                     else None
                         | _ => None
                         end;
  castNumber := fun v => match v with
                         | JNum n => Some n
                         | _ => None
                         end;
  castObjectId := parseId;
  stringCondition := condition;
  showObjectId := showId;
  bcrypt_hash := hash;
  bcrypt_compare := compare;
  jwt_sign := sign;
  jwt_verify := verify
|}.

(** An environment in which the store always answers. *)
Definition env : Env := mkEnv no_faults None 0%N.

(** The scenario of the specification. *)
Definition drA : Body :=
  [("name", JStr "Dr. A"); ("email", JStr "a@x.com"); ("password", JStr "pw");
   ("specialty", JStr "Cardio"); ("experience", JNum 5);
   ("location", JStr "NYC");
   ("availability",
     JArr [JObj [("day", JStr "Mon"); ("startTime", JStr "09:00");
                 ("endTime", JStr "10:00")]])].

Definition bob : Body :=
  [("name", JStr "Bob"); ("email", JStr "b@x.com"); ("password", JStr "pw");
   ("age", JNum 30); ("gender", JStr "M"); ("phone", JStr "555");
   ("address", JStr "1 Main St")].

Definition booking : Body :=
  [("doctorId", JStr "0"); ("patientId", JStr "1");
   ("patientName", JStr "Bob"); ("patientEmail", JStr "b@x.com");
   ("timeSlot", JStr "Mon-09:00")].

(** The world after Dr. A and Bob have registered. *)
Definition registered : World :=
  snd (run (registerPatient env bob)
         (snd (run (registerDoctor env drA) emptyWorld))).

(** ... and after Bob has booked Monday 09:00. *)
Definition booked : World :=
  snd (run (bookAppointment env booking) registered).

(** A header that passes [authenticateToken] under [env]. *)
Definition authorization : option string := Some "Bearer mysecret.session".


(** Cancelling Bob's appointment (its [_id] is 2), with and without the
    [patientId] in the body, and an appointment that does not exist. *)
Definition cancelBob : Body :=
  [("appointmentId", JStr "2"); ("patientId", JStr "1");
   ("patientEmail", JStr "b@x.com")].

Definition cancelNoPatient : Body :=
  [("appointmentId", JStr "2"); ("patientEmail", JStr "b@x.com")].


(** Setting Dr. A's availability to one entry that names no location. *)
Definition tuesday : list JsVal :=
  [JObj [("day", JStr "Tue"); ("startTime", JStr "10:00");
         ("endTime", JStr "11:00")]].

Definition setTuesday : Body :=
  [("doctorId", JStr "0"); ("availability", JArr tuesday)].





(** Logins that name no email, and an email that is an object of
    operators. *)
Definition noEmail : Body := [("password", JStr "pw")].

Definition anyEmail : Body :=
  [("email", JObj [("$ne", JNull)]); ("password", JStr "pw")].

(** Two identical bookings in flight at once, resumed in turn: both run
    their lookup before either saves. *)
Definition twoBookings : list (Task Response) :=
  [bookAppointment env booking; bookAppointment env booking].

Definition inTurn : list nat := [0; 1; 0; 1; 0; 1; 0; 1]%nat.

(** The same two bookings, the first one served to its end before the
    second one starts. *)
Definition oneAfterTheOther : list nat := [0; 0; 0; 0; 1; 1; 1; 1]%nat.

End Sample.

(** ** Vocabulary of the statements *)

(** Registration and login exist once for doctors and once for patients. *)
Inductive Kind : Type := AsDoctor | AsPatient.

Definition register {L : Libraries} (env : Env) (k : Kind)
  : Body -> Task Response :=
  match k with
  | AsDoctor => registerDoctor env
  | AsPatient => registerPatient env
  end.

Definition login {L : Libraries} (env : Env) (k : Kind)
  : Body -> Task Response :=
  match k with
  | AsDoctor => loginDoctor env
  | AsPatient => loginPatient env
  end.

(** The fields the validation of a registration names. *)
Definition requiredFields (k : Kind) : list string :=
  match k with
  | AsDoctor => ["name"; "email"; "password"; "specialty"; "experience";
                 "location"; "availability"]
  | AsPatient => ["name"; "email"; "password"; "age"; "gender"; "phone";
                  "address"]
  end.

(** The fields the validation of a booking names. *)
Definition bookingFields : list string :=
  ["doctorId"; "patientId"; "patientName"; "patientEmail"; "timeSlot"].

Definition someFalsy (ks : list string) (body : Body) : bool :=
  existsb (fun k => negb (truthy (field k body))) ks.

(** Is there a record of this kind with this email? *)
Definition emailTaken (k : Kind) (e : string) (s : Store) : bool :=
  match k with
  | AsDoctor => existsb (fun d => String.eqb d.(Doctor.email) e) s.(doctors)
  | AsPatient => existsb (fun p => String.eqb p.(Patient.email) e) s.(patients)
  end.

Definition conflictMessage (k : Kind) : string :=
  match k with
  | AsDoctor => "Doctor with this email already exists."
  | AsPatient => "Patient with this email already exists."
  end.

Definition register_findOne (k : Kind) : CallSite :=
  match k with
  | AsDoctor => RegisterDoctor_findOne
  | AsPatient => RegisterPatient_findOne
  end.

Definition login_findOne (k : Kind) : CallSite :=
  match k with
  | AsDoctor => LoginDoctor_findOne
  | AsPatient => LoginPatient_findOne
  end.

(** Is the slot of doctor [d] at [t] held by an appointment? *)
Definition slotTaken (d : ObjectId) (t : string) (s : Store) : bool :=
  existsb (fun a => N.eqb a.(Appointment.doctorId) d &&
                    String.eqb a.(Appointment.timeSlot) t)
    s.(appointments).

(** A request that passes [authenticateToken]. *)
Definition authenticated {L : Libraries} (env : Env)
  (authorization : option string) : bool :=
  match bearer authorization with
  | JStr t => negb (String.eqb t "") && jwt_verify t (secret env) env.(now)
  | _ => false
  end.

Definition notFoundMessage (k : Kind) : string :=
  match k with
  | AsDoctor => "Doctor not found."
  | AsPatient => "Patient not found."
  end.

(** The payload a login of kind [k] signs for the record [i]. *)
Definition payloadOf (k : Kind) (i : ObjectId) : TokenPayload :=
  match k with
  | AsDoctor => DoctorIdPayload i
  | AsPatient => PatientIdPayload i
  end.

(** The identifier and the stored hash of the record of kind [k] that the
    lookup by email finds. *)
Definition credentials (k : Kind) (e : string) (s : Store)
  : option (ObjectId * string) :=
  match k with
  | AsDoctor =>
      option_map (fun d => (d.(Doctor._id), d.(Doctor.password)))
        (find (fun d => String.eqb d.(Doctor.email) e) s.(doctors))
  | AsPatient =>
      option_map (fun p => (p.(Patient._id), p.(Patient.password)))
        (find (fun p => String.eqb p.(Patient.email) e) s.(patients))
  end.

(** The identifier and the stored hash of the first record of kind [k]
    whose email satisfies [c]. *)
Definition selected (k : Kind) (c : string -> bool) (s : Store)
  : option (ObjectId * string) :=
  match k with
  | AsDoctor =>
      option_map (fun d => (d.(Doctor._id), d.(Doctor.password)))
        (find (fun d => c d.(Doctor.email)) s.(doctors))
  | AsPatient =>
      option_map (fun p => (p.(Patient._id), p.(Patient.password)))
        (find (fun p => c p.(Patient.email)) s.(patients))
  end.

(** What the lookup of a login of kind [k] gives for the [email] of the
    request: the identifier and the stored hash of the record it finds. *)
Definition lookup {L : Libraries} (k : Kind) (email : JsVal) (s : Store)
  : Exn + option (ObjectId * string) :=
  match k with
  | AsDoctor =>
      match Doctor_findOne email s with
      | inl e => inl e
      | inr o =>
          inr (option_map (fun d => (d.(Doctor._id), d.(Doctor.password))) o)
      end
  | AsPatient =>
      match Patient_findOne email s with
      | inl e => inl e
      | inr o =>
          inr (option_map (fun p => (p.(Patient._id), p.(Patient.password)))
                 o)
      end
  end.

(** A value that a query casts to a string before it compares it: it is
    not absent, not null, no string already, and no condition. *)
Definition castable (v : JsVal) : bool :=
  match v with
  | JUndefined | JNull | JStr _ => false
  | _ => negb (isCondition v)
  end.

(** The message of the [catch] of a login. *)
Definition failureMessage (k : Kind) : string :=
  match k with
  | AsDoctor => "Server error."
  | AsPatient => "Internal server error."
  end.

(** The check a login makes before it looks anything up: the patient login
    wants an email and a password, the doctor login checks nothing. *)
Definition loginGuard (k : Kind) (body : Body) : bool :=
  match k with
  | AsDoctor => true
  | AsPatient => truthy (field "email" body) && truthy (field "password" body)
  end.

(** The [token] member of a response. *)
Definition tokenOf (r : Response) : JsVal :=
  match r.(json) with
  | JObj o => field "token" o
  | _ => JUndefined
  end.

(** The first clause of the login contract, read for every request: an
    email that no record carries is answered "not found". *)
Definition not_found_for_every_login : Prop :=
  forall (L : Libraries) (env : Env) (k : Kind) (body : Body) (w : World)
         (e : string),
    toString (field "email" body) = Some e ->
    env.(faults) (login_findOne k) = false ->
    credentials k e w.(db) = None ->
    exists r, fst (run (login env k body) w) = inr r /\
              r.(json) = msg (notFoundMessage k).

(** The writes a cancellation commits: the appointment [i] goes, and the
    patient the request body names, if it names one, is detached. *)
Definition cancelWrites (i : ObjectId) (patient : option ObjectId)
  (appointmentId : JsVal) : Session :=
  DeleteAppointment i ::
  match patient with
  | Some p =>
      [UpdatePatient PatientSchema p (Pull "appointments" appointmentId)]
  | None => []
  end.

(** Every stored appointment has status "Booked". *)
Definition allBooked (w : World) : Prop :=
  Forall (fun a => a.(Appointment.status) = "Booked") w.(db).(appointments).

(** The event loop: requests arrive at any time, and the tasks in flight
    are resumed in any order, one [await] at a time. *)
Inductive serving {L : Libraries} : list (Task Response) -> World -> Prop :=
| serving_start : serving [] emptyWorld
| serving_accept : forall pool w env r,
    serving pool w -> serving (pool ++ [handle env r]) w
| serving_turn : forall pool w i t,
    serving pool w -> nth_error pool i = Some t ->
    serving (replace_nth i (fst (step t w)) pool) (snd (step t w)).

(** [preserves P t]: every turn of the task [t] keeps [P] of the world. *)
Fixpoint preserves {A : Type} (P : World -> Prop) (t : Task A) : Prop :=
  match t with
  | Do op k =>
      forall w, P w -> P (snd (op w)) /\ preserves P (k (fst (op w)))
  | _ => True
  end.




(** A doctor record with the password field left out. *)
Definition doctorWithoutPassword {L : Libraries} (d : Doctor.t) : JsVal :=
  JObj [("_id", idToJSON d.(Doctor._id));
        ("name", JStr d.(Doctor.name));
        ("email", JStr d.(Doctor.email));
        ("specialty", JStr d.(Doctor.specialty));
        ("experience", JNum d.(Doctor.experience));
        ("location", JStr d.(Doctor.location));
        ("availability",
          JArr (map availabilityToJSON d.(Doctor.availability)))].







(** The status a task in the pool has answered with, once it has ended. *)
Definition answered (t : Task Response) : option nat :=
  match t with
  | Ret r => Some r.(status)
  | _ => None
  end.

(** The slots the stored appointments hold. *)
Definition slots (w : World) : list (ObjectId * string) :=
  map (fun a => (a.(Appointment.doctorId), a.(Appointment.timeSlot)))
    w.(db).(appointments).

(** The status a run has answered with, if it has answered. *)
Definition statusOf (o : Exn + Response) : option nat :=
  match o with
  | inr r => Some r.(status)
  | inl _ => None
  end.

(** ** Vocabulary of the further properties *)

(** A string without a space. *)
Fixpoint noSpace (s : string) : bool :=
  match s with
  | EmptyString => true
  | String c r => negb (Ascii.eqb c " ") && noSpace r
  end.

(** What may follow a word of a header: nothing, or a space and the rest. *)
Definition atBreak (r : string) : bool :=
  match r with
  | EmptyString => true
  | String c _ => Ascii.eqb c " "
  end.

(** What [authenticateToken] answers to a request it turns away. *)
Definition denial (authorization : option string) : Response :=
  if truthy (bearer authorization)
  then mkResponse 403 (msg "Invalid token")
  else mkResponse 401 (msg "Access denied").

(** A doctor record without its availability, a patient record without its
    appointments: what no endpoint rewrites. *)
Definition doctorCore (d : Doctor.t)
  : ObjectId * string * string * string * string * Z * string :=
  (d.(Doctor._id), d.(Doctor.name), d.(Doctor.email), d.(Doctor.password),
   d.(Doctor.specialty), d.(Doctor.experience), d.(Doctor.location)).

Definition patientCore (p : Patient.t)
  : ObjectId * string * string * string * Z * string * string * string :=
  (p.(Patient._id), p.(Patient.name), p.(Patient.email),
   p.(Patient.password), p.(Patient.age), p.(Patient.gender),
   p.(Patient.phone), p.(Patient.address)).

(** [w] holds every doctor and patient record of [w0], in the same order
    and with the same identity, credentials and profile, and maybe more
    records after them. *)
Definition keepsRecordsOf (w0 : World) (s : Store) : Prop :=
  (exists l, map doctorCore s.(doctors) =
             map doctorCore w0.(db).(doctors) ++ l) /\
  (exists l, map patientCore s.(patients) =
             map patientCore w0.(db).(patients) ++ l).

Definition keepsRecords (w0 w : World) : Prop := keepsRecordsOf w0 w.(db).

(** No two doctors share an email, and no two patients do. *)
Definition emailsUniqueIn (s : Store) : Prop :=
  NoDup (map Doctor.email s.(doctors)) /\
  NoDup (map Patient.email s.(patients)).

Definition emailsUnique (w : World) : Prop := emailsUniqueIn w.(db).

(** No two stored appointments hold the same doctor and time slot. *)
Definition slotsUnique (w : World) : Prop := NoDup (slots w).

(** Every stored appointment has an [_id] that was handed out before. *)
Definition idsHandedOutIn (s : Store) : Prop :=
  Forall (fun a => (a.(Appointment._id) < s.(next_id))%N) s.(appointments).

Definition idsHandedOut (w : World) : Prop := idsHandedOutIn w.(db).

(** The fields a booking hands to [new Appointment]. *)
Definition appointmentFields (body : Body) : Body :=
  [("doctorId", field "doctorId" body);
   ("patientId", field "patientId" body);
   ("patientName", field "patientName" body);
   ("patientEmail", field "patientEmail" body);
   ("timeSlot", field "timeSlot" body);
   ("status", JStr "Booked")].

(** The mails of the two handlers that send one. *)
Definition confirmationMail (body : Body) : Email :=
  mkEmail (field "patientEmail" body) "Appointment Confirmation"
    [Lit "Dear "; Interp (field "patientName" body);
     Lit ", your appointment is booked for ";
     Interp (field "timeSlot" body); Lit "."].

Definition cancellationMail (body : Body) (a : Appointment.t) : Email :=
  mkEmail (field "patientEmail" body) "Appointment Cancelled"
    [Lit "Your appointment on "; Interp (JStr a.(Appointment.timeSlot));
     Lit " was cancelled."].

(** Is the request a booking or a cancellation? *)
Definition mailing (r : Request) : option Body :=
  match r with
  | POST_bookAppointment b => Some b
  | POST_cancelAppointment _ b => Some b
  | _ => None
  end.

(** The same doctor with another availability list. *)
Definition withAvailability (av : list (option Availability.t))
  (d : Doctor.t)
  : Doctor.t :=
  Doctor.mk d.(Doctor._id) d.(Doctor.name) d.(Doctor.email)
    d.(Doctor.password) d.(Doctor.specialty) d.(Doctor.experience)
    d.(Doctor.location) av.

(** The tasks of a list of requests, each with the environment it meets. *)
Definition inFlight {L : Libraries} (reqs : list (Env * Request))
  : list (Task Response) :=
  map (fun er => handle (fst er) (snd er)) reqs.


Definition bobsAppointment : Appointment.t :=
  Appointment.mk 2%N "Bob" "b@x.com" 0%N "Mon-09:00" "Booked".

Definition slotsUniqueIn (s : Store) : Prop :=
  NoDup (map (fun a => (a.(Appointment.doctorId), a.(Appointment.timeSlot)))
           s.(appointments)).

(** A value that does not satisfy [required: true] on a String path, and
    an availability entry that is an object and lacks a required field. *)
Definition blank (v : JsVal) : bool :=
  match v with
  | JUndefined | JNull => true
  | JStr s => String.eqb s ""
  | _ => false
  end.

Definition incomplete (entry : JsVal) : bool :=
  match entry with
  | JObj o =>
      blank (field "day" o) || blank (field "startTime" o)
      || blank (field "endTime" o)
  | _ => false
  end.

(** The fields a registration hands to [new Doctor] and [new Patient],
    with the hash [h] in the place of the password. *)
Definition doctorFields (body : Body) (h : string) : Body :=
  [("name", field "name" body); ("email", field "email" body);
   ("password", JStr h); ("specialty", field "specialty" body);
   ("experience", field "experience" body);
   ("location", field "location" body);
   ("availability", field "availability" body)].

Definition patientFields (body : Body) (h : string) : Body :=
  [("name", field "name" body); ("email", field "email" body);
   ("password", JStr h); ("age", field "age" body);
   ("gender", field "gender" body); ("phone", field "phone" body);
   ("address", field "address" body)].

(** Two requests in flight, resumed in turn, for handlers of two awaits. *)
Definition alternately : list nat := [0; 1; 0; 1]%nat.

Definition register_save (k : Kind) : CallSite :=
  match k with
  | AsDoctor => RegisterDoctor_save
  | AsPatient => RegisterPatient_save
  end.

(** * Properties *)

Unset Implicit Arguments.

(** ** Running a handler, one [await] at a time *)

Section RunLemmas.
Context {L : Libraries}.
Variables (A X : Type) (env : Env) (h : Exn -> Task A).

Lemma run_try_await : forall (site : CallSite)
    (op : World -> (Exn + X) * World) (k : X -> Task A) (w : World),
  run (try_catch (bind (await env site op) k) h) w =
  if env.(faults) site then run (h StoreError) w
  else match op w with
       | (inl e, w') => run (h e) w'
       | (inr x, w') => run (try_catch (k x) h) w'
       end.
Proof.
  intros site op k w. unfold await. cbn.
  destruct (faults env site); cbn; [reflexivity|].
  destruct (op w) as [[e|x] w']; reflexivity.
Qed.

Lemma run_try_orThrow : forall (e : Exn) (o : option X) (k : X -> Task A)
    (w : World),
  run (try_catch (bind (orThrow e o) k) h) w =
  match o with
  | Some x => run (try_catch (k x) h) w
  | None => run (h e) w
  end.
Proof. intros e [x|] k w; reflexivity. Qed.

Lemma run_try_sendEmail : forall (dest : JsVal) (subj : string)
    (body : list TextPart) (k : unit -> Task A) (w : World),
  run (try_catch (bind (sendEmail dest subj body) k) h) w =
  run (try_catch (k tt) h)
    (mkWorld w.(db) (w.(outbox) ++ [mkEmail dest subj body])).
Proof. reflexivity. Qed.

End RunLemmas.

Lemma existsb_find : forall (A : Type) (p : A -> bool) (l : list A),
  existsb p l = true -> exists x, find p l = Some x /\ p x = true.
Proof.
  induction l as [|a l IH]; cbn; intros H; [discriminate|].
  destruct (p a) eqn:E; [exists a; auto | auto].
Qed.

Lemma find_existsb : forall (A : Type) (p : A -> bool) (l : list A),
  find p l = None -> existsb p l = false.
Proof.
  induction l as [|a l IH]; cbn; intros H; [reflexivity|].
  destruct (p a); [discriminate | auto].
Qed.

(** ** Lookups by email *)

Section Lookups.
Context {L : Libraries}.

Lemma toString_plain : forall (v : JsVal) (e : string),
  toString v = Some e -> isCondition v = false.
Proof.
  intros v e. unfold toString.
  destruct v; try reflexivity; destruct (isCondition _); auto; discriminate.
Qed.

(** A truthy value that casts to a string is looked up as that string. *)
Lemma stringQuery_toString : forall (v : JsVal) (e : string),
  truthy v = true -> toString v = Some e ->
  stringQuery v = inr (fun x => String.eqb x e).
Proof.
  intros v e Ht He. pose proof (toString_plain v e He) as Hc.
  unfold stringQuery. rewrite Hc, He.
  destruct v; try discriminate; reflexivity.
Qed.

Lemma Doctor_findOne_toString : forall (v : JsVal) (e : string) (s : Store),
  truthy v = true -> toString v = Some e ->
  Doctor_findOne v s =
  inr (find (fun d => String.eqb d.(Doctor.email) e) s.(doctors)).
Proof.
  intros v e s Ht He. unfold Doctor_findOne.
  rewrite (stringQuery_toString v e Ht He). reflexivity.
Qed.

Lemma Patient_findOne_toString : forall (v : JsVal) (e : string) (s : Store),
  truthy v = true -> toString v = Some e ->
  Patient_findOne v s =
  inr (find (fun p => String.eqb p.(Patient.email) e) s.(patients)).
Proof.
  intros v e s Ht He. unfold Patient_findOne.
  rewrite (stringQuery_toString v e Ht He). reflexivity.
Qed.

Lemma find_none : forall (A : Type) (l : list A),
  find (fun _ => false) l = None.
Proof. induction l; cbn; auto. Qed.

(** A request without an email, or with a null one, finds nobody. *)
Lemma findOne_no_email : forall (v : JsVal) (s : Store),
  v = JUndefined \/ v = JNull ->
  Doctor_findOne v s = inr None /\ Patient_findOne v s = inr None.
Proof.
  intros v s [->| ->]; unfold Doctor_findOne, Patient_findOne; cbn;
    rewrite !find_none; split; reflexivity.
Qed.

End Lookups.

Lemma someFalsy_false : forall (ks : list string) (body : Body) (k : string),
  someFalsy ks body = false -> In k ks -> truthy (field k body) = true.
Proof.
  intros ks body k H Hin. unfold someFalsy in H.
  destruct (truthy (field k body)) eqn:E; [reflexivity|].
  assert (existsb (fun k => negb (truthy (field k body))) ks = true).
  { apply existsb_exists. exists k. rewrite E. auto. }
  congruence.
Qed.

(** ** Registration *)

Lemma validation_guard7 : forall a b c d e f g : bool,
  a || (b || (c || (d || (e || (f || (g || false)))))) =
  a || b || c || d || e || f || g.
Proof.
  intros; repeat match goal with x : bool |- _ => destruct x end;
    reflexivity.
Qed.

(** C8.  A registration (doctor or patient) in which one of the required
    fields is missing or falsy (an [experience] or an [age] of 0 included)
    is answered 400 "All fields are required." and leaves the store as it
    was, whatever the store does. *)
Theorem registration_rejects_falsy_field :
  forall (L : Libraries) (env : Env) (k : Kind) (body : Body) (w : World),
    someFalsy (requiredFields k) body = true ->
    run (register env k body) w =
    (inr (mkResponse 400 (msg "All fields are required.")), w).
Proof.
  intros L env k body w H.
  destruct k; cbn [requiredFields someFalsy existsb] in H;
    rewrite validation_guard7 in H;
    unfold register, registerDoctor, registerPatient;
    rewrite H; reflexivity.
Qed.

Lemma registration_rejects_falsy_field_witness :
  someFalsy (requiredFields AsDoctor)
    [("name", JStr "Dr. A"); ("email", JStr "a@x.com");
     ("password", JStr "pw"); ("specialty", JStr "Cardio");
     ("experience", JNum 0); ("location", JStr "NYC");
     ("availability", JArr [])] = true /\
  run (register Sample.env AsDoctor
         [("name", JStr "Dr. A"); ("email", JStr "a@x.com");
          ("password", JStr "pw"); ("specialty", JStr "Cardio");
          ("experience", JNum 0); ("location", JStr "NYC");
          ("availability", JArr [])]) emptyWorld =
  (inr (mkResponse 400 (msg "All fields are required.")), emptyWorld).
Proof.
  split; [reflexivity|].
  apply (@registration_rejects_falsy_field Sample.libraries).
  reflexivity.
Defined.

(** C7.  A registration that passes the validation and whose email is the
    email of a stored record of the same kind leaves the whole store as it
    was, and, when the store answers the lookup, is refused with 400 and
    the "already exists" message of its kind. *)
Theorem registration_conflict :
  forall (L : Libraries) (env : Env) (k : Kind) (body : Body) (w : World)
         (e : string),
    someFalsy (requiredFields k) body = false ->
    toString (field "email" body) = Some e ->
    emailTaken k e w.(db) = true ->
    snd (run (register env k body) w) = w /\
    (env.(faults) (register_findOne k) = false ->
     fst (run (register env k body) w) =
     inr (mkResponse 400 (msg (conflictMessage k)))).
Proof.
  intros L env k body w e Hv He Ht.
  assert (Te : truthy (field "email" body) = true).
  { apply (someFalsy_false (requiredFields k) body "email" Hv).
    destruct k; cbn; tauto. }
  destruct k; cbn [requiredFields someFalsy existsb] in Hv;
    rewrite validation_guard7 in Hv;
    unfold register, registerDoctor, registerPatient;
    rewrite Hv; rewrite run_try_await;
    cbn [register_findOne];
    unfold query;
    rewrite ?(Doctor_findOne_toString _ e (db w) Te He),
            ?(Patient_findOne_toString _ e (db w) Te He);
    apply existsb_find in Ht; destruct Ht as [x [Hx _]]; rewrite Hx;
    destruct (faults env _); cbn; split; intros; try discriminate;
    reflexivity.
Qed.

Lemma registration_conflict_witness :
  snd (run (register Sample.env AsDoctor Sample.drA) Sample.registered) =
  Sample.registered /\
  fst (run (register Sample.env AsDoctor Sample.drA) Sample.registered) =
  inr (mkResponse 400 (msg "Doctor with this email already exists.")).
Proof.
  destruct (@registration_conflict Sample.libraries Sample.env AsDoctor
              Sample.drA Sample.registered "a@x.com"
              eq_refl eq_refl eq_refl) as [H1 H2].
  split; [exact H1 | exact (H2 eq_refl)].
Defined.

(** ** Booking *)

Lemma validation_guard5 : forall a b c d e : bool,
  a || (b || (c || (d || (e || false)))) = a || b || c || d || e.
Proof.
  intros; repeat match goal with x : bool |- _ => destruct x end;
    reflexivity.
Qed.

Lemma optionalString_truthy : forall (L : Libraries) (v : JsVal) (t : string),
  truthy v = true -> toString v = Some t -> optionalString v = inr t.
Proof.
  intros L v t Hv Ht. unfold optionalString. rewrite Ht.
  destruct v; cbn in Hv; try discriminate; reflexivity.
Qed.

(** What a booking that is answered 201 has stored. *)
Lemma book_201_slot_taken :
  forall (L : Libraries) (env : Env) (body : Body) (w : World),
    statusOf (fst (run (bookAppointment env body) w)) = Some 201 ->
    exists d t,
      someFalsy bookingFields body = false /\
      toObjectId (field "doctorId" body) = Some d /\
      toString (field "timeSlot" body) = Some t /\
      slotTaken d t (snd (run (bookAppointment env body) w)).(db) = true.
Proof.
  intros L env body w.
  unfold bookAppointment.
  assert (G : someFalsy bookingFields body =
              negb (truthy (field "doctorId" body))
              || negb (truthy (field "patientId" body))
              || negb (truthy (field "patientName" body))
              || negb (truthy (field "patientEmail" body))
              || negb (truthy (field "timeSlot" body))).
  { cbn [bookingFields someFalsy existsb]. apply validation_guard5. }
  rewrite <- G. destruct (someFalsy bookingFields body) eqn:Hv;
    [cbn; discriminate|].
  assert (Tt : truthy (field "timeSlot" body) = true).
  { apply (@someFalsy_false bookingFields body "timeSlot" Hv). cbn. tauto. }
  rewrite run_try_await.
  destruct (faults env Book_findOne); [cbn; discriminate|].
  unfold query, Appointment_findOne.
  destruct (toObjectId (field "doctorId" body)) as [d|] eqn:Ed;
    [|cbn; discriminate].
  destruct (toString (field "timeSlot" body)) as [t|] eqn:Et;
    [|cbn; discriminate].
  destruct (find _ _); [cbn; discriminate|].
  rewrite run_try_await.
  destruct (faults env Book_save); [cbn; discriminate|].
  unfold write, Appointment_create.
  cbn [field String.eqb Ascii.eqb Bool.eqb].
  rewrite Ed.
  destruct (optionalString (field "patientName" body)) as [?|pn];
    [cbn; discriminate|].
  destruct (optionalString (field "patientEmail" body)) as [?|pe];
    [cbn; discriminate|].
  destruct (optionalString (field "timeSlot" body)) as [?|t'] eqn:Et';
    [cbn; discriminate|].
  assert (t' = t).
  { rewrite (@optionalString_truthy L _ _ Tt Et) in Et'. congruence. }
  subst t'. cbn [defaultString optionalString toString db].
  rewrite run_try_await.
  set (a := Appointment.mk _ _ _ _ _ _).
  set (s1 := mkStore _ _ (appointments (db w) ++ [a]) _).
  assert (S1 : slotTaken d t s1 = true).
  { unfold slotTaken, s1. cbn [appointments]. rewrite existsb_app.
    cbn. rewrite N.eqb_refl, String.eqb_refl. apply orb_true_r. }
  destruct (faults env Book_linkPatient); [cbn; discriminate|].
  unfold write, Patient_findByIdAndUpdate. cbn [db].
  destruct (castId (field "patientId" body)) as [?|[i|]];
    [cbn; discriminate| |].
  - destruct (updateCasts _ _); [|cbn; discriminate].
    rewrite run_try_sendEmail. cbn [run try_catch ret Monad_Task fst snd db].
    intros _. exists d, t. repeat split; auto.
  - rewrite run_try_sendEmail. cbn [run try_catch ret Monad_Task fst snd db].
    intros _. exists d, t. repeat split; auto.
Qed.

Lemma book_when_slot_taken :
  forall (L : Libraries) (env : Env) (body : Body) (w : World)
         (d : ObjectId) (t : string),
    someFalsy bookingFields body = false ->
    toObjectId (field "doctorId" body) = Some d ->
    toString (field "timeSlot" body) = Some t ->
    slotTaken d t w.(db) = true ->
    snd (run (bookAppointment env body) w) = w /\
    (env.(faults) Book_findOne = false ->
     fst (run (bookAppointment env body) w) =
     inr (mkResponse 400 (msg "Time slot already booked!"))).
Proof.
  intros L env body w d t Hv Ed Et Hs.
  unfold bookAppointment.
  cbn [bookingFields someFalsy existsb] in Hv.
  rewrite validation_guard5 in Hv. rewrite Hv.
  rewrite run_try_await. unfold query, Appointment_findOne.
  rewrite Ed, Et.
  apply existsb_find in Hs. destruct Hs as [a [Ha _]]. rewrite Ha.
  destruct (faults env Book_findOne); cbn; split; intros;
    try discriminate; reflexivity.
Qed.

(** C1.  A booking whose five fields pass the validation and whose
    (doctorId, timeSlot) pair is already held by a stored appointment
    creates nothing (the world is left as it was) and, when the store
    answers the lookup, is refused with 400 "Time slot already booked!".
    In particular the same booking sent again after it was answered 201
    is refused in this way. *)
Theorem booking_conflict :
  forall (L : Libraries) (env : Env) (body : Body) (w : World),
    (forall (d : ObjectId) (t : string),
        someFalsy bookingFields body = false ->
        toObjectId (field "doctorId" body) = Some d ->
        toString (field "timeSlot" body) = Some t ->
        slotTaken d t w.(db) = true ->
        snd (run (bookAppointment env body) w) = w /\
        (env.(faults) Book_findOne = false ->
         fst (run (bookAppointment env body) w) =
         inr (mkResponse 400 (msg "Time slot already booked!")))) /\
    (forall (env0 : Env) (w0 : World),
        statusOf (fst (run (bookAppointment env0 body) w0)) = Some 201 ->
        w = snd (run (bookAppointment env0 body) w0) ->
        snd (run (bookAppointment env body) w) = w /\
        (env.(faults) Book_findOne = false ->
         fst (run (bookAppointment env body) w) =
         inr (mkResponse 400 (msg "Time slot already booked!")))).
Proof.
  intros L env body w. split.
  - intros d t. apply book_when_slot_taken.
  - intros env0 w0 H201 Hw.
    destruct (book_201_slot_taken L env0 body w0 H201)
      as [d [t [Hv [Ed [Et Hs]]]]].
    rewrite <- Hw in Hs.
    exact (book_when_slot_taken L env body w d t Hv Ed Et Hs).
Qed.

Lemma booking_conflict_witness :
  run (bookAppointment Sample.env Sample.booking) Sample.booked =
  (inr (mkResponse 400 (msg "Time slot already booked!")), Sample.booked).
Proof.
  destruct (@booking_conflict Sample.libraries Sample.env Sample.booking
              Sample.booked) as [H1 H2].
  destruct (H1 0%N "Mon-09:00" eq_refl eq_refl eq_refl eq_refl) as [Ha Hb].
  destruct (H2 Sample.env Sample.registered eq_refl eq_refl) as [Hc Hd].
  rewrite (surjective_pairing (run _ _)).
  rewrite Hc, (Hd eq_refl). reflexivity.
Defined.

(** ** Login *)

(** C5, as the handlers have it.  A doctor login, whatever its body, and a
    patient login that carries a truthy email and password, never changes
    the world and, when the store answers the lookup by the email of the
    request: is answered 401 "... not found." if the lookup finds no
    record; 401 "Invalid password." if the comparison with the stored
    hash says no; 200 with a token signed with the process secret for one
    hour ("1h") over the payload that names the record's identifier under
    the key of its kind if it says yes; and 500 if the store refuses the
    email as a query or bcrypt refuses the password.  The lookup finds no
    record for an absent or null email, the first record with the email
    for a string, and the first record the operators select for an object
    of operators. *)
Theorem login_outcomes :
  forall (L : Libraries) (env : Env) (k : Kind) (body : Body) (w : World),
    loginGuard k body = true ->
    snd (run (login env k body) w) = w /\
    (env.(faults) (login_findOne k) = false ->
     match lookup k (field "email" body) w.(db) with
     | inl _ =>
         fst (run (login env k body) w) =
         inr (mkResponse 500 (msg (failureMessage k)))
     | inr None =>
         fst (run (login env k body) w) =
         inr (mkResponse 401 (msg (notFoundMessage k)))
     | inr (Some (i, h)) =>
         (bcrypt_compare (field "password" body) h = Some false ->
          fst (run (login env k body) w) =
          inr (mkResponse 401 (msg "Invalid password."))) /\
         (bcrypt_compare (field "password" body) h = Some true ->
          exists r, fst (run (login env k body) w) = inr r /\
                    r.(status) = 200 /\
                    tokenOf r =
                    JStr (jwt_sign (payloadOf k i) (secret env) "1h")) /\
         (bcrypt_compare (field "password" body) h = None ->
          fst (run (login env k body) w) =
          inr (mkResponse 500 (msg (failureMessage k))))
     end) /\
    (forall s, lookup k JUndefined s = inr None /\
               lookup k JNull s = inr None) /\
    (forall e s, lookup k (JStr e) s = inr (credentials k e s)) /\
    (forall v c s, isCondition v = true -> stringCondition v = Some c ->
                   lookup k v s = inr (selected k c s)) /\
    (forall v e s, castable v = true -> castString v = Some e ->
                   lookup k v s = inr (credentials k e s)) /\
    (forall v s, isCondition v = true /\ stringCondition v = None \/
                 castable v = true /\ castString v = None ->
                 lookup k v s = inl CastError).
Proof.
  intros L env k body w Hg.
  split; [|split; [|split; [|split; [|split; [|split]]]]].
  - destruct k; cbn [login loginGuard] in *;
      unfold loginDoctor, loginPatient;
      [|apply andb_prop in Hg; destruct Hg as [Hg1 Hg2];
        rewrite Hg1, Hg2; cbn [negb orb]];
      rewrite run_try_await; unfold query;
      (destruct (faults env _); [reflexivity|]);
      [destruct (Doctor_findOne _ (db w)) as [e|[x|]]
      |destruct (Patient_findOne _ (db w)) as [e|[x|]]];
      try reflexivity;
      rewrite run_try_orThrow;
      destruct (bcrypt_compare _ _) as [[|]|]; reflexivity.
  - intros Hf.
    destruct k; cbn [login loginGuard login_findOne lookup] in *;
      unfold loginDoctor, loginPatient;
      [|apply andb_prop in Hg; destruct Hg as [Hg1 Hg2];
        rewrite Hg1, Hg2; cbn [negb orb]];
      rewrite run_try_await, Hf; unfold query;
      [destruct (Doctor_findOne _ (db w)) as [e|[x|]]
      |destruct (Patient_findOne _ (db w)) as [e|[x|]]];
      cbn [option_map]; try reflexivity;
      rewrite run_try_orThrow;
      (destruct (bcrypt_compare _ _) as [[|]|]; cbn;
       repeat split; intros H; try discriminate; try reflexivity;
       eexists; split; [reflexivity|]; split; reflexivity).
  - intros s.
    destruct (findOne_no_email JUndefined s (or_introl eq_refl)) as [D1 P1].
    destruct (findOne_no_email JNull s (or_intror eq_refl)) as [D2 P2].
    destruct k; cbn [lookup]; rewrite ?D1, ?D2, ?P1, ?P2; split; reflexivity.
  - intros e s. destruct k; reflexivity.
  - intros v c s Hc Hs.
    destruct k; cbn [lookup]; unfold Doctor_findOne, Patient_findOne,
      stringQuery; rewrite Hc, Hs;
      destruct v; try discriminate; reflexivity.
  - intros v e s Hc Hs.
    destruct k; cbn [lookup]; unfold Doctor_findOne, Patient_findOne,
      stringQuery, toString;
      destruct v; try discriminate; unfold castable in Hc;
      cbv beta iota in *; apply negb_true_iff in Hc;
      rewrite Hc, Hs; reflexivity.
  - intros v s [[Hc Hs]|[Hc Hs]];
      destruct k; cbn [lookup]; unfold Doctor_findOne, Patient_findOne,
        stringQuery, toString;
      destruct v; try discriminate; unfold castable in Hc;
      cbv beta iota in *; try apply negb_true_iff in Hc;
      rewrite Hc, Hs; reflexivity.
Qed.

Lemma login_outcomes_witness :
  fst (run (login Sample.env AsDoctor Sample.noEmail) Sample.registered) =
  inr (mkResponse 401 (msg "Doctor not found.")) /\
  (exists r,
     fst (run (login Sample.env AsDoctor
                 [("email", JStr "a@x.com"); ("password", JStr "pw")])
            Sample.registered) = inr r /\
     r.(status) = 200 /\
     tokenOf r = JStr "mysecret.doctorId=0.1h") /\
  (exists r,
     fst (run (login Sample.env AsDoctor Sample.anyEmail)
            Sample.registered) = inr r /\
     r.(status) = 200 /\
     tokenOf r = JStr "mysecret.doctorId=0.1h").
Proof.
  split; [|split].
  - destruct (@login_outcomes Sample.libraries Sample.env AsDoctor
                Sample.noEmail Sample.registered eq_refl) as [_ [H _]].
    exact (H eq_refl).
  - destruct (@login_outcomes Sample.libraries Sample.env AsDoctor
                [("email", JStr "a@x.com"); ("password", JStr "pw")]
                Sample.registered eq_refl) as [_ [H _]].
    specialize (H eq_refl). cbn in H. destruct H as [_ [H _]].
    exact (H eq_refl).
  - destruct (@login_outcomes Sample.libraries Sample.env AsDoctor
                Sample.anyEmail Sample.registered eq_refl) as [_ [H _]].
    specialize (H eq_refl). cbn in H. destruct H as [_ [H _]].
    exact (H eq_refl).
Defined.

(** C5, as stated, fails on the patient login: a request with an email that
    no patient has and with no password is answered 400 "Email and password
    required.", not "Patient not found.". *)
Lemma login_not_found_counterexample : ~ not_found_for_every_login.
Proof.
  intros H.
  specialize (H Sample.libraries Sample.env AsPatient
                [("email", JStr "nobody@x.com")] Sample.registered
                "nobody@x.com" eq_refl eq_refl eq_refl).
  destruct H as [r [E M]]. vm_compute in E. inversion E. subst r.
  vm_compute in M. discriminate M.
Qed.

(** ** Cancellation *)

Section Cancellation.
Context {L : Libraries}.
Variable env : Env.

Lemma run_authenticateToken :
  forall (authorization : option string) (next : Task Response) (w : World),
    run (authenticateToken env authorization next) w =
    if authenticated env authorization then run next w
    else (inr (if truthy (bearer authorization)
               then mkResponse 403 (msg "Invalid token")
               else mkResponse 401 (msg "Access denied")), w).
Proof.
  intros auth next w. unfold authenticateToken, authenticated.
  destruct (bearer auth) as [ | |b|n|t|i|l|l]; cbn; try reflexivity.
  - destruct b; reflexivity.
  - destruct (n =? 0)%Z; reflexivity.
  - destruct (String.eqb t ""); cbn; [reflexivity|].
    destruct (jwt_verify t (secret env) (now env)); reflexivity.
Qed.

(** The whole of a cancellation that passes the middleware and carries an
    appointment id. *)
Lemma run_cancel :
  forall (authorization : option string) (body : Body) (w : World),
    authenticated env authorization = true ->
    truthy (field "appointmentId" body) = true ->
    run (cancelAppointment env authorization body) w =
    let appointmentId := field "appointmentId" body in
    let failed := (inr (mkResponse 500 (msg "Internal server error.")), w) in
    if env.(faults) Cancel_findById then failed else
    match castId appointmentId with
    | inl _ => failed
    | inr None => (inr (mkResponse 404 (msg "Appointment not found.")), w)
    | inr (Some i) =>
        match find (hasId Appointment._id i) w.(db).(appointments) with
        | None => (inr (mkResponse 404 (msg "Appointment not found.")), w)
        | Some a =>
            if env.(faults) Cancel_delete then failed else
            if env.(faults) Cancel_detach then failed else
            match castId (field "patientId" body) with
            | inl _ => failed
            | inr p =>
                if env.(faults) Cancel_commit then failed else
                (inr (mkResponse 200
                        (msg "Appointment cancelled successfully!")),
                 mkWorld (view (cancelWrites i p appointmentId) w.(db))
                   (w.(outbox) ++
                    [mkEmail (field "patientEmail" body)
                       "Appointment Cancelled"
                       [Lit "Your appointment on ";
                        Interp (JStr a.(Appointment.timeSlot));
                        Lit " was cancelled."]]))
            end
        end
    end.
Proof.
  intros auth body w Ha Ht.
  unfold cancelAppointment. rewrite run_authenticateToken, Ha, Ht.
  cbn [negb]. rewrite run_try_await.
  destruct (faults env Cancel_findById); [reflexivity|].
  unfold query, Appointment_findById_in.
  destruct (castId (field "appointmentId" body)) as [e|[i|]] eqn:Ei;
    [reflexivity| |reflexivity].
  cbn [view fold_left].
  destruct (find (hasId Appointment._id i) (appointments (db w))) as [a|];
    [|reflexivity].
  rewrite run_try_await.
  destruct (faults env Cancel_delete); [reflexivity|].
  unfold Appointment_findByIdAndDelete_in. rewrite Ei.
  rewrite run_try_await.
  destruct (faults env Cancel_detach); [reflexivity|].
  unfold Patient_findByIdAndUpdate_in.
  destruct (castId (field "patientId" body)) as [e|[p|]];
    [reflexivity| |].
  - cbn [updateCasts applies declares PatientSchema existsb String.eqb
         Ascii.eqb Bool.eqb andb orb].
    rewrite run_try_await.
    destruct (faults env Cancel_commit); reflexivity.
  - rewrite run_try_await.
    destruct (faults env Cancel_commit); reflexivity.
Qed.


End Cancellation.

Lemma strict_mode_drops_appointments : forall (path : string),
  applies PatientSchema path = false.
Proof.
  intros path. unfold applies.
  destruct (String.eqb_spec path "appointments") as [->|_];
    [reflexivity | apply andb_false_r].
Qed.

Lemma applyUpdate_PatientSchema :
  forall (L : Libraries) (u : Update) (p : Patient.t),
    applyUpdate PatientSchema u p = p.
Proof.
  intros L [path v|path v] p; cbn;
    rewrite strict_mode_drops_appointments; reflexivity.
Qed.

Lemma update_first_id : forall (A : Type) (p : A -> bool) (f : A -> A)
    (l : list A),
  (forall x, f x = x) -> update_first p f l = l.
Proof.
  intros A p f l Hf. induction l as [|x l IH]; cbn; [reflexivity|].
  destruct (p x); [rewrite Hf | rewrite IH]; reflexivity.
Qed.

Lemma update_first_other : forall (A : Type) (p : A -> bool) (f : A -> A)
    (l : list A) (x : A),
  In x l -> p x = false -> In x (update_first p f l).
Proof.
  intros A p f l x. induction l as [|y l IH]; cbn; [tauto|].
  intros [->|Hin] Hp.
  - rewrite Hp. left. reflexivity.
  - destruct (p y); right; auto.
Qed.

Lemma delete_first_length : forall (A : Type) (p : A -> bool) (l : list A)
    (a : A),
  find p l = Some a ->
  S (List.length (delete_first p l)) = List.length l.
Proof.
  intros A p l a. induction l as [|x l IH]; cbn; [discriminate|].
  destruct (p x); [reflexivity|]. intros H. cbn. rewrite (IH H). reflexivity.
Qed.



(** C9.  The detach step of a cancellation is addressed to the [patientId]
    of the request body.  When the appointment id resolves, the body's
    [patientId] is absent or names some patient, and the store answers,
    the request is answered 200 and committed: the appointment is deleted,
    the detach has run on the named patient only (on nobody if the id is
    absent), every other patient record is still there as it was, and,
    PatientSchema declaring no [appointments] path, the patient records
    are all unchanged. *)
Theorem cancel_detaches_body_patient :
  forall (L : Libraries) (env : Env) (authorization : option string)
         (body : Body) (w : World) (i : ObjectId) (a : Appointment.t)
         (p : option ObjectId),
    authenticated env authorization = true ->
    truthy (field "appointmentId" body) = true ->
    castId (field "appointmentId" body) = inr (Some i) ->
    find (hasId Appointment._id i) w.(db).(appointments) = Some a ->
    castId (field "patientId" body) = inr p ->
    env.(faults) Cancel_findById = false ->
    env.(faults) Cancel_delete = false ->
    env.(faults) Cancel_detach = false ->
    env.(faults) Cancel_commit = false ->
    let w' := snd (run (cancelAppointment env authorization body) w) in
    fst (run (cancelAppointment env authorization body) w) =
    inr (mkResponse 200 (msg "Appointment cancelled successfully!")) /\
    w'.(db).(appointments) =
    delete_first (hasId Appointment._id i) w.(db).(appointments) /\
    S (List.length w'.(db).(appointments)) =
    List.length w.(db).(appointments) /\
    w'.(db).(patients) =
    match p with
    | Some j =>
        update_first (hasId Patient._id j)
          (applyUpdate PatientSchema
             (Pull "appointments" (field "appointmentId" body)))
          w.(db).(patients)
    | None => w.(db).(patients)
    end /\
    (forall q, In q w.(db).(patients) ->
               Some q.(Patient._id) <> p -> In q w'.(db).(patients)) /\
    w'.(db).(patients) = w.(db).(patients).
Proof.
  intros L env auth body w i a p Ha Ht Ei Ef Ep F1 F2 F3 F4 w'. subst w'.
  rewrite (run_cancel env auth body w Ha Ht). cbv zeta.
  rewrite F1, Ei, Ef, F2, F3, Ep, F4. cbn [fst snd db].
  assert (P : patients (view (cancelWrites i p (field "appointmentId" body))
                          (db w)) =
              match p with
              | Some j =>
                  update_first (hasId Patient._id j)
                    (applyUpdate PatientSchema
                       (Pull "appointments" (field "appointmentId" body)))
                    (patients (db w))
              | None => patients (db w)
              end).
  { destruct p; reflexivity. }
  assert (Q : patients (view (cancelWrites i p (field "appointmentId" body))
                          (db w)) = patients (db w)).
  { rewrite P. destruct p; [|reflexivity].
    apply update_first_id. intros x. apply applyUpdate_PatientSchema. }
  assert (D : appointments
                (view (cancelWrites i p (field "appointmentId" body)) (db w))
              = delete_first (hasId Appointment._id i) (appointments (db w))).
  { destruct p; reflexivity. }
  split; [reflexivity|]. split; [exact D|].
  split; [rewrite D; apply (delete_first_length _ _ _ a Ef)|].
  split; [exact P|]. split; [|exact Q].
  intros q Hq Hne. rewrite P. destruct p as [j|]; [|exact Hq].
  apply update_first_other; [exact Hq|].
  unfold hasId. apply N.eqb_neq. intros E. apply Hne. rewrite E. reflexivity.
Qed.

Lemma cancel_detaches_body_patient_witness :
  fst (run (cancelAppointment Sample.env Sample.authorization
              Sample.cancelNoPatient) Sample.booked) =
  inr (mkResponse 200 (msg "Appointment cancelled successfully!")) /\
  (snd (run (cancelAppointment Sample.env Sample.authorization
               Sample.cancelNoPatient) Sample.booked)).(db).(appointments)
  = [] /\
  (snd (run (cancelAppointment Sample.env Sample.authorization
               Sample.cancelNoPatient) Sample.booked)).(db).(patients)
  = Sample.booked.(db).(patients).
Proof.
  destruct (@cancel_detaches_body_patient Sample.libraries Sample.env
              Sample.authorization Sample.cancelNoPatient Sample.booked
              2%N
              (Appointment.mk 2%N "Bob" "b@x.com" 0%N "Mon-09:00" "Booked")
              None eq_refl eq_refl eq_refl eq_refl eq_refl
              eq_refl eq_refl eq_refl eq_refl)
    as [H1 [H2 [_ [_ [_ H3]]]]].
  split; [exact H1|]. split; [exact H2 | exact H3].
Defined.

(** ** Invariants of tasks *)

Section TaskLogic.
Context {L : Libraries}.
Variable P : World -> Prop.

Lemma preserves_bind : forall (A B : Type) (t : Task A) (f : A -> Task B),
  preserves P t -> (forall a, preserves P (f a)) ->
  preserves P (bind t f).
Proof.
  intros A B t f Ht Hf. induction t as [a|e|X op k IH]; cbn in *; auto.
  intros w Hw. destruct (Ht w Hw) as [H1 H2]. split; [exact H1|].
  apply IH. exact H2.
Qed.

Lemma preserves_try_catch : forall (A : Type) (t : Task A)
    (h : Exn -> Task A),
  preserves P t -> (forall e, preserves P (h e)) ->
  preserves P (try_catch t h).
Proof.
  intros A t h Ht Hh. induction t as [a|e|X op k IH]; cbn in *; auto.
  intros w Hw. destruct (Ht w Hw) as [H1 H2]. split; [exact H1|].
  apply IH. exact H2.
Qed.

Lemma preserves_ret : forall (A : Type) (a : A), preserves P (ret a).
Proof. intros; exact I. Qed.

Lemma preserves_await : forall (X : Type) (env : Env) (site : CallSite)
    (op : World -> (Exn + X) * World),
  (forall w, P w -> P (snd (op w))) -> preserves P (await env site op).
Proof.
  intros X env site op H w Hw. cbn.
  destruct (faults env site); cbn.
  - split; [exact Hw | exact I].
  - split; [apply H; exact Hw|]. destruct (fst (op w)); exact I.
Qed.

Lemma preserves_orThrow : forall (X : Type) (e : Exn) (o : option X),
  preserves P (orThrow e o).
Proof. intros X e [x|]; exact I. Qed.

Lemma preserves_sendEmail : forall (dest : JsVal) (subj : string)
    (body : list TextPart),
  (forall w m, P w -> P (mkWorld w.(db) (w.(outbox) ++ [m]))) ->
  preserves P (sendEmail dest subj body).
Proof.
  intros dest subj body H w Hw. cbn. split; [apply H; exact Hw | exact I].
Qed.

Lemma preserves_authenticateToken : forall (env : Env)
    (authorization : option string) (next : Task Response),
  preserves P next -> preserves P (authenticateToken env authorization next).
Proof.
  intros env auth next H. unfold authenticateToken.
  destruct (negb (truthy (bearer auth))); [exact I|].
  destruct (bearer auth); try exact I.
  destruct (jwt_verify _ _ _); [exact H | exact I].
Qed.

Lemma preserves_query : forall (X : Type) (f : Store -> Exn + X) (w : World),
  P w -> P (snd (query f w)).
Proof. intros X f w Hw. exact Hw. Qed.

Lemma step_preserves : forall (A : Type) (t : Task A) (w : World),
  preserves P t -> P w ->
  P (snd (step t w)) /\ preserves P (fst (step t w)).
Proof.
  intros A [a|e|X op k] w Ht Hw; cbn; auto.
  destruct (Ht w Hw) as [H1 H2]. destruct (op w) as [x w']. auto.
Qed.

Lemma run_preserves : forall (A : Type) (t : Task A) (w : World),
  preserves P t -> P w -> P (snd (run t w)).
Proof.
  intros A t. induction t as [a|e|X op k IH]; cbn; intros w Ht Hw; auto.
  destruct (Ht w Hw) as [H1 H2]. destruct (op w) as [x w']. cbn in *.
  apply IH; assumption.
Qed.

End TaskLogic.

(** ** Every stored appointment is "Booked" *)

Section Booked.
Context {L : Libraries}.

Lemma allBooked_outbox : forall (w : World) (m : Email),
  allBooked w -> allBooked (mkWorld w.(db) (w.(outbox) ++ [m])).
Proof. intros w m H. exact H. Qed.

Lemma allBooked_write : forall (X : Type) (f : Store -> Exn + (X * Store))
    (w : World),
  (forall x s, f w.(db) = inr (x, s) ->
               s.(appointments) = w.(db).(appointments)) ->
  allBooked w -> allBooked (snd (write f w)).
Proof.
  intros X f w H Hw. unfold write.
  destruct (f (db w)) as [e|[x s]] eqn:E; [exact Hw|].
  unfold allBooked. cbn. rewrite (H x s eq_refl). exact Hw.
Qed.

Lemma Doctor_create_appointments : forall (o : Body) (s s' : Store)
    (d : Doctor.t),
  Doctor_create o s = inr (d, s') -> s'.(appointments) = s.(appointments).
Proof.
  intros o s s' d. unfold Doctor_create.
  repeat match goal with
         | |- context [match ?x with _ => _ end] => destruct x
         end; intros H; inversion H; reflexivity.
Qed.

Lemma Patient_create_appointments : forall (o : Body) (s s' : Store)
    (p : Patient.t),
  Patient_create o s = inr (p, s') -> s'.(appointments) = s.(appointments).
Proof.
  intros o s s' p. unfold Patient_create.
  repeat match goal with
         | |- context [match ?x with _ => _ end] => destruct x
         end; intros H; inversion H; reflexivity.
Qed.

Lemma Doctor_saveAvailability_appointments :
  forall (d d' : Doctor.t) (v : JsVal) (s s' : Store),
    Doctor_saveAvailability d v s = inr (d', s') ->
    s'.(appointments) = s.(appointments).
Proof.
  intros d d' v s s'. unfold Doctor_saveAvailability.
  destruct (castAvailabilityPath v); [discriminate|].
  destruct (existsb _ _); intros H; inversion H; reflexivity.
Qed.

Lemma Patient_findByIdAndUpdate_appointments :
  forall (id : JsVal) (u : Update) (s s' : Store) (x : unit),
    Patient_findByIdAndUpdate id u s = inr (x, s') ->
    s'.(appointments) = s.(appointments).
Proof.
  intros id u s s' x. unfold Patient_findByIdAndUpdate.
  destruct (castId id) as [e|[i|]]; [discriminate| |].
  - destruct (updateCasts _ _); intros H; inversion H; reflexivity.
  - intros H; inversion H; reflexivity.
Qed.

Lemma Forall_delete_first : forall (A : Type) (Q : A -> Prop)
    (p : A -> bool) (l : list A),
  Forall Q l -> Forall Q (delete_first p l).
Proof.
  intros A Q p l H. induction H as [|x l Hx Hl IH]; cbn; [constructor|].
  destruct (p x); [exact Hl | constructor; assumption].
Qed.

Lemma allBooked_view : forall (ss : Session) (w : World),
  allBooked w -> allBooked (with_db (view ss) w).
Proof.
  intros ss w. unfold allBooked, with_db, view. cbn [db].
  generalize (db w). induction ss as [|o ss IH]; intros s H; [exact H|].
  cbn [fold_left]. apply IH.
  destruct o as [i|sc i u]; cbn; [apply Forall_delete_first|]; exact H.
Qed.

(** A booking stores its appointment with the status the handler writes. *)
Lemma allBooked_Appointment_create : forall (o : Body) (w : World),
  field "status" o = JStr "Booked" ->
  allBooked w -> allBooked (snd (write (Appointment_create o) w)).
Proof.
  intros o w Hs Hw. unfold write, Appointment_create. rewrite Hs.
  cbn [defaultString optionalString toString].
  destruct (optionalString (field "patientName" o)); [exact Hw|].
  destruct (optionalString (field "patientEmail" o)); [exact Hw|].
  destruct (toObjectId (field "doctorId" o)); [|exact Hw].
  destruct (optionalString (field "timeSlot" o)); [exact Hw|].
  unfold allBooked. cbn. apply Forall_app. split; [exact Hw|].
  constructor; [reflexivity | constructor].
Qed.

Ltac preserve :=
  repeat first
    [ exact I
    | apply preserves_ret
    | apply preserves_authenticateToken
    | apply preserves_try_catch; [|intros ?]
    | apply preserves_bind; [|intros ?]
    | apply preserves_orThrow
    | apply preserves_sendEmail; [intros ? ?; apply allBooked_outbox]
    | match goal with
      | |- preserves _ (if ?b then _ else _) => destruct b
      | |- preserves _ (match ?x with _ => _ end) => destruct x
      end ].

Lemma handle_preserves_allBooked : forall (env : Env) (r : Request),
  preserves allBooked (handle env r).
Proof.
  intros env r. destruct r; cbn [handle];
    unfold registerDoctor, registerPatient, loginDoctor, loginPatient,
      getDoctor, setAvailability, bookAppointment, cancelAppointment,
      searchDoctors;
    preserve;
    apply preserves_await; intros w Hw;
    try (apply preserves_query; exact Hw).
  - apply allBooked_write; [|exact Hw]. intros x s.
    apply Doctor_create_appointments.
  - apply allBooked_write; [|exact Hw]. intros x s.
    apply Patient_create_appointments.
  - apply allBooked_write; [|exact Hw]. intros x s.
    apply Doctor_saveAvailability_appointments.
  - apply allBooked_Appointment_create; [reflexivity | exact Hw].
  - apply allBooked_write; [|exact Hw]. intros x s.
    apply Patient_findByIdAndUpdate_appointments.
  - apply allBooked_view. exact Hw.
Qed.

End Booked.

(** C10.  Every appointment in the store has status "Booked": in every
    world the endpoints produce from an empty store, served one request
    after the other or interleaved by the event loop, whatever the store's
    failures. *)
Theorem appointments_always_booked :
  forall (L : Libraries),
    (forall w, reachable w -> allBooked w) /\
    (forall pool w, serving pool w -> allBooked w).
Proof.
  intros L. split.
  - intros w H. induction H as [|w env r H IH]; [constructor|].
    apply run_preserves; [apply handle_preserves_allBooked | exact IH].
  - assert (G : forall pool w, serving pool w ->
                  allBooked w /\ Forall (preserves allBooked) pool).
    { intros pool w H.
      induction H as [|pool w env r H [IH1 IH2]|pool w i t H [IH1 IH2] Hn].
      - split; constructor.
      - split; [exact IH1|]. apply Forall_app. split; [exact IH2|].
        constructor; [apply handle_preserves_allBooked | constructor].
      - assert (Ht : preserves allBooked t).
        { apply nth_error_In in Hn.
          exact (proj1 (Forall_forall _ _) IH2 t Hn). }
        destruct (step_preserves allBooked _ t w Ht IH1) as [S1 S2].
        split; [exact S1|].
        clear - IH2 S2. revert i.
        induction IH2 as [|y l Hy Hl IHl]; intros [|i]; cbn;
          constructor; auto. }
    intros pool w H. exact (proj1 (G pool w H)).
Qed.

Lemma appointments_always_booked_witness : allBooked Sample.booked.
Proof.
  apply (proj1 (appointments_always_booked Sample.libraries)).
  apply (@reach_step Sample.libraries _ Sample.env
           (POST_bookAppointment Sample.booking)).
  apply (@reach_step Sample.libraries _ Sample.env
           (POST_registerPatient Sample.bob)).
  apply (@reach_step Sample.libraries _ Sample.env
           (POST_registerDoctor Sample.drA)).
  apply reach_init.
Defined.

(** ** What a handler returns *)

Section Returns.
Context {L : Libraries}.
Variables (A : Type) (Q : A -> Prop).






End Returns.

(** ** No response carries a password *)

Section NoPassword.
Context {L : Libraries}.










End NoPassword.



(** ** Availability *)

Section AvailabilityRoundTrip.
Context {L : Libraries}.



Lemma requiredString_toString : forall (v : JsVal) (s : string),
  requiredString v = inr s -> toString v = Some s.
Proof.
  intros v s. unfold requiredString.
  destruct v; try discriminate;
    (destruct (toString _) as [x|]; [|discriminate];
     destruct (String.eqb x ""); [discriminate|];
     intros H; inversion H; reflexivity).
Qed.









End AvailabilityRoundTrip.




(** ** Bookings in flight together *)

(** What the world was like when a booking is answered 201. *)
Lemma book_201_inv :
  forall (L : Libraries) (env : Env) (body : Body) (w : World),
    statusOf (fst (run (bookAppointment env body) w)) = Some 201 ->
    exists d t pn pe p,
      someFalsy bookingFields body = false /\
      env.(faults) Book_findOne = false /\
      env.(faults) Book_save = false /\
      env.(faults) Book_linkPatient = false /\
      toObjectId (field "doctorId" body) = Some d /\
      toString (field "timeSlot" body) = Some t /\
      find (fun a => N.eqb a.(Appointment.doctorId) d &&
                     String.eqb a.(Appointment.timeSlot) t)
        w.(db).(appointments) = None /\
      optionalString (field "patientName" body) = inr pn /\
      optionalString (field "patientEmail" body) = inr pe /\
      castId (field "patientId" body) = inr p.
Proof.
  intros L env body w.
  unfold bookAppointment.
  assert (G : someFalsy bookingFields body =
              negb (truthy (field "doctorId" body))
              || negb (truthy (field "patientId" body))
              || negb (truthy (field "patientName" body))
              || negb (truthy (field "patientEmail" body))
              || negb (truthy (field "timeSlot" body))).
  { cbn [bookingFields someFalsy existsb]. apply validation_guard5. }
  rewrite <- G. destruct (someFalsy bookingFields body) eqn:Hv;
    [cbn; discriminate|].
  rewrite run_try_await.
  destruct (faults env Book_findOne); [cbn; discriminate|].
  unfold query, Appointment_findOne.
  destruct (toObjectId (field "doctorId" body)) as [d|] eqn:Ed;
    [|cbn; discriminate].
  destruct (toString (field "timeSlot" body)) as [t|] eqn:Et;
    [|cbn; discriminate].
  destruct (find _ _) eqn:Ef; [cbn; discriminate|].
  rewrite run_try_await.
  destruct (faults env Book_save); [cbn; discriminate|].
  unfold write, Appointment_create.
  cbn [field String.eqb Ascii.eqb Bool.eqb].
  rewrite Ed.
  destruct (optionalString (field "patientName" body)) as [?|pn];
    [cbn; discriminate|].
  destruct (optionalString (field "patientEmail" body)) as [?|pe];
    [cbn; discriminate|].
  destruct (optionalString (field "timeSlot" body)) as [?|t'];
    [cbn; discriminate|].
  cbn [defaultString optionalString toString db].
  rewrite run_try_await.
  destruct (faults env Book_linkPatient); [cbn; discriminate|].
  unfold write, Patient_findByIdAndUpdate. cbn [db].
  destruct (castId (field "patientId" body)) as [?|p];
    [cbn; discriminate|].
  intros _. exists d, t, pn, pe, p. repeat split; auto.
Qed.

Lemma step_try_await :
  forall (A X : Type) (env : Env) (h : Exn -> Task A) (site : CallSite)
         (op : World -> (Exn + X) * World) (k : X -> Task A) (w : World),
    step (try_catch (bind (await env site op) k) h) w =
    if env.(faults) site then (h StoreError, w)
    else match op w with
         | (inl e, w') => (h e, w')
         | (inr x, w') => (try_catch (k x) h, w')
         end.
Proof.
  intros A X env h site op k w. unfold await. cbn.
  destruct (faults env site); cbn; [reflexivity|].
  destruct (op w) as [[e|x] w']; reflexivity.
Qed.

(** Whenever a booking served alone would be answered 201, two copies of
    it resumed in turn are both answered 201, and both store an
    appointment for the same doctor and time slot. *)
Lemma double_booking :
  forall (L : Libraries) (env : Env) (body : Body) (w : World),
    statusOf (fst (run (bookAppointment env body) w)) = Some 201 ->
    exists r1 r2 w' d t,
      interleave Sample.inTurn
        [bookAppointment env body; bookAppointment env body] w =
      ([Ret r1; Ret r2], w') /\
      r1.(status) = 201 /\ r2.(status) = 201 /\
      slots w' = slots w ++ [(d, t); (d, t)].
Proof.
  intros L env body w H.
  destruct (book_201_inv L env body w H)
    as [d [t [pn [pe [p [Hv [F1 [F2 [F3 [Ed [Et [Ef [En [Ee Ep]]]]]]]]]]]]]].
  assert (Tt : truthy (field "timeSlot" body) = true).
  { apply (someFalsy_false bookingFields body "timeSlot" Hv). cbn. tauto. }
  assert (Et' : optionalString (field "timeSlot" body) = inr t).
  { apply optionalString_truthy; assumption. }
  assert (U : forall v, updateCasts PatientSchema (Push "appointments" v)
                        = true) by reflexivity.
  destruct p as [i|]; do 3 eexists; exists d, t;
    unfold bookAppointment;
    cbn [bookingFields someFalsy existsb] in Hv;
    rewrite validation_guard5 in Hv; rewrite Hv;
    unfold Sample.inTurn;
    repeat (cbn [interleave nth_error replace_nth db doctors patients
                 appointments next_id outbox apply_write];
            rewrite step_try_await;
            rewrite ?F1, ?F2, ?F3;
            unfold query, write, Appointment_findOne, Appointment_create,
              Patient_findByIdAndUpdate;
            cbn [field String.eqb Ascii.eqb Bool.eqb];
            rewrite ?Ed, ?Et, ?Ef, ?En, ?Ee, ?Et', ?Ep, ?U;
            cbn [defaultString optionalString toString]);
    (split; [reflexivity|]); (split; [reflexivity|]);
    (split; [reflexivity|]);
    unfold slots; cbn [db appointments];
    rewrite <- app_assoc, map_app; reflexivity.
Qed.

(** C3.  The booking handler looks the slot up and saves the appointment
    in two separate turns.  Two identical bookings resumed in turn both
    find the slot free: both are answered 201 and the store holds two
    appointments for the same doctor and time slot.  Served one after the
    other, the second one is refused. *)
Theorem concurrent_bookings_both_succeed :
  map answered (fst (interleave Sample.inTurn Sample.twoBookings
                       Sample.registered)) = [Some 201; Some 201] /\
  slots (snd (interleave Sample.inTurn Sample.twoBookings
                Sample.registered)) =
  [(0%N, "Mon-09:00"); (0%N, "Mon-09:00")] /\
  map answered (fst (interleave Sample.oneAfterTheOther Sample.twoBookings
                       Sample.registered)) = [Some 201; Some 400] /\
  slots (snd (interleave Sample.oneAfterTheOther Sample.twoBookings
                Sample.registered)) = [(0%N, "Mon-09:00")].
Proof. repeat split; vm_compute; reflexivity. Qed.

(** * Further properties of the handlers *)

(** ** The middleware *)

Lemma split_noSpace : forall (s : string),
  noSpace s = true -> split " " s = [s].
Proof.
  induction s as [|c r IH]; cbn; intros H; [reflexivity|].
  apply andb_prop in H. destruct H as [Hc Hr].
  destruct (Ascii.eqb c " "); [discriminate|].
  rewrite (IH Hr). reflexivity.
Qed.

Lemma split_at_first_space : forall (a b : string),
  noSpace a = true ->
  split " " (a ++ String " " b) = a :: split " " b.
Proof.
  induction a as [|c r IH]; cbn; intros b H; [reflexivity|].
  apply andb_prop in H. destruct H as [Hc Hr].
  destruct (Ascii.eqb c " "); [discriminate|].
  rewrite (IH b Hr). reflexivity.
Qed.

Lemma split_word : forall (b r : string),
  noSpace b = true -> atBreak r = true ->
  exists t, split " " (b ++ r) = b :: t.
Proof.
  induction b as [|c b IH]; intros r Hb Hr.
  - destruct r as [|c r]; cbn in *; [exists []; reflexivity|].
    rewrite Hr. eexists; reflexivity.
  - cbn in Hb. apply andb_prop in Hb. destruct Hb as [Hc Hb].
    destruct (IH r Hb Hr) as [t Ht].
    cbn. destruct (Ascii.eqb c " "); [discriminate|].
    rewrite Ht. eexists; reflexivity.
Qed.

(** Every string is a word followed by nothing or by a space. *)
Lemma first_word : forall (s : string),
  exists b r, s = (b ++ r)%string /\ noSpace b = true /\ atBreak r = true.
Proof.
  induction s as [|c s [b [r [E [Hb Hr]]]]].
  - exists ""%string, ""%string. auto.
  - destruct (Ascii.eqb c " ") eqn:Ec.
    + exists ""%string, (String c s). cbn. auto.
    + exists (String c b), r. cbn. rewrite Ec, Hb, E. auto.
Qed.

Lemma append_empty : forall (s : string), (s ++ "")%string = s.
Proof. induction s as [|c s IH]; cbn; [|rewrite IH]; reflexivity. Qed.

(** X1.  The token of a request is the second space-separated word of its
    Authorization header, whatever the first word is and whatever follows
    the second: the scheme is not checked, and two spaces in a row make
    the token the empty word.  A header of one word, and a request
    without the header, carry no token.  Every header is of one of the
    two forms. *)
Theorem bearer_second_word :
  bearer None = JUndefined /\
  (forall a : string, noSpace a = true -> bearer (Some a) = JUndefined) /\
  (forall a b r : string,
      noSpace a = true -> noSpace b = true -> atBreak r = true ->
      bearer (Some (a ++ " " ++ b ++ r)%string) = JStr b) /\
  (forall h : string,
      noSpace h = true \/
      exists a b r, h = (a ++ " " ++ b ++ r)%string /\ noSpace a = true /\
                    noSpace b = true /\ atBreak r = true).
Proof.
  split; [reflexivity|]. split; [|split].
  - intros a Ha. unfold bearer. rewrite (split_noSpace a Ha). reflexivity.
  - intros a b r Ha Hb Hr. unfold bearer.
    change (" " ++ b ++ r)%string with (String " " (b ++ r)).
    rewrite (split_at_first_space a (b ++ r) Ha).
    destruct (split_word b r Hb Hr) as [t ->]. reflexivity.
  - intros h. destruct (first_word h) as [a [r [E [Ha Hr]]]].
    destruct r as [|c r].
    + left. rewrite E, append_empty. exact Ha.
    + right. cbn in Hr. apply Ascii.eqb_eq in Hr. subst c.
      destruct (first_word r) as [b [r' [E' [Hb Hr']]]].
      exists a, b, r'. rewrite E, E'. auto.
Qed.

Lemma bearer_second_word_witness :
  bearer (Some "Basic abc.def") = JStr "abc.def" /\
  bearer (Some "Bearer tok extra") = JStr "tok" /\
  bearer (Some "Bearer  tok") = JStr "" /\
  bearer (Some "Basic") = JUndefined.
Proof.
  destruct bearer_second_word as [_ [H1 [H2 _]]].
  split; [|split; [|split]].
  - exact (H2 "Basic" "abc.def" "" eq_refl eq_refl eq_refl).
  - exact (H2 "Bearer" "tok" " extra" eq_refl eq_refl eq_refl).
  - exact (H2 "Bearer" "" " tok" eq_refl eq_refl eq_refl).
  - exact (H1 "Basic" eq_refl).
Defined.

(** X2.  A request to one of the three protected endpoints that does not
    pass [authenticateToken] never reaches its handler: the world is left
    as it was and the answer is 401 "Access denied" when the header
    carries no token, 403 "Invalid token" otherwise. *)
Theorem protected_endpoints_deny :
  forall (L : Libraries) (env : Env) (authorization : option string)
         (w : World),
    authenticated env authorization = false ->
    (forall doctorId,
        run (getDoctor env authorization doctorId) w =
        (inr (denial authorization), w)) /\
    (forall body,
        run (setAvailability env authorization body) w =
        (inr (denial authorization), w)) /\
    (forall body,
        run (cancelAppointment env authorization body) w =
        (inr (denial authorization), w)) /\
    (bearer authorization = JUndefined ->
     denial authorization = mkResponse 401 (msg "Access denied")).
Proof.
  intros L env auth w Ha. unfold denial.
  repeat split; intros;
    try (unfold getDoctor, setAvailability, cancelAppointment;
         rewrite run_authenticateToken, Ha; reflexivity).
  rewrite H. reflexivity.
Qed.

Lemma protected_endpoints_deny_witness :
  run (cancelAppointment Sample.env None Sample.cancelBob) Sample.booked =
  (inr (mkResponse 401 (msg "Access denied")), Sample.booked) /\
  run (setAvailability Sample.env (Some "Bearer forged") Sample.setTuesday)
    Sample.booked =
  (inr (mkResponse 403 (msg "Invalid token")), Sample.booked).
Proof.
  split.
  - destruct (protected_endpoints_deny Sample.libraries Sample.env None
                Sample.booked eq_refl) as [_ [_ [H _]]].
    exact (H Sample.cancelBob).
  - destruct (protected_endpoints_deny Sample.libraries Sample.env
                (Some "Bearer forged") Sample.booked eq_refl)
      as [_ [H _]].
    exact (H Sample.setTuesday).
Defined.

(** ** Reading endpoints *)

Ltac decompose_task :=
  repeat first
    [ exact I
    | apply preserves_ret
    | apply preserves_authenticateToken
    | apply preserves_try_catch; [|intros ?]
    | apply preserves_bind; [|intros ?]
    | apply preserves_orThrow
    | match goal with
      | |- preserves _ (if ?b then _ else _) => destruct b
      | |- preserves _ (match ?x with _ => _ end) => destruct x
      end ].

(** X3.  The two logins, the availability get and the doctor search only
    read: whatever the request and whatever the store does, the store and
    the outbox are left as they were. *)
Theorem reading_endpoints_change_nothing :
  forall (L : Libraries) (env : Env) (w : World),
    (forall body, snd (run (loginDoctor env body) w) = w) /\
    (forall body, snd (run (loginPatient env body) w) = w) /\
    (forall authorization doctorId,
        snd (run (getDoctor env authorization doctorId) w) = w) /\
    snd (run (searchDoctors env) w) = w.
Proof.
  intros L env w.
  assert (G : forall t : Task Response,
             preserves (fun w' => w' = w) t -> snd (run t w) = w).
  { intros t Ht. exact (run_preserves _ _ t w Ht eq_refl). }
  repeat split; intros; apply G;
    unfold loginDoctor, loginPatient, getDoctor, searchDoctors;
    decompose_task; apply preserves_await; intros w' Hw'; exact Hw'.
Qed.

(** ** What the store operations do *)

Section Shapes.
Context {L : Libraries}.

Lemma Doctor_create_shape : forall (o : Body) (s s' : Store) (d : Doctor.t),
  Doctor_create o s = inr (d, s') ->
  s' = mkStore (s.(doctors) ++ [d]) s.(patients) s.(appointments)
         (N.succ s.(next_id)) /\
  d.(Doctor._id) = s.(next_id) /\
  existsb (fun x => String.eqb x.(Doctor.email) d.(Doctor.email))
    s.(doctors) = false /\
  requiredString (field "email" o) = inr d.(Doctor.email) /\
  requiredString (field "password" o) = inr d.(Doctor.password) /\
  requiredString (field "name" o) = inr d.(Doctor.name) /\
  castAvailabilityPath (field "availability" o)
    = inr d.(Doctor.availability).
Proof.
  intros o s s' d. unfold Doctor_create.
  destruct (requiredString (field "name" o)) as [?|n]; [discriminate|].
  destruct (requiredString (field "email" o)) as [?|e]; [discriminate|].
  destruct (requiredString (field "password" o)) as [?|p]; [discriminate|].
  destruct (optionalString (field "specialty" o)); [discriminate|].
  destruct (optionalNumber (field "experience" o)); [discriminate|].
  destruct (optionalString (field "location" o)); [discriminate|].
  destruct (castAvailabilityPath (field "availability" o));
    [discriminate|].
  destruct (existsb _ _) eqn:E; [discriminate|].
  intros H. inversion H. subst. cbn. repeat split; auto.
Qed.

Lemma Patient_create_shape : forall (o : Body) (s s' : Store) (p : Patient.t),
  Patient_create o s = inr (p, s') ->
  s' = mkStore s.(doctors) (s.(patients) ++ [p]) s.(appointments)
         (N.succ s.(next_id)) /\
  p.(Patient._id) = s.(next_id) /\
  existsb (fun x => String.eqb x.(Patient.email) p.(Patient.email))
    s.(patients) = false /\
  requiredString (field "email" o) = inr p.(Patient.email) /\
  requiredString (field "password" o) = inr p.(Patient.password) /\
  requiredString (field "name" o) = inr p.(Patient.name) /\
  p.(Patient.appointments) = [].
Proof.
  intros o s s' p. unfold Patient_create.
  destruct (requiredString (field "name" o)) as [?|n]; [discriminate|].
  destruct (requiredString (field "email" o)) as [?|e]; [discriminate|].
  destruct (requiredString (field "password" o)) as [?|pw]; [discriminate|].
  destruct (optionalNumber (field "age" o)); [discriminate|].
  destruct (optionalString (field "gender" o)); [discriminate|].
  destruct (optionalString (field "phone" o)); [discriminate|].
  destruct (optionalString (field "address" o)); [discriminate|].
  destruct (existsb _ _) eqn:E; [discriminate|].
  intros H. inversion H. subst. cbn. repeat split; auto.
Qed.

Lemma Doctor_saveAvailability_shape :
  forall (d d' : Doctor.t) (v : JsVal) (s s' : Store),
    Doctor_saveAvailability d v s = inr (d', s') ->
    exists av,
      castAvailabilityPath v = inr av /\
      d' = withAvailability av d /\
      s' = mkStore
             (update_first (hasId Doctor._id d.(Doctor._id))
                (withAvailability av) s.(doctors))
             s.(patients) s.(appointments) s.(next_id).
Proof.
  intros d d' v s s'. unfold Doctor_saveAvailability.
  destruct (castAvailabilityPath v) as [?|av]; [discriminate|].
  destruct (existsb _ _); [|discriminate].
  intros H. inversion H. exists av. repeat split.
Qed.

Lemma Appointment_create_shape :
  forall (o : Body) (s s' : Store) (a : Appointment.t),
    Appointment_create o s = inr (a, s') ->
    s' = mkStore s.(doctors) s.(patients) (s.(appointments) ++ [a])
           (N.succ s.(next_id)) /\
    a.(Appointment._id) = s.(next_id) /\
    toObjectId (field "doctorId" o) = Some a.(Appointment.doctorId) /\
    optionalString (field "timeSlot" o) = inr a.(Appointment.timeSlot) /\
    optionalString (field "patientName" o)
      = inr a.(Appointment.patientName) /\
    optionalString (field "patientEmail" o)
      = inr a.(Appointment.patientEmail) /\
    defaultString "Booked" (field "status" o) = inr a.(Appointment.status).
Proof.
  intros o s s' a. unfold Appointment_create.
  destruct (optionalString (field "patientName" o)); [discriminate|].
  destruct (optionalString (field "patientEmail" o)); [discriminate|].
  destruct (toObjectId (field "doctorId" o)); [|discriminate].
  destruct (optionalString (field "timeSlot" o)); [discriminate|].
  destruct (defaultString "Booked" (field "status" o)); [discriminate|].
  intros H. inversion H. subst. cbn. repeat split.
Qed.

Lemma patientCore_applyUpdate :
  forall (schema : list string) (u : Update) (p : Patient.t),
    patientCore (applyUpdate schema u p) = patientCore p.
Proof.
  intros schema [path v|path v] p; cbn;
    destruct (applies schema path); try reflexivity;
    destruct (toObjectId v); reflexivity.
Qed.

Lemma map_update_first :
  forall (A B : Type) (g : A -> B) (p : A -> bool) (f : A -> A)
         (l : list A),
    (forall x, g (f x) = g x) -> map g (update_first p f l) = map g l.
Proof.
  intros A B g p f l H. induction l as [|x l IH]; cbn; [reflexivity|].
  destruct (p x); cbn; [rewrite H | rewrite IH]; reflexivity.
Qed.

(** The patient update of the handlers leaves the store as it is:
    PatientSchema declares no [appointments] path. *)
Lemma Patient_findByIdAndUpdate_shape :
  forall (id : JsVal) (u : Update) (s s' : Store) (x : unit),
    Patient_findByIdAndUpdate id u s = inr (x, s') -> s' = s.
Proof.
  intros id u s s' x. unfold Patient_findByIdAndUpdate.
  destruct (castId id) as [?|[i|]]; [discriminate| |].
  - destruct (updateCasts _ _); [|discriminate].
    intros H. inversion H. unfold apply_write.
    rewrite update_first_id by (intros p; apply applyUpdate_PatientSchema).
    destruct s; reflexivity.
  - intros H. inversion H. reflexivity.
Qed.

(** A write of a session touches no doctor, no [next_id], and of a
    patient only the appointments array. *)
Lemma apply_write_keeps :
  forall (s : Store) (o : WriteOp),
    (apply_write s o).(doctors) = s.(doctors) /\
    map patientCore (apply_write s o).(patients)
      = map patientCore s.(patients) /\
    (apply_write s o).(next_id) = s.(next_id) /\
    (exists p, (apply_write s o).(appointments)
               = delete_first p s.(appointments)
               \/ (apply_write s o).(appointments) = s.(appointments)).
Proof.
  intros s [i|schema i u]; cbn; repeat split.
  - exists (hasId Appointment._id i). left. reflexivity.
  - apply map_update_first. intros x. apply patientCore_applyUpdate.
  - exists (fun _ => false). right. reflexivity.
Qed.

End Shapes.

(** ** Invariants of the store, for requests served in any order *)

Section StoreInvariant.
Context {L : Libraries}.
Variable Q : Store -> Prop.

Hypothesis Q_Doctor_create : forall o s d s',
  Q s -> Doctor_create o s = inr (d, s') -> Q s'.
Hypothesis Q_Patient_create : forall o s p s',
  Q s -> Patient_create o s = inr (p, s') -> Q s'.
Hypothesis Q_Doctor_saveAvailability : forall d v s d' s',
  Q s -> Doctor_saveAvailability d v s = inr (d', s') -> Q s'.
Hypothesis Q_Appointment_create : forall o s a s',
  Q s -> Appointment_create o s = inr (a, s') -> Q s'.
Hypothesis Q_apply_write : forall s o, Q s -> Q (apply_write s o).

Lemma Q_view : forall (ss : Session) (s : Store), Q s -> Q (view ss s).
Proof.
  unfold view. induction ss as [|o ss IH]; intros s H; cbn; auto.
Qed.

Lemma Q_write : forall (X : Type) (f : Store -> Exn + (X * Store))
    (w : World),
  (forall x s', f w.(db) = inr (x, s') -> Q s') ->
  Q w.(db) -> Q (snd (write f w)).(db).
Proof.
  intros X f w H Hw. unfold write.
  destruct (f (db w)) as [e|[x s']] eqn:E; [exact Hw|].
  cbn. exact (H x s' eq_refl).
Qed.

(** The requests other than a booking never call [Appointment_create]. *)
Lemma others_preserve_store : forall (env : Env) (r : Request),
  match r with POST_bookAppointment _ => False | _ => True end ->
  preserves (fun w => Q w.(db)) (handle env r).
Proof.
  intros env r Hr. destruct r; try contradiction; cbn [handle];
    unfold registerDoctor, registerPatient, loginDoctor, loginPatient,
      getDoctor, setAvailability, cancelAppointment, searchDoctors;
    decompose_task;
    try (apply preserves_sendEmail; intros w m Hw; exact Hw);
    apply preserves_await; intros w Hw; try exact Hw.
  - apply Q_write; [|exact Hw]. intros x s' E.
    exact (Q_Doctor_create _ _ _ _ Hw E).
  - apply Q_write; [|exact Hw]. intros x s' E.
    exact (Q_Patient_create _ _ _ _ Hw E).
  - apply Q_write; [|exact Hw]. intros x s' E.
    exact (Q_Doctor_saveAvailability _ _ _ _ _ Hw E).
  - cbn. apply Q_view. exact Hw.
Qed.

Lemma handle_preserves_store : forall (env : Env) (r : Request),
  preserves (fun w => Q w.(db)) (handle env r).
Proof.
  intros env r. destruct r; cbn [handle];
    unfold registerDoctor, registerPatient, loginDoctor, loginPatient,
      getDoctor, setAvailability, bookAppointment, cancelAppointment,
      searchDoctors;
    decompose_task;
    try (apply preserves_sendEmail; intros w m Hw; exact Hw);
    apply preserves_await; intros w Hw; try exact Hw.
  - apply Q_write; [|exact Hw]. intros x s' E.
    exact (Q_Doctor_create _ _ _ _ Hw E).
  - apply Q_write; [|exact Hw]. intros x s' E.
    exact (Q_Patient_create _ _ _ _ Hw E).
  - apply Q_write; [|exact Hw]. intros x s' E.
    exact (Q_Doctor_saveAvailability _ _ _ _ _ Hw E).
  - apply Q_write; [|exact Hw]. intros x s' E.
    exact (Q_Appointment_create _ _ _ _ Hw E).
  - apply Q_write; [|exact Hw]. intros x s' E.
    rewrite (Patient_findByIdAndUpdate_shape _ _ _ _ _ E). exact Hw.
  - cbn. apply Q_view. exact Hw.
Qed.

End StoreInvariant.

Section EventLoop.
Context {L : Libraries}.
Variable P : World -> Prop.

Lemma replace_nth_Forall : forall (A : Type) (R : A -> Prop) (l : list A)
    (i : nat) (x : A),
  Forall R l -> R x -> Forall R (replace_nth i x l).
Proof.
  intros A R l i x H Hx. revert i.
  induction H as [|y l Hy Hl IH]; intros [|i]; cbn; constructor; auto.
Qed.

Lemma interleave_preserves : forall (A : Type) (sched : list nat)
    (pool : list (Task A)) (w : World),
  Forall (preserves P) pool -> P w ->
  P (snd (interleave sched pool w)).
Proof.
  intros A sched. induction sched as [|i sched IH]; intros pool w Hp Hw;
    cbn; [exact Hw|].
  destruct (nth_error pool i) as [t|] eqn:E; [|apply IH; assumption].
  assert (Ht : preserves P t).
  { apply nth_error_In in E. exact (proj1 (Forall_forall _ _) Hp t E). }
  destruct (step_preserves P A t w Ht Hw) as [S1 S2].
  destruct (step t w) as [t' w']. cbn in S1, S2.
  apply IH; [apply replace_nth_Forall; assumption | exact S1].
Qed.

Hypothesis P_endpoints : forall env r, preserves P (handle env r).

Lemma inFlight_preserves : forall (reqs : list (Env * Request)),
  Forall (preserves P) (inFlight reqs).
Proof.
  intros reqs. unfold inFlight. apply Forall_forall. intros t Ht.
  apply in_map_iff in Ht. destruct Ht as [[env r] [E _]]. subst t.
  apply P_endpoints.
Qed.

Lemma served_keep : P emptyWorld ->
  (forall w, reachable w -> P w) /\
  (forall pool w, serving pool w -> P w).
Proof.
  intros P0. split.
  - intros w H. induction H as [|w env r H IH]; [exact P0|].
    apply run_preserves; [apply P_endpoints | exact IH].
  - assert (G : forall pool w, serving pool w ->
                  P w /\ Forall (preserves P) pool).
    { intros pool w H.
      induction H as [|pool w env r H [IH1 IH2]|pool w i t H [IH1 IH2] Hn].
      - split; [exact P0 | constructor].
      - split; [exact IH1|]. apply Forall_app. split; [exact IH2|].
        constructor; [apply P_endpoints | constructor].
      - assert (Ht : preserves P t).
        { apply nth_error_In in Hn.
          exact (proj1 (Forall_forall _ _) IH2 t Hn). }
        destruct (step_preserves P _ t w Ht IH1) as [S1 S2].
        split; [exact S1 | apply replace_nth_Forall; assumption]. }
    intros pool w H. exact (proj1 (G pool w H)).
Qed.

End EventLoop.

(** ** Emails stay unique *)

Section Emails.
Context {L : Libraries}.

Lemma NoDup_snoc : forall (A : Type) (l : list A) (x : A),
  NoDup l -> ~ In x l -> NoDup (l ++ [x]).
Proof.
  intros A l x Hl Hx. apply NoDup_app; [exact Hl | repeat constructor; auto|].
  intros a Ha [E|[]]. subst. contradiction.
Qed.

Lemma existsb_email_false : forall (A : Type) (email : A -> string)
    (l : list A) (e : string),
  existsb (fun x => String.eqb (email x) e) l = false ->
  ~ In e (map email l).
Proof.
  intros A email l e H Hin. apply in_map_iff in Hin.
  destruct Hin as [x [E Hx]].
  assert (T : existsb (fun x => String.eqb (email x) e) l = true).
  { apply existsb_exists. exists x. split; [exact Hx|].
    rewrite E. apply String.eqb_refl. }
  congruence.
Qed.

Lemma handle_preserves_emailsUnique : forall (env : Env) (r : Request),
  preserves emailsUnique (handle env r).
Proof.
  apply (handle_preserves_store emailsUniqueIn); unfold emailsUniqueIn.
  - intros o s d s' [Hd Hp] E.
    destruct (Doctor_create_shape o s s' d E) as [-> [_ [Hn _]]]. cbn.
    split; [|exact Hp]. rewrite map_app. apply NoDup_snoc; [exact Hd|].
    apply existsb_email_false. exact Hn.
  - intros o s p s' [Hd Hp] E.
    destruct (Patient_create_shape o s s' p E) as [-> [_ [Hn _]]]. cbn.
    split; [exact Hd|]. rewrite map_app. apply NoDup_snoc; [exact Hp|].
    apply existsb_email_false. exact Hn.
  - intros d v s d' s' [Hd Hp] E.
    destruct (Doctor_saveAvailability_shape d d' v s s' E)
      as [av [_ [_ ->]]]. cbn.
    split; [|exact Hp]. rewrite map_update_first; [exact Hd|].
    intros x. reflexivity.
  - intros o s a s' [Hd Hp] E.
    destruct (Appointment_create_shape o s s' a E) as [-> _]. cbn.
    split; assumption.
  - intros s o [Hd Hp].
    destruct (apply_write_keeps s o) as [E1 [E2 _]]. rewrite E1.
    split; [exact Hd|].
    assert (E : map Patient.email (patients (apply_write s o)) =
                map Patient.email (patients s)).
    { assert (F : forall l, map Patient.email l =
                            map (fun c => snd (fst (fst (fst (fst (fst c))))))
                              (map patientCore l)).
      { intros l. rewrite map_map. reflexivity. }
      rewrite (F (patients (apply_write s o))), (F (patients s)), E2.
      reflexivity. }
    rewrite E. exact Hp.
Qed.

End Emails.

(** X4.  No two doctor records share an email and no two patient records
    do, in every world the endpoints produce from an empty store, served
    one request after the other or interleaved at every [await],
    whatever the store's failures: a registration that finds the email
    free only at its lookup is stopped by the unique index at its save. *)
Theorem emails_stay_unique :
  forall (L : Libraries),
    (forall w, reachable w -> emailsUnique w) /\
    (forall pool w, serving pool w -> emailsUnique w).
Proof.
  intros L. apply served_keep.
  - apply handle_preserves_emailsUnique.
  - split; constructor.
Qed.

Lemma emails_stay_unique_witness : emailsUnique Sample.booked.
Proof.
  apply (proj1 (emails_stay_unique Sample.libraries)).
  apply (@reach_step Sample.libraries _ Sample.env
           (POST_bookAppointment Sample.booking)).
  apply (@reach_step Sample.libraries _ Sample.env
           (POST_registerPatient Sample.bob)).
  apply (@reach_step Sample.libraries _ Sample.env
           (POST_registerDoctor Sample.drA)).
  apply reach_init.
Defined.

(** ** Records are kept *)

Section Records.
Context {L : Libraries}.
Variable w0 : World.

Lemma handle_preserves_keepsRecords : forall (env : Env) (r : Request),
  preserves (keepsRecords w0) (handle env r).
Proof.
  apply (handle_preserves_store (keepsRecordsOf w0)); unfold keepsRecordsOf.
  - intros o s d s' [[l Hd] Hp] E.
    destruct (Doctor_create_shape o s s' d E) as [-> _]. cbn.
    split; [|exact Hp]. exists (l ++ [doctorCore d]).
    rewrite map_app, Hd, app_assoc. reflexivity.
  - intros o s p s' [Hd [l Hp]] E.
    destruct (Patient_create_shape o s s' p E) as [-> _]. cbn.
    split; [exact Hd|]. exists (l ++ [patientCore p]).
    rewrite map_app, Hp, app_assoc. reflexivity.
  - intros d v s d' s' [[l Hd] Hp] E.
    destruct (Doctor_saveAvailability_shape d d' v s s' E)
      as [av [_ [_ ->]]]. cbn.
    split; [|exact Hp]. exists l. rewrite map_update_first; [exact Hd|].
    intros x. reflexivity.
  - intros o s a s' [Hd Hp] E.
    destruct (Appointment_create_shape o s s' a E) as [-> _]. cbn.
    split; assumption.
  - intros s o [Hd Hp].
    destruct (apply_write_keeps s o) as [E1 [E2 _]]. rewrite E1, E2.
    split; assumption.
Qed.

End Records.

(** X5.  No endpoint removes a doctor or a patient record, reorders the
    records, or rewrites the identifier, name, email, stored password or
    profile of one: after any request, and after any interleaving of any
    requests in flight, the records that were there are still there,
    followed by the newly registered ones.  Only a doctor's availability
    can change. *)
Theorem records_are_kept :
  forall (L : Libraries) (w : World),
    (forall env r, keepsRecords w (snd (run (handle env r) w))) /\
    (forall reqs sched,
        keepsRecords w (snd (interleave sched (inFlight reqs) w))).
Proof.
  intros L w.
  assert (R : keepsRecords w w).
  { split; exists []; rewrite app_nil_r; reflexivity. }
  split.
  - intros env r. apply run_preserves; [|exact R].
    apply handle_preserves_keepsRecords.
  - intros reqs sched. apply interleave_preserves; [|exact R].
    apply inFlight_preserves. apply handle_preserves_keepsRecords.
Qed.

(** ** Registration, and the login that follows *)

Section Registration.
Context {L : Libraries}.

Lemma requiredString_JStr : forall (h p : string),
  requiredString (JStr h) = inr p -> p = h.
Proof.
  intros h p. cbn. destruct (String.eqb h ""); [discriminate|].
  intros H. inversion H. reflexivity.
Qed.

Lemma find_snoc_fresh : forall (A : Type) (p : A -> bool) (l : list A)
    (x : A),
  existsb p l = false -> p x = true -> find p (l ++ [x]) = Some x.
Proof.
  intros A p l x. induction l as [|y l IH]; cbn; intros H Hx.
  - rewrite Hx. reflexivity.
  - destruct (p y); [discriminate|]. auto.
Qed.

(** What a registration that is answered 201 has found and done. *)
Lemma register_201_inv :
  forall (env : Env) (k : Kind) (body : Body) (r : Response)
         (w w' : World),
    run (register env k body) w = (inr r, w') ->
    r.(status) = 201 ->
    exists e h,
      someFalsy (requiredFields k) body = false /\
      toString (field "email" body) = Some e /\
      bcrypt_hash (field "password" body) 10 = Some h /\
      emailTaken k e w.(db) = false /\
      w'.(outbox) = w.(outbox) /\
      w'.(db).(appointments) = w.(db).(appointments) /\
      match k with
      | AsDoctor =>
          exists d,
            w'.(db).(doctors) = w.(db).(doctors) ++ [d] /\
            w'.(db).(patients) = w.(db).(patients) /\
            d.(Doctor._id) = w.(db).(next_id) /\
            d.(Doctor.email) = e /\ d.(Doctor.password) = h
      | AsPatient =>
          exists p,
            w'.(db).(patients) = w.(db).(patients) ++ [p] /\
            w'.(db).(doctors) = w.(db).(doctors) /\
            p.(Patient._id) = w.(db).(next_id) /\
            p.(Patient.email) = e /\ p.(Patient.password) = h
      end.
Proof.
  intros env k body r w w'.
  destruct k; cbn [register requiredFields emailTaken];
    unfold registerDoctor, registerPatient.
  - assert (G : someFalsy (requiredFields AsDoctor) body =
                negb (truthy (field "name" body))
                || negb (truthy (field "email" body))
                || negb (truthy (field "password" body))
                || negb (truthy (field "specialty" body))
                || negb (truthy (field "experience" body))
                || negb (truthy (field "location" body))
                || negb (truthy (field "availability" body))).
    { cbn [requiredFields someFalsy existsb]. apply validation_guard7. }
    cbn [requiredFields] in G. rewrite <- G.
    destruct (someFalsy _ body);
      [intros H; inversion H; subst; discriminate|].
    rewrite run_try_await.
    destruct (faults env RegisterDoctor_findOne);
      [intros H; inversion H; subst; discriminate|].
    unfold query.
    destruct (Doctor_findOne (field "email" body) (db w)) as [?|[x|]];
      try (intros H; inversion H; subst; discriminate).
    rewrite run_try_orThrow.
    destruct (bcrypt_hash (field "password" body) 10) as [h|] eqn:Eh;
      [|intros H; inversion H; subst; discriminate].
    rewrite run_try_await.
    destruct (faults env RegisterDoctor_save);
      [intros H; inversion H; subst; discriminate|].
    unfold write.
    destruct (Doctor_create _ (db w)) as [?|[d s']] eqn:Ec;
      [intros H; inversion H; subst; discriminate|].
    intros H _. cbn in H. inversion H. subst w'. cbn [db outbox].
    destruct (Doctor_create_shape _ _ _ _ Ec)
      as [-> [Hid [Hn [He [Hp _]]]]].
    cbn [field String.eqb Ascii.eqb Bool.eqb] in He, Hp.
    apply requiredString_toString in He. apply requiredString_JStr in Hp.
    exists (Doctor.email d), h. repeat split; auto.
    exists d. repeat split; auto.
  - assert (G : someFalsy (requiredFields AsPatient) body =
                negb (truthy (field "name" body))
                || negb (truthy (field "email" body))
                || negb (truthy (field "password" body))
                || negb (truthy (field "age" body))
                || negb (truthy (field "gender" body))
                || negb (truthy (field "phone" body))
                || negb (truthy (field "address" body))).
    { cbn [requiredFields someFalsy existsb]. apply validation_guard7. }
    cbn [requiredFields] in G. rewrite <- G.
    destruct (someFalsy _ body);
      [intros H; inversion H; subst; discriminate|].
    rewrite run_try_await.
    destruct (faults env RegisterPatient_findOne);
      [intros H; inversion H; subst; discriminate|].
    unfold query.
    destruct (Patient_findOne (field "email" body) (db w)) as [?|[x|]];
      try (intros H; inversion H; subst; discriminate).
    rewrite run_try_orThrow.
    destruct (bcrypt_hash (field "password" body) 10) as [h|] eqn:Eh;
      [|intros H; inversion H; subst; discriminate].
    rewrite run_try_await.
    destruct (faults env RegisterPatient_save);
      [intros H; inversion H; subst; discriminate|].
    unfold write.
    destruct (Patient_create _ (db w)) as [?|[p s']] eqn:Ec;
      [intros H; inversion H; subst; discriminate|].
    intros H _. cbn in H. inversion H. subst w'. cbn [db outbox].
    destruct (Patient_create_shape _ _ _ _ Ec)
      as [-> [Hid [Hn [He [Hp _]]]]].
    cbn [field String.eqb Ascii.eqb Bool.eqb] in He, Hp.
    apply requiredString_toString in He. apply requiredString_JStr in Hp.
    exists (Patient.email p), h. repeat split; auto.
    exists p. repeat split; auto.
Qed.

End Registration.

(** X6.  A registration that is answered 201 has stored exactly one new
    record of its kind and nothing else: the record carries the submitted
    email, which no record of that kind had, and as its password the
    bcrypt hash (cost 10) of the submitted password; the records of the
    other kind, the appointments and the outbox are as they were. *)
Theorem registration_stores_one_hashed_record :
  forall (L : Libraries) (env : Env) (k : Kind) (body : Body)
         (r : Response) (w w' : World),
    run (register env k body) w = (inr r, w') ->
    r.(status) = 201 ->
    exists e h,
      toString (field "email" body) = Some e /\
      bcrypt_hash (field "password" body) 10 = Some h /\
      emailTaken k e w.(db) = false /\
      w'.(outbox) = w.(outbox) /\
      w'.(db).(appointments) = w.(db).(appointments) /\
      match k with
      | AsDoctor =>
          exists d,
            w'.(db).(doctors) = w.(db).(doctors) ++ [d] /\
            w'.(db).(patients) = w.(db).(patients) /\
            d.(Doctor._id) = w.(db).(next_id) /\
            d.(Doctor.email) = e /\ d.(Doctor.password) = h
      | AsPatient =>
          exists p,
            w'.(db).(patients) = w.(db).(patients) ++ [p] /\
            w'.(db).(doctors) = w.(db).(doctors) /\
            p.(Patient._id) = w.(db).(next_id) /\
            p.(Patient.email) = e /\ p.(Patient.password) = h
      end.
Proof.
  intros L env k body r w w' Hrun Hs.
  destruct (register_201_inv env k body r w w' Hrun Hs)
    as [e [h [_ [He [Hh [Ht [Ho [Ha Hk]]]]]]]].
  exists e, h. repeat split; assumption.
Qed.

Lemma registration_stores_one_hashed_record_witness :
  exists e h,
    toString (field "email" Sample.drA) = Some e /\
    bcrypt_hash (field "password" Sample.drA) 10 = Some h /\
    exists d,
      Sample.registered.(db).(doctors) = [d] /\
      d.(Doctor.email) = e /\ d.(Doctor.password) = h.
Proof.
  assert (E : run (register Sample.env AsDoctor Sample.drA) emptyWorld =
              (inr (mkResponse 201
                      (JObj [("message",
                               JStr "Doctor registered successfully!");
                             ("doctor",
                               JObj [("id", JStr "0");
                                     ("name", JStr "Dr. A");
                                     ("email", JStr "a@x.com")])])),
               snd (run (register Sample.env AsDoctor Sample.drA)
                      emptyWorld)))
    by (vm_compute; reflexivity).
  destruct (registration_stores_one_hashed_record Sample.libraries
              Sample.env AsDoctor Sample.drA _ emptyWorld _ E eq_refl)
    as [e [h [He [Hh [_ [_ [_ [d [Hd [_ [_ [H1 H2]]]]]]]]]]]].
  exists e, h. split; [exact He|]. split; [exact Hh|].
  exists d. split; [|split; assumption].
  vm_compute in Hd. vm_compute. exact Hd.
Defined.

(** X7.  Register, then log in.  After a registration that was answered
    201, a login of the same kind with the same email and password, when
    the store answers and bcrypt accepts the password against the hash it
    made of it, is answered 200 with a token for the record that was just
    created. *)
Theorem register_then_login :
  forall (L : Libraries) (env env' : Env) (k : Kind) (body : Body)
         (r : Response) (w w' : World),
    run (register env k body) w = (inr r, w') ->
    r.(status) = 201 ->
    (forall h, bcrypt_hash (field "password" body) 10 = Some h ->
               bcrypt_compare (field "password" body) h = Some true) ->
    env'.(faults) (login_findOne k) = false ->
    exists r',
      run (login env' k body) w' = (inr r', w') /\
      r'.(status) = 200 /\
      tokenOf r' =
      JStr (jwt_sign (payloadOf k w.(db).(next_id)) (secret env') "1h").
Proof.
  intros L env env' k body r w w' Hrun Hs Hcmp Hf.
  destruct (register_201_inv env k body r w w' Hrun Hs)
    as [e [h [Hv [He [Hh [Ht [_ [_ Hk]]]]]]]].
  specialize (Hcmp h Hh).
  destruct k; cbn [login login_findOne payloadOf emailTaken] in *.
  - destruct Hk as [d [Hd [_ [Hid [Hde Hdp]]]]].
    unfold loginDoctor. rewrite run_try_await, Hf.
    unfold query.
    rewrite (Doctor_findOne_toString _ e (db w')
               (someFalsy_false _ body "email" Hv
                  ltac:(cbn; tauto)) He), Hd.
    rewrite find_snoc_fresh
      by (try exact Ht; rewrite Hde; apply String.eqb_refl).
    rewrite run_try_orThrow, Hdp, Hcmp. cbn.
    eexists. split; [reflexivity|]. split; [reflexivity|].
    rewrite Hid. reflexivity.
  - destruct Hk as [p [Hp [_ [Hid [Hpe Hpp]]]]].
    unfold loginPatient.
    rewrite (someFalsy_false _ body "email" Hv) by (cbn; tauto).
    rewrite (someFalsy_false _ body "password" Hv) by (cbn; tauto).
    cbn [negb orb].
    rewrite run_try_await, Hf.
    unfold query.
    rewrite (Patient_findOne_toString _ e (db w')
               (someFalsy_false _ body "email" Hv
                  ltac:(cbn; tauto)) He), Hp.
    rewrite find_snoc_fresh
      by (try exact Ht; rewrite Hpe; apply String.eqb_refl).
    rewrite run_try_orThrow, Hpp, Hcmp. cbn.
    eexists. split; [reflexivity|]. split; [reflexivity|].
    rewrite Hid. reflexivity.
Qed.

Lemma register_then_login_witness :
  exists r',
    run (login Sample.env AsPatient Sample.bob)
      (snd (run (register Sample.env AsPatient Sample.bob) emptyWorld)) =
    (inr r', snd (run (register Sample.env AsPatient Sample.bob)
                    emptyWorld)) /\
    r'.(status) = 200 /\
    tokenOf r' = JStr "mysecret.patientId=0.1h".
Proof.
  assert (E : run (register Sample.env AsPatient Sample.bob) emptyWorld =
              (inr (mkResponse 201 (msg "Patient registered successfully!")),
               snd (run (register Sample.env AsPatient Sample.bob)
                      emptyWorld)))
    by (vm_compute; reflexivity).
  apply (register_then_login Sample.libraries Sample.env Sample.env
           AsPatient Sample.bob _ emptyWorld _ E eq_refl).
  - intros h Eh. vm_compute in Eh. inversion Eh. reflexivity.
  - reflexivity.
Defined.

(** ** Booking *)

Section Booking.
Context {L : Libraries}.

Lemma Patient_findByIdAndUpdate_push :
  forall (id v : JsVal) (s : Store),
    Patient_findByIdAndUpdate id (Push "appointments" v) s =
    match castId id with
    | inl e => inl e
    | inr _ => inr (tt, s)
    end.
Proof.
  intros id v s. unfold Patient_findByIdAndUpdate.
  destruct (castId id) as [e|[i|]]; try reflexivity.
  change (updateCasts PatientSchema (Push "appointments" v)) with true.
  cbv iota. unfold apply_write.
  rewrite update_first_id by (intros p; apply applyUpdate_PatientSchema).
  destruct s; reflexivity.
Qed.

(** The whole of a booking. *)
Lemma run_book : forall (env : Env) (body : Body) (w : World),
  run (bookAppointment env body) w =
  let failed := mkResponse 500 (msg "Internal server error") in
  if someFalsy bookingFields body
  then (inr (mkResponse 400 (msg "All fields are required.")), w)
  else if env.(faults) Book_findOne then (inr failed, w)
  else
    match Appointment_findOne (field "doctorId" body)
            (field "timeSlot" body) w.(db) with
    | inl _ => (inr failed, w)
    | inr (Some _) =>
        (inr (mkResponse 400 (msg "Time slot already booked!")), w)
    | inr None =>
        if env.(faults) Book_save then (inr failed, w)
        else
          match Appointment_create (appointmentFields body) w.(db) with
          | inl _ => (inr failed, w)
          | inr (a, s1) =>
              if env.(faults) Book_linkPatient
              then (inr failed, mkWorld s1 w.(outbox))
              else
                match castId (field "patientId" body) with
                | inl _ => (inr failed, mkWorld s1 w.(outbox))
                | inr _ =>
                    (inr (mkResponse 201
                            (JObj [("message",
                                     JStr "Appointment booked successfully!");
                                   ("appointment", appointmentToJSON a)])),
                     mkWorld s1 (w.(outbox) ++ [confirmationMail body]))
                end
          end
    end.
Proof.
  intros env body w. unfold bookAppointment. cbv zeta.
  assert (G : someFalsy bookingFields body =
              negb (truthy (field "doctorId" body))
              || negb (truthy (field "patientId" body))
              || negb (truthy (field "patientName" body))
              || negb (truthy (field "patientEmail" body))
              || negb (truthy (field "timeSlot" body))).
  { cbn [bookingFields someFalsy existsb]. apply validation_guard5. }
  rewrite <- G. destruct (someFalsy bookingFields body); [reflexivity|].
  rewrite run_try_await.
  destruct (faults env Book_findOne); [reflexivity|].
  unfold query.
  destruct (Appointment_findOne _ _ (db w)) as [e|[x|]];
    try reflexivity.
  rewrite run_try_await.
  destruct (faults env Book_save); [reflexivity|].
  unfold write. fold (appointmentFields body).
  destruct (Appointment_create (appointmentFields body) (db w))
    as [e|[a s1]]; [reflexivity|].
  rewrite run_try_await.
  destruct (faults env Book_linkPatient); [reflexivity|].
  cbn [db outbox]. rewrite Patient_findByIdAndUpdate_push.
  destruct (castId (field "patientId" body)); reflexivity.
Qed.

End Booking.

Section BookingProperties.
Context {L : Libraries}.

(** What a booking that reaches its save has found. *)
Lemma book_save_facts :
  forall (body : Body) (s s1 : Store) (a : Appointment.t),
    someFalsy bookingFields body = false ->
    Appointment_findOne (field "doctorId" body) (field "timeSlot" body) s
      = inr None ->
    Appointment_create (appointmentFields body) s = inr (a, s1) ->
    s1 = mkStore s.(doctors) s.(patients) (s.(appointments) ++ [a])
           (N.succ s.(next_id)) /\
    a.(Appointment._id) = s.(next_id) /\
    toObjectId (field "doctorId" body) = Some a.(Appointment.doctorId) /\
    toString (field "timeSlot" body) = Some a.(Appointment.timeSlot) /\
    a.(Appointment.status) = "Booked" /\
    slotTaken a.(Appointment.doctorId) a.(Appointment.timeSlot) s = false.
Proof.
  intros body s s1 a Hv Hf Hc.
  destruct (Appointment_create_shape _ _ _ _ Hc)
    as [-> [Hid [Hd [Ht [_ [_ Hs]]]]]].
  cbn [appointmentFields field String.eqb Ascii.eqb Bool.eqb] in Hd, Ht, Hs.
  cbn in Hs. inversion Hs as [Hs'].
  unfold Appointment_findOne in Hf. rewrite Hd in Hf.
  destruct (toString (field "timeSlot" body)) as [t|] eqn:Et;
    [|discriminate].
  assert (Tt : truthy (field "timeSlot" body) = true).
  { apply (someFalsy_false bookingFields body "timeSlot" Hv). cbn. tauto. }
  rewrite (optionalString_truthy L _ _ Tt Et) in Ht.
  inversion Ht as [Ht']. rewrite <- Ht' in *.
  repeat split; auto.
  unfold slotTaken. apply find_existsb.
  destruct (find _ (appointments s)); [discriminate | reflexivity].
Qed.

End BookingProperties.

(** X8.  A booking that is answered 201 has stored exactly one new
    appointment, for the doctor and the time slot of the request, which
    was free, with status "Booked"; it has queued exactly one mail, to
    the [patientEmail] of the request; and it has left every doctor and
    patient record as it was. *)
Theorem booking_stores_one_appointment :
  forall (L : Libraries) (env : Env) (body : Body) (r : Response)
         (w w' : World),
    run (bookAppointment env body) w = (inr r, w') ->
    r.(status) = 201 ->
    exists a,
      w'.(db).(appointments) = w.(db).(appointments) ++ [a] /\
      toObjectId (field "doctorId" body) = Some a.(Appointment.doctorId) /\
      toString (field "timeSlot" body) = Some a.(Appointment.timeSlot) /\
      a.(Appointment.status) = "Booked" /\
      slotTaken a.(Appointment.doctorId) a.(Appointment.timeSlot) w.(db)
        = false /\
      w'.(db).(doctors) = w.(db).(doctors) /\
      w'.(db).(patients) = w.(db).(patients) /\
      w'.(outbox) = w.(outbox) ++ [confirmationMail body] /\
      r.(json) = JObj [("message", JStr "Appointment booked successfully!");
                       ("appointment", appointmentToJSON a)].
Proof.
  intros L env body r w w'. rewrite run_book. cbv zeta.
  destruct (someFalsy bookingFields body) eqn:Hv;
    [intros H; inversion H; subst; discriminate|].
  destruct (faults env Book_findOne);
    [intros H; inversion H; subst; discriminate|].
  destruct (Appointment_findOne _ _ (db w)) as [e|[x|]] eqn:Ef;
    try (intros H; inversion H; subst; discriminate).
  destruct (faults env Book_save);
    [intros H; inversion H; subst; discriminate|].
  destruct (Appointment_create _ (db w)) as [e|[a s1]] eqn:Ec;
    [intros H; inversion H; subst; discriminate|].
  destruct (faults env Book_linkPatient);
    [intros H; inversion H; subst; discriminate|].
  destruct (castId (field "patientId" body));
    [intros H; inversion H; subst; discriminate|].
  intros H _. inversion H. subst r w'. cbn [db outbox json].
  destruct (book_save_facts body (db w) s1 a Hv Ef Ec)
    as [-> [_ [Hd [Ht [Hs Hfree]]]]].
  exists a. cbn. repeat split; auto.
Qed.

Lemma booking_stores_one_appointment_witness :
  exists a,
    Sample.booked.(db).(appointments) =
    Sample.registered.(db).(appointments) ++ [a] /\
    a.(Appointment.status) = "Booked" /\
    Sample.booked.(outbox) = [confirmationMail Sample.booking].
Proof.
  assert (E : run (bookAppointment Sample.env Sample.booking)
                Sample.registered =
              (inr (mkResponse 201
                      (JObj [("message",
                               JStr "Appointment booked successfully!");
                             ("appointment",
                               appointmentToJSON bobsAppointment)])),
               Sample.booked))
    by (vm_compute; reflexivity).
  destruct (booking_stores_one_appointment Sample.libraries Sample.env
              Sample.booking _ Sample.registered Sample.booked E eq_refl)
    as [a [Ha [_ [_ [Hs [_ [_ [_ [Ho _]]]]]]]]].
  exists a. split; [exact Ha|]. split; [exact Hs | exact Ho].
Defined.

(** X9.  A booking never looks at the doctor or the patient records: on
    two stores with the same appointments and the same next identifier
    it gives the same answer.  A booking for a doctor or a patient that
    does not exist is accepted like any other. *)
Theorem booking_ignores_doctors_and_patients :
  forall (L : Libraries) (env : Env) (body : Body) (w1 w2 : World),
    w1.(db).(appointments) = w2.(db).(appointments) ->
    w1.(db).(next_id) = w2.(db).(next_id) ->
    fst (run (bookAppointment env body) w1) =
    fst (run (bookAppointment env body) w2).
Proof.
  intros L env body w1 w2 Ha Hn. rewrite !run_book. cbv zeta.
  destruct (someFalsy bookingFields body); [reflexivity|].
  destruct (faults env Book_findOne); [reflexivity|].
  unfold Appointment_findOne. rewrite Ha.
  destruct (toObjectId (field "doctorId" body)); [|reflexivity].
  destruct (toString (field "timeSlot" body)); [|reflexivity].
  destruct (find _ (appointments (db w2))); [reflexivity|].
  destruct (faults env Book_save); [reflexivity|].
  unfold Appointment_create. rewrite Hn.
  destruct (optionalString (field "patientName" (appointmentFields body)));
    [reflexivity|].
  destruct (optionalString (field "patientEmail" (appointmentFields body)));
    [reflexivity|].
  destruct (toObjectId (field "doctorId" (appointmentFields body)));
    [|reflexivity].
  destruct (optionalString (field "timeSlot" (appointmentFields body)));
    [reflexivity|].
  destruct (defaultString "Booked" (field "status" (appointmentFields body)));
    [reflexivity|].
  destruct (faults env Book_linkPatient); [reflexivity|].
  destruct (castId (field "patientId" body)); reflexivity.
Qed.

Lemma booking_ignores_doctors_and_patients_witness :
  fst (run (bookAppointment Sample.env Sample.booking) emptyWorld) =
  fst (run (bookAppointment Sample.env Sample.booking)
         (mkWorld (mkStore Sample.registered.(db).(doctors) [] [] 0%N) [])).
Proof.
  exact (booking_ignores_doctors_and_patients Sample.libraries Sample.env
           Sample.booking emptyWorld
           (mkWorld (mkStore Sample.registered.(db).(doctors) [] [] 0%N) [])
           eq_refl eq_refl).
Defined.



(** ** Mails *)

Section Mails.
Context {L : Libraries}.

Lemma outbox_write : forall (X : Type) (f : Store -> Exn + (X * Store))
    (w : World),
  (snd (write f w)).(outbox) = w.(outbox).
Proof.
  intros X f w. unfold write. destruct (f (db w)) as [e|[x s]]; reflexivity.
Qed.

Lemma other_endpoints_send_nothing : forall (env : Env) (r : Request)
    (w : World),
  mailing r = None ->
  (snd (run (handle env r) w)).(outbox) = w.(outbox).
Proof.
  intros env r w Hr.
  apply (run_preserves (fun w' => outbox w' = outbox w));
    [|reflexivity].
  destruct r; try discriminate; cbn [handle];
    unfold registerDoctor, registerPatient, loginDoctor, loginPatient,
      getDoctor, setAvailability, searchDoctors;
    decompose_task; apply preserves_await; intros w' Hw';
    try exact Hw'; rewrite outbox_write; exact Hw'.
Qed.

End Mails.

Ltac no_mail :=
  split; [intros H; discriminate H
         |split; [intros _; reflexivity | intros; reflexivity]].

(** X11.  Mail goes out on success, and only then.  A booking queues
    exactly one mail, the confirmation, if it is answered 201, and none
    otherwise; a cancellation queues exactly one mail, the notice for the
    stored appointment it names, if it is answered 200, and none
    otherwise; both mails are addressed to the [patientEmail] of the
    request body.  No other request touches the outbox. *)
Theorem mail_only_on_success :
  forall (L : Libraries) (env : Env) (r : Request) (w : World),
    match r with
    | POST_bookAppointment body =>
        (statusOf (fst (run (handle env r) w)) = Some 201 ->
         (snd (run (handle env r) w)).(outbox) =
         w.(outbox) ++ [confirmationMail body]) /\
        (statusOf (fst (run (handle env r) w)) <> Some 201 ->
         (snd (run (handle env r) w)).(outbox) = w.(outbox)) /\
        (confirmationMail body).(to) = field "patientEmail" body
    | POST_cancelAppointment _ body =>
        (statusOf (fst (run (handle env r) w)) = Some 200 ->
         exists a,
           In a w.(db).(appointments) /\
           (forall i, castId (field "appointmentId" body) = inr (Some i) ->
                      a.(Appointment._id) = i) /\
           (snd (run (handle env r) w)).(outbox) =
           w.(outbox) ++ [cancellationMail body a]) /\
        (statusOf (fst (run (handle env r) w)) <> Some 200 ->
         (snd (run (handle env r) w)).(outbox) = w.(outbox)) /\
        (forall a, (cancellationMail body a).(to) = field "patientEmail" body)
    | _ => (snd (run (handle env r) w)).(outbox) = w.(outbox)
    end.
Proof.
  intros L env r w.
  destruct r as [b|b|b|b|a d|a b|body|authorization body| ];
    try (apply other_endpoints_send_nothing; reflexivity);
    cbn [handle].
  - rewrite run_book. cbv zeta.
    destruct (someFalsy bookingFields body); [no_mail|].
    destruct (faults env Book_findOne); [no_mail|].
    destruct (Appointment_findOne _ _ (db w)) as [e|[x|]]; try no_mail.
    destruct (faults env Book_save); [no_mail|].
    destruct (Appointment_create _ (db w)) as [e|[a s1]]; [no_mail|].
    destruct (faults env Book_linkPatient); [no_mail|].
    destruct (castId (field "patientId" body)); [no_mail|].
    split; [intros _; reflexivity|].
    split; [intros H; contradiction H; reflexivity | reflexivity].
  - destruct (authenticated env authorization) eqn:Ha;
      [|unfold cancelAppointment; rewrite run_authenticateToken, Ha;
        destruct (truthy (bearer authorization)); no_mail].
    destruct (truthy (field "appointmentId" body)) eqn:Ht;
      [|unfold cancelAppointment; rewrite run_authenticateToken, Ha, Ht;
        no_mail].
    rewrite (run_cancel env authorization body w Ha Ht). cbv zeta.
    destruct (faults env Cancel_findById); [no_mail|].
    destruct (castId (field "appointmentId" body)) as [e|[i|]] eqn:Ei;
      try no_mail.
    destruct (find _ _) as [a|] eqn:Ef; [|no_mail].
    destruct (faults env Cancel_delete); [no_mail|].
    destruct (faults env Cancel_detach); [no_mail|].
    destruct (castId (field "patientId" body)); [no_mail|].
    destruct (faults env Cancel_commit); [no_mail|].
    apply find_some in Ef. destruct Ef as [Hin Hid].
    unfold hasId in Hid. apply N.eqb_eq in Hid.
    split; [|split; [intros H; contradiction H; reflexivity
                    |intros; reflexivity]].
    intros _. exists a. split; [exact Hin|]. split; [|reflexivity].
    intros j Hj. inversion Hj. subst j. exact Hid.
Qed.

Lemma mail_only_on_success_witness :
  Sample.booked.(outbox) =
  Sample.registered.(outbox) ++ [confirmationMail Sample.booking] /\
  (snd (run (bookAppointment Sample.env Sample.booking) Sample.booked))
    .(outbox) = Sample.booked.(outbox).
Proof.
  destruct (mail_only_on_success Sample.libraries Sample.env
              (POST_bookAppointment Sample.booking) Sample.registered)
    as [H _].
  destruct (mail_only_on_success Sample.libraries Sample.env
              (POST_bookAppointment Sample.booking) Sample.booked)
    as [_ [H' _]].
  split; [exact (H eq_refl) | apply H'; vm_compute; discriminate].
Defined.

(** ** One appointment per slot, for requests served one at a time *)

Section Slots.
Context {L : Libraries}.

Lemma delete_first_In : forall (A : Type) (p : A -> bool) (l : list A)
    (x : A),
  In x (delete_first p l) -> In x l.
Proof.
  intros A p l x. induction l as [|y l IH]; cbn; [tauto|].
  destruct (p y); cbn; [tauto|]. intros [H|H]; auto.
Qed.

Lemma NoDup_map_delete_first : forall (A B : Type) (g : A -> B)
    (p : A -> bool) (l : list A),
  NoDup (map g l) -> NoDup (map g (delete_first p l)).
Proof.
  intros A B g p l. induction l as [|x l IH]; cbn; intros H; [exact H|].
  inversion H as [|? ? Hx Hl]. subst.
  destruct (p x); cbn; [exact Hl|]. constructor; [|auto].
  intros Hin. apply Hx. apply in_map_iff in Hin.
  destruct Hin as [y [E Hy]]. apply in_map_iff. exists y.
  split; [exact E | exact (delete_first_In _ p l y Hy)].
Qed.

Lemma others_preserve_slotsUnique : forall (env : Env) (r : Request),
  match r with POST_bookAppointment _ => False | _ => True end ->
  preserves slotsUnique (handle env r).
Proof.
  intros env r Hr.
  apply (others_preserve_store slotsUniqueIn); unfold slotsUniqueIn;
    try exact Hr.
  - intros o s d s' H E.
    destruct (Doctor_create_shape o s s' d E) as [-> _]. exact H.
  - intros o s p s' H E.
    destruct (Patient_create_shape o s s' p E) as [-> _]. exact H.
  - intros d v s d' s' H E.
    destruct (Doctor_saveAvailability_shape d d' v s s' E)
      as [av [_ [_ ->]]]. exact H.
  - intros s [i|schema i u] H; cbn; [|exact H].
    apply NoDup_map_delete_first. exact H.
Qed.

Lemma slotTaken_false_not_In : forall (d : ObjectId) (t : string)
    (s : Store),
  slotTaken d t s = false ->
  ~ In (d, t)
      (map (fun a => (a.(Appointment.doctorId), a.(Appointment.timeSlot)))
         s.(appointments)).
Proof.
  intros d t s H Hin. apply in_map_iff in Hin.
  destruct Hin as [a [E Ha]]. inversion E. subst.
  assert (T : slotTaken (Appointment.doctorId a) (Appointment.timeSlot a) s
              = true).
  { unfold slotTaken. apply existsb_exists. exists a.
    rewrite N.eqb_refl, String.eqb_refl. auto. }
  congruence.
Qed.

Lemma book_keeps_slotsUnique : forall (env : Env) (body : Body)
    (w : World),
  slotsUnique w -> slotsUnique (snd (run (bookAppointment env body) w)).
Proof.
  intros env body w Hw. rewrite run_book. cbv zeta.
  destruct (someFalsy bookingFields body) eqn:Hv; [exact Hw|].
  destruct (faults env Book_findOne); [exact Hw|].
  destruct (Appointment_findOne _ _ (db w)) as [e|[x|]] eqn:Ef;
    try exact Hw.
  destruct (faults env Book_save); [exact Hw|].
  destruct (Appointment_create _ (db w)) as [e|[a s1]] eqn:Ec;
    [exact Hw|].
  destruct (book_save_facts body (db w) s1 a Hv Ef Ec)
    as [-> [_ [_ [_ [_ Hfree]]]]].
  assert (G : forall o, slotsUnique
                (mkWorld (mkStore (doctors (db w)) (patients (db w))
                            (appointments (db w) ++ [a])
                            (N.succ (next_id (db w)))) o)).
  { intros o. unfold slotsUnique, slots. cbn [db appointments].
    rewrite map_app. apply NoDup_app; [exact Hw | repeat constructor; auto|].
    intros p Hp [E|[]]. subst p.
    exact (slotTaken_false_not_In _ _ _ Hfree Hp). }
  destruct (faults env Book_linkPatient); [apply G|].
  destruct (castId (field "patientId" body)); apply G.
Qed.

End Slots.

(** X12.  Served one at a time, the requests never leave two appointments
    for the same doctor and time slot in the store: each request keeps
    the slots of the stored appointments distinct, whatever the store's
    failures, and so the slots are distinct in every world reached from
    the empty store one request after the other. *)
Theorem one_appointment_per_slot_in_sequence :
  forall (L : Libraries),
    (forall env r w,
        slotsUnique w -> slotsUnique (snd (run (handle env r) w))) /\
    (forall w, reachable w -> slotsUnique w).
Proof.
  intros L.
  assert (G : forall env r w,
             slotsUnique w -> slotsUnique (snd (run (handle env r) w))).
  { intros env r w Hw.
    destruct r;
      try (apply run_preserves;
           [apply others_preserve_slotsUnique; exact I | exact Hw]).
    apply book_keeps_slotsUnique. exact Hw. }
  split; [exact G|].
  intros w H. induction H as [|w env r H IH]; [constructor|].
  apply G. exact IH.
Qed.

Lemma one_appointment_per_slot_in_sequence_witness :
  slotsUnique Sample.booked.
Proof.
  apply (proj2 (one_appointment_per_slot_in_sequence Sample.libraries)).
  apply (@reach_step Sample.libraries _ Sample.env
           (POST_bookAppointment Sample.booking)).
  apply (@reach_step Sample.libraries _ Sample.env
           (POST_registerPatient Sample.bob)).
  apply (@reach_step Sample.libraries _ Sample.env
           (POST_registerDoctor Sample.drA)).
  apply reach_init.
Defined.

(** ** Book, then cancel *)

Section BookCancel.
Context {L : Libraries}.

Lemma handle_preserves_idsHandedOut : forall (env : Env) (r : Request),
  preserves idsHandedOut (handle env r).
Proof.
  assert (W : forall (l : list Appointment.t) (n : N),
             Forall (fun a => (Appointment._id a < n)%N) l ->
             Forall (fun a => (Appointment._id a < N.succ n)%N) l).
  { intros l n H. eapply Forall_impl; [|exact H]. cbn. intros a Ha. lia. }
  apply (handle_preserves_store idsHandedOutIn); unfold idsHandedOutIn.
  - intros o s d s' H E.
    destruct (Doctor_create_shape o s s' d E) as [-> _]. cbn. auto.
  - intros o s p s' H E.
    destruct (Patient_create_shape o s s' p E) as [-> _]. cbn. auto.
  - intros d v s d' s' H E.
    destruct (Doctor_saveAvailability_shape d d' v s s' E)
      as [av [_ [_ ->]]]. exact H.
  - intros o s a s' H E.
    destruct (Appointment_create_shape o s s' a E) as [-> [Hid _]]. cbn.
    apply Forall_app. split; [auto|].
    constructor; [rewrite Hid; lia | constructor].
  - intros s [i|schema i u] H; cbn; [|exact H].
    apply Forall_delete_first. exact H.
Qed.

(** The identifiers of the stored appointments were all handed out
    before, in every world the endpoints produce from the empty store. *)
Lemma served_idsHandedOut :
  (forall w, reachable w -> idsHandedOut w) /\
  (forall pool w, serving pool w -> idsHandedOut w).
Proof.
  apply served_keep; [apply handle_preserves_idsHandedOut | constructor].
Qed.

Lemma idsHandedOut_fresh : forall (w : World),
  idsHandedOut w ->
  existsb (hasId Appointment._id w.(db).(next_id)) w.(db).(appointments)
    = false.
Proof.
  intros w H. unfold idsHandedOut, idsHandedOutIn in H.
  induction H as [|a l Ha Hl IH]; cbn; [reflexivity|].
  rewrite IH, orb_false_r. unfold hasId. apply N.eqb_neq. lia.
Qed.

Lemma delete_first_snoc_fresh : forall (A : Type) (p : A -> bool)
    (l : list A) (x : A),
  existsb p l = false -> p x = true -> delete_first p (l ++ [x]) = l.
Proof.
  intros A p l x. induction l as [|y l IH]; cbn; intros H Hx.
  - rewrite Hx. reflexivity.
  - destruct (p y); [discriminate|]. rewrite IH; auto.
Qed.

(** The store a booking answered 201 leaves. *)
Lemma book_201_store :
  forall (env : Env) (body : Body) (r : Response) (w w' : World),
    run (bookAppointment env body) w = (inr r, w') ->
    r.(status) = 201 ->
    exists a,
      w'.(db) = mkStore w.(db).(doctors) w.(db).(patients)
                  (w.(db).(appointments) ++ [a])
                  (N.succ w.(db).(next_id)) /\
      a.(Appointment._id) = w.(db).(next_id) /\
      toObjectId (field "doctorId" body) = Some a.(Appointment.doctorId) /\
      toString (field "timeSlot" body) = Some a.(Appointment.timeSlot) /\
      slotTaken a.(Appointment.doctorId) a.(Appointment.timeSlot) w.(db)
        = false.
Proof.
  intros env body r w w'. rewrite run_book. cbv zeta.
  destruct (someFalsy bookingFields body) eqn:Hv;
    [intros H; inversion H; subst; discriminate|].
  destruct (faults env Book_findOne);
    [intros H; inversion H; subst; discriminate|].
  destruct (Appointment_findOne _ _ (db w)) as [e|[x|]] eqn:Ef;
    try (intros H; inversion H; subst; discriminate).
  destruct (faults env Book_save);
    [intros H; inversion H; subst; discriminate|].
  destruct (Appointment_create _ (db w)) as [e|[a s1]] eqn:Ec;
    [intros H; inversion H; subst; discriminate|].
  destruct (faults env Book_linkPatient);
    [intros H; inversion H; subst; discriminate|].
  destruct (castId (field "patientId" body));
    [intros H; inversion H; subst; discriminate|].
  intros H _. inversion H. subst r w'. cbn [db].
  destruct (book_save_facts body (db w) s1 a Hv Ef Ec)
    as [-> [Hid [Hd [Ht [_ Hfree]]]]].
  exists a. repeat split; auto.
Qed.

End BookCancel.

(** X13.  Book, then cancel.  In a world whose appointment identifiers
    were all handed out before (every world served from the empty store
    is one), a booking answered 201 followed by a cancellation that
    passes the middleware, names the identifier of the new appointment
    and is answered by the store, is answered 200 and leaves the
    appointments, the doctors and the patients exactly as they were
    before the booking: the slot is free again. *)
Theorem book_then_cancel :
  forall (L : Libraries) (env1 env2 : Env)
         (authorization : option string) (body cancelBody : Body)
         (r : Response) (w w1 : World),
    idsHandedOut w ->
    run (bookAppointment env1 body) w = (inr r, w1) ->
    r.(status) = 201 ->
    authenticated env2 authorization = true ->
    truthy (field "appointmentId" cancelBody) = true ->
    castId (field "appointmentId" cancelBody)
      = inr (Some w.(db).(next_id)) ->
    (forall e, castId (field "patientId" cancelBody) <> inl e) ->
    env2.(faults) Cancel_findById = false ->
    env2.(faults) Cancel_delete = false ->
    env2.(faults) Cancel_detach = false ->
    env2.(faults) Cancel_commit = false ->
    let w2 := snd (run (cancelAppointment env2 authorization cancelBody)
                     w1) in
    fst (run (cancelAppointment env2 authorization cancelBody) w1) =
    inr (mkResponse 200 (msg "Appointment cancelled successfully!")) /\
    w2.(db).(appointments) = w.(db).(appointments) /\
    w2.(db).(doctors) = w.(db).(doctors) /\
    w2.(db).(patients) = w.(db).(patients) /\
    (forall d t, toObjectId (field "doctorId" body) = Some d ->
                 toString (field "timeSlot" body) = Some t ->
                 slotTaken d t w2.(db) = false).
Proof.
  intros L env1 env2 auth body cbody r w w1 Hids Hrun Hs Ha Ht Ei Hp
         F1 F2 F3 F4 w2.
  destruct (book_201_store env1 body r w w1 Hrun Hs)
    as [a [Hw1 [Hid [Hd [Hts Hfree]]]]].
  assert (Hfind : find (hasId Appointment._id (next_id (db w)))
                    (appointments (db w) ++ [a]) = Some a).
  { apply find_snoc_fresh; [apply idsHandedOut_fresh; exact Hids|].
    unfold hasId. rewrite Hid. apply N.eqb_refl. }
  assert (Hdel : delete_first (hasId Appointment._id (next_id (db w)))
                   (appointments (db w) ++ [a]) = appointments (db w)).
  { apply delete_first_snoc_fresh; [apply idsHandedOut_fresh; exact Hids|].
    unfold hasId. rewrite Hid. apply N.eqb_refl. }
  subst w2. rewrite (run_cancel env2 auth cbody w1 Ha Ht). cbv zeta.
  rewrite F1, Ei, Hw1. cbn [appointments]. rewrite Hfind, F2, F3.
  destruct (castId (field "patientId" cbody)) as [e|p] eqn:Ep;
    [exfalso; exact (Hp e eq_refl)|].
  rewrite F4. cbn [fst snd db].
  assert (A : appointments
                (view (cancelWrites (next_id (db w)) p
                         (field "appointmentId" cbody))
                   (mkStore (doctors (db w)) (patients (db w))
                      (appointments (db w) ++ [a])
                      (N.succ (next_id (db w)))))
              = appointments (db w)).
  { destruct p; cbn; exact Hdel. }
  split; [reflexivity|]. split; [exact A|].
  split; [destruct p; reflexivity|]. split.
  - destruct p as [j|]; cbn; [|reflexivity].
    apply update_first_id. intros x. apply applyUpdate_PatientSchema.
  - intros d t Ed Et. unfold slotTaken. rewrite A.
    rewrite Hd in Ed. rewrite Hts in Et. inversion Ed. inversion Et.
    subst. exact Hfree.
Qed.

Lemma book_then_cancel_witness :
  fst (run (cancelAppointment Sample.env Sample.authorization
              Sample.cancelBob) Sample.booked) =
  inr (mkResponse 200 (msg "Appointment cancelled successfully!")) /\
  (snd (run (cancelAppointment Sample.env Sample.authorization
               Sample.cancelBob) Sample.booked)).(db).(appointments) =
  Sample.registered.(db).(appointments).
Proof.
  assert (E : run (bookAppointment Sample.env Sample.booking)
                Sample.registered =
              (inr (mkResponse 201
                      (JObj [("message",
                               JStr "Appointment booked successfully!");
                             ("appointment",
                               appointmentToJSON bobsAppointment)])),
               Sample.booked))
    by (vm_compute; reflexivity).
  assert (I0 : idsHandedOut Sample.registered) by (vm_compute; constructor).
  assert (P : forall e, castId (field "patientId" Sample.cancelBob)
                        <> inl e)
    by (intros e; vm_compute; discriminate).
  destruct (book_then_cancel Sample.libraries Sample.env Sample.env
              Sample.authorization Sample.booking Sample.cancelBob _
              Sample.registered Sample.booked I0 E eq_refl eq_refl eq_refl
              eq_refl P eq_refl eq_refl eq_refl eq_refl)
    as [H1 [H2 _]].
  split; [exact H1 | exact H2].
Defined.

(** ** Setting the availability *)

Section SetAvailability.
Context {L : Libraries}.

(** The whole of a setAvailability that passes the middleware. *)
Lemma run_setAvailability :
  forall (env : Env) (authorization : option string) (body : Body)
         (w : World),
    authenticated env authorization = true ->
    run (setAvailability env authorization body) w =
    let failed := (inr (mkResponse 500 (msg "Server error.")), w) in
    if negb (truthy (field "doctorId" body))
       || negb (isArray (field "availability" body))
    then (inr (mkResponse 400 (msg "Invalid request format.")), w)
    else if env.(faults) SetAvailability_findById then failed
    else
      match Doctor_findById (field "doctorId" body) w.(db) with
      | inl _ => failed
      | inr None => (inr (mkResponse 404 (msg "Doctor not found.")), w)
      | inr (Some d) =>
          if env.(faults) SetAvailability_save then failed
          else
            match Doctor_saveAvailability d (field "availability" body)
                    w.(db) with
            | inl _ => failed
            | inr (d', s') =>
                (inr (mkResponse 200
                        (JObj [("message",
                                 JStr "Availability updated successfully!");
                               ("doctor",
                                 JObj [("_id", idToJSON d'.(Doctor._id));
                                       ("availability",
                                         JArr (map availabilityToJSON
                                                 d'.(Doctor.availability)))
                                      ])])),
                 mkWorld s' w.(outbox))
            end
      end.
Proof.
  intros env auth body w Ha. unfold setAvailability.
  rewrite run_authenticateToken, Ha. cbv zeta.
  destruct (negb (truthy (field "doctorId" body))
            || negb (isArray (field "availability" body)));
    [reflexivity|].
  rewrite run_try_await.
  destruct (faults env SetAvailability_findById); [reflexivity|].
  unfold query.
  destruct (Doctor_findById _ (db w)) as [e|[d|]]; try reflexivity.
  rewrite run_try_await.
  destruct (faults env SetAvailability_save); [reflexivity|].
  unfold write.
  destruct (Doctor_saveAvailability d _ (db w)) as [e|[d' s']];
    reflexivity.
Qed.

Lemma run_setAvailability_denied :
  forall (env : Env) (authorization : option string) (body : Body)
         (w : World),
    authenticated env authorization = false ->
    run (setAvailability env authorization body) w =
    (inr (denial authorization), w).
Proof.
  intros env auth body w Ha. unfold setAvailability, denial.
  rewrite run_authenticateToken, Ha. reflexivity.
Qed.

Lemma blank_requiredString : forall (v : JsVal),
  blank v = true -> exists e, requiredString v = inl e.
Proof.
  intros v H. destruct v; try discriminate; cbn in *;
    try (eexists; reflexivity).
  rewrite H. eexists; reflexivity.
Qed.

Lemma incomplete_castAvailability : forall (v : JsVal),
  incomplete v = true -> castAvailability v = inl ValidationError.
Proof.
  intros v H. destruct v as [ | |b|n|s|i|l|o]; try discriminate.
  cbn in H. unfold castAvailability.
  apply orb_prop in H. destruct H as [H|H];
    [apply orb_prop in H; destruct H as [H|H]|];
    destruct (blank_requiredString _ H) as [e ->];
    repeat match goal with
           | |- context [match ?x with _ => _ end] => destruct x
           end; reflexivity.
Qed.

Lemma incomplete_castAvailabilities : forall (l : list JsVal),
  existsb incomplete l = true ->
  castAvailabilities l = inl ValidationError.
Proof.
  induction l as [|v l IH]; cbn; intros H; [discriminate|].
  apply orb_prop in H. destruct H as [H|H].
  - rewrite (incomplete_castAvailability v H). reflexivity.
  - rewrite (IH H). destruct (castAvailability v); reflexivity.
Qed.

End SetAvailability.



(** X15.  An availability list is taken whole or not at all.  If one
    entry of the submitted list is an object that has no day, no start
    time or no end time (absent, null or empty), the request is not
    answered 200 and nothing is stored: the doctor keeps the list it had,
    the valid entries of the request included. *)
Theorem set_availability_rejects_incomplete :
  forall (L : Libraries) (env : Env) (authorization : option string)
         (body : Body) (l : list JsVal) (w : World),
    field "availability" body = JArr l ->
    existsb incomplete l = true ->
    snd (run (setAvailability env authorization body) w) = w /\
    statusOf (fst (run (setAvailability env authorization body) w))
      <> Some 200.
Proof.
  intros L env auth body l w El Hl.
  destruct (authenticated env auth) eqn:Ha;
    [|rewrite (run_setAvailability_denied env auth body w Ha);
      unfold denial; destruct (truthy (bearer auth));
      split; try reflexivity; discriminate].
  rewrite (run_setAvailability env auth body w Ha). cbv zeta.
  destruct (negb (truthy (field "doctorId" body))
            || negb (isArray (field "availability" body)));
    [split; [reflexivity | discriminate]|].
  destruct (faults env SetAvailability_findById);
    [split; [reflexivity | discriminate]|].
  destruct (Doctor_findById _ (db w)) as [e|[d|]];
    try (split; [reflexivity | discriminate]).
  destruct (faults env SetAvailability_save);
    [split; [reflexivity | discriminate]|].
  unfold Doctor_saveAvailability. rewrite El.
  cbn [castAvailabilityPath].
  rewrite (incomplete_castAvailabilities l Hl).
  split; [reflexivity | discriminate].
Qed.

Lemma set_availability_rejects_incomplete_witness :
  run (setAvailability Sample.env Sample.authorization
         [("doctorId", JStr "0");
          ("availability",
            JArr [JObj [("day", JStr "Mon"); ("startTime", JStr "09:00");
                        ("endTime", JStr "10:00")];
                  JObj [("day", JStr "Tue"); ("startTime", JStr "10:00")]])])
    Sample.registered =
  (inr (mkResponse 500 (msg "Server error.")), Sample.registered).
Proof.
  destruct (set_availability_rejects_incomplete Sample.libraries Sample.env
              Sample.authorization
              [("doctorId", JStr "0");
               ("availability",
                 JArr [JObj [("day", JStr "Mon");
                             ("startTime", JStr "09:00");
                             ("endTime", JStr "10:00")];
                       JObj [("day", JStr "Tue");
                             ("startTime", JStr "10:00")]])]
              _ Sample.registered eq_refl eq_refl) as [H _].
  rewrite (surjective_pairing (run _ _)). rewrite H.
  vm_compute. reflexivity.
Defined.

(** ** Requests that are turned away *)

(** X16.  Asking for, or setting, the availability of a doctor whose id
    no record has is answered 404 "Doctor not found." and changes
    nothing. *)
Theorem unknown_doctor_is_404 :
  forall (L : Libraries) (env : Env) (authorization : option string)
         (w : World),
    authenticated env authorization = true ->
    (forall doctorId,
        env.(faults) GetDoctor_findById = false ->
        Doctor_findById (JStr doctorId) w.(db) = inr None ->
        run (getDoctor env authorization doctorId) w =
        (inr (mkResponse 404 (msg "Doctor not found.")), w)) /\
    (forall body,
        truthy (field "doctorId" body) = true ->
        isArray (field "availability" body) = true ->
        env.(faults) SetAvailability_findById = false ->
        Doctor_findById (field "doctorId" body) w.(db) = inr None ->
        run (setAvailability env authorization body) w =
        (inr (mkResponse 404 (msg "Doctor not found.")), w)).
Proof.
  intros L env auth w Ha. split.
  - intros doc Hf Hn. unfold getDoctor.
    rewrite run_authenticateToken, Ha, run_try_await, Hf.
    unfold query. rewrite Hn. reflexivity.
  - intros body Hd Hl Hf Hn.
    rewrite (run_setAvailability env auth body w Ha). cbv zeta.
    rewrite Hd, Hl, Hf, Hn. reflexivity.
Qed.

Lemma unknown_doctor_is_404_witness :
  run (getDoctor Sample.env Sample.authorization "7") Sample.booked =
  (inr (mkResponse 404 (msg "Doctor not found.")), Sample.booked).
Proof.
  destruct (unknown_doctor_is_404 Sample.libraries Sample.env
              Sample.authorization Sample.booked eq_refl) as [H _].
  exact (H "7" eq_refl eq_refl).
Defined.

(** X17.  The format checks come before any call to the store.  A booking
    with one of its five fields falsy, a patient login without email or
    password, a setAvailability without doctorId or whose availability is
    no array, and a cancellation without appointmentId are answered 400
    with the message of their handler and change nothing, whatever the
    store would do. *)
Theorem malformed_requests_are_400 :
  forall (L : Libraries) (env : Env) (authorization : option string)
         (body : Body) (w : World),
    (someFalsy bookingFields body = true ->
     run (bookAppointment env body) w =
     (inr (mkResponse 400 (msg "All fields are required.")), w)) /\
    (truthy (field "email" body) && truthy (field "password" body) = false ->
     run (loginPatient env body) w =
     (inr (mkResponse 400 (msg "Email and password required.")), w)) /\
    (authenticated env authorization = true ->
     truthy (field "doctorId" body) && isArray (field "availability" body)
       = false ->
     run (setAvailability env authorization body) w =
     (inr (mkResponse 400 (msg "Invalid request format.")), w)) /\
    (authenticated env authorization = true ->
     truthy (field "appointmentId" body) = false ->
     run (cancelAppointment env authorization body) w =
     (inr (mkResponse 400 (msg "Appointment ID required.")), w)).
Proof.
  intros L env auth body w. repeat split.
  - intros H. rewrite run_book. cbv zeta. rewrite H. reflexivity.
  - intros H. unfold loginPatient.
    destruct (truthy (field "email" body));
      destruct (truthy (field "password" body)); try discriminate;
      reflexivity.
  - intros Ha H. rewrite (run_setAvailability env auth body w Ha). cbv zeta.
    destruct (truthy (field "doctorId" body));
      destruct (isArray (field "availability" body)); try discriminate;
      reflexivity.
  - intros Ha H. unfold cancelAppointment.
    rewrite run_authenticateToken, Ha, H. reflexivity.
Qed.

Lemma malformed_requests_are_400_witness :
  run (bookAppointment Sample.env
         [("doctorId", JStr "0"); ("patientId", JStr "1");
          ("patientName", JStr ""); ("patientEmail", JStr "b@x.com");
          ("timeSlot", JStr "Mon-09:00")]) Sample.booked =
  (inr (mkResponse 400 (msg "All fields are required.")), Sample.booked) /\
  run (setAvailability Sample.env Sample.authorization
         [("doctorId", JStr "0");
          ("availability", JObj [("day", JStr "Mon")])]) Sample.booked =
  (inr (mkResponse 400 (msg "Invalid request format.")), Sample.booked).
Proof.
  split.
  - destruct (malformed_requests_are_400 Sample.libraries Sample.env None
                [("doctorId", JStr "0"); ("patientId", JStr "1");
                 ("patientName", JStr ""); ("patientEmail", JStr "b@x.com");
                 ("timeSlot", JStr "Mon-09:00")] Sample.booked)
      as [H _].
    exact (H eq_refl).
  - destruct (malformed_requests_are_400 Sample.libraries Sample.env
                Sample.authorization
                [("doctorId", JStr "0");
                 ("availability", JObj [("day", JStr "Mon")])]
                Sample.booked) as [_ [_ [H _]]].
    exact (H eq_refl eq_refl).
Defined.

(** ** The race, in general *)

(** X18.  The race of the booking handler does not need a special store:
    whenever a booking served alone would be answered 201, two copies of
    it in flight together and resumed in turn are both answered 201 and
    leave two appointments for the same doctor and time slot. *)
Theorem any_booking_can_be_doubled :
  forall (L : Libraries) (env : Env) (body : Body) (w : World),
    statusOf (fst (run (bookAppointment env body) w)) = Some 201 ->
    exists r1 r2 w' d t,
      interleave Sample.inTurn
        [bookAppointment env body; bookAppointment env body] w =
      ([Ret r1; Ret r2], w') /\
      r1.(status) = 201 /\ r2.(status) = 201 /\
      slots w' = slots w ++ [(d, t); (d, t)] /\
      ~ slotsUnique w'.
Proof.
  intros L env body w H.
  destruct (double_booking L env body w H)
    as [r1 [r2 [w' [d [t [E [H1 [H2 Hs]]]]]]]].
  exists r1, r2, w', d, t. repeat split; auto.
  unfold slotsUnique. rewrite Hs. intros N.
  apply NoDup_app_remove_l in N. inversion N as [|? ? Hin _].
  apply Hin. left. reflexivity.
Qed.

Lemma any_booking_can_be_doubled_witness :
  exists r1 r2 w',
    interleave Sample.inTurn Sample.twoBookings Sample.registered =
    ([Ret r1; Ret r2], w') /\
    r1.(status) = 201 /\ r2.(status) = 201 /\ ~ slotsUnique w'.
Proof.
  destruct (any_booking_can_be_doubled Sample.libraries Sample.env
              Sample.booking Sample.registered eq_refl)
    as [r1 [r2 [w' [d [t [E [H1 [H2 [_ Hn]]]]]]]]].
  exists r1, r2, w'. repeat split; assumption.
Defined.

(** ** Two registrations in flight together *)

Section RegistrationRace.
Context {L : Libraries}.

Lemma Doctor_create_again : forall (o : Body) (s s' : Store) (d : Doctor.t),
  Doctor_create o s = inr (d, s') -> Doctor_create o s' = inl DuplicateKey.
Proof.
  intros o s s' d H.
  destruct (Doctor_create_shape o s s' d H) as [-> [_ [_ [He _]]]].
  revert H. unfold Doctor_create. rewrite He.
  destruct (requiredString (field "name" o)); [discriminate|].
  destruct (requiredString (field "password" o)); [discriminate|].
  destruct (optionalString (field "specialty" o)); [discriminate|].
  destruct (optionalNumber (field "experience" o)); [discriminate|].
  destruct (optionalString (field "location" o)); [discriminate|].
  destruct (castAvailabilityPath (field "availability" o));
    [discriminate|].
  intros _. cbn [doctors]. rewrite existsb_app. cbn.
  rewrite String.eqb_refl, orb_true_r. reflexivity.
Qed.

Lemma Patient_create_again : forall (o : Body) (s s' : Store)
    (p : Patient.t),
  Patient_create o s = inr (p, s') -> Patient_create o s' = inl DuplicateKey.
Proof.
  intros o s s' p H.
  destruct (Patient_create_shape o s s' p H) as [-> [_ [_ [He _]]]].
  revert H. unfold Patient_create. rewrite He.
  destruct (requiredString (field "name" o)); [discriminate|].
  destruct (requiredString (field "password" o)); [discriminate|].
  destruct (optionalNumber (field "age" o)); [discriminate|].
  destruct (optionalString (field "gender" o)); [discriminate|].
  destruct (optionalString (field "phone" o)); [discriminate|].
  destruct (optionalString (field "address" o)); [discriminate|].
  intros _. cbn [patients]. rewrite existsb_app. cbn.
  rewrite String.eqb_refl, orb_true_r. reflexivity.
Qed.

(** The steps of a registration that is answered 201. *)
Lemma register_201_steps :
  forall (env : Env) (k : Kind) (body : Body) (w : World),
    statusOf (fst (run (register env k body) w)) = Some 201 ->
    exists h,
      someFalsy (requiredFields k) body = false /\
      env.(faults) (register_findOne k) = false /\
      env.(faults) (register_save k) = false /\
      bcrypt_hash (field "password" body) 10 = Some h /\
      match k with
      | AsDoctor =>
          Doctor_findOne (field "email" body) w.(db) = inr None /\
          exists d s',
            Doctor_create (doctorFields body h) w.(db) = inr (d, s')
      | AsPatient =>
          Patient_findOne (field "email" body) w.(db) = inr None /\
          exists p s',
            Patient_create (patientFields body h) w.(db) = inr (p, s')
      end.
Proof.
  intros env k body w.
  destruct k; cbn [register requiredFields register_findOne register_save];
    unfold registerDoctor, registerPatient.
  - assert (G : someFalsy (requiredFields AsDoctor) body =
                negb (truthy (field "name" body))
                || negb (truthy (field "email" body))
                || negb (truthy (field "password" body))
                || negb (truthy (field "specialty" body))
                || negb (truthy (field "experience" body))
                || negb (truthy (field "location" body))
                || negb (truthy (field "availability" body))).
    { cbn [requiredFields someFalsy existsb]. apply validation_guard7. }
    cbn [requiredFields] in G. rewrite <- G.
    destruct (someFalsy _ body); [cbn; discriminate|].
    rewrite run_try_await.
    destruct (faults env RegisterDoctor_findOne); [cbn; discriminate|].
    unfold query.
    destruct (Doctor_findOne _ (db w)) as [e|[x|]] eqn:Ef;
      try (cbn; discriminate).
    rewrite run_try_orThrow.
    destruct (bcrypt_hash (field "password" body) 10) as [h|] eqn:Eh;
      [|cbn; discriminate].
    rewrite run_try_await.
    destruct (faults env RegisterDoctor_save); [cbn; discriminate|].
    unfold write. fold (doctorFields body h).
    destruct (Doctor_create (doctorFields body h) (db w)) as [e|[d s']]
      eqn:Ec; [cbn; discriminate|].
    intros _. exists h. repeat split; auto. exists d, s'. exact Ec.
  - assert (G : someFalsy (requiredFields AsPatient) body =
                negb (truthy (field "name" body))
                || negb (truthy (field "email" body))
                || negb (truthy (field "password" body))
                || negb (truthy (field "age" body))
                || negb (truthy (field "gender" body))
                || negb (truthy (field "phone" body))
                || negb (truthy (field "address" body))).
    { cbn [requiredFields someFalsy existsb]. apply validation_guard7. }
    cbn [requiredFields] in G. rewrite <- G.
    destruct (someFalsy _ body); [cbn; discriminate|].
    rewrite run_try_await.
    destruct (faults env RegisterPatient_findOne); [cbn; discriminate|].
    unfold query.
    destruct (Patient_findOne _ (db w)) as [e|[x|]] eqn:Ef;
      try (cbn; discriminate).
    rewrite run_try_orThrow.
    destruct (bcrypt_hash (field "password" body) 10) as [h|] eqn:Eh;
      [|cbn; discriminate].
    rewrite run_try_await.
    destruct (faults env RegisterPatient_save); [cbn; discriminate|].
    unfold write. fold (patientFields body h).
    destruct (Patient_create (patientFields body h) (db w)) as [e|[p s']]
      eqn:Ec; [cbn; discriminate|].
    intros _. exists h. repeat split; auto. exists p, s'. exact Ec.
Qed.

End RegistrationRace.

(** X19.  The race of a registration is closed by the unique index, but
    it is answered as an internal error.  Whenever a registration served
    alone would be answered 201, two copies of it in flight together and
    resumed in turn both find the email free; the first save stores the
    record and is answered 201, the second save is refused by the index
    and is answered 500 "Internal server error." (not the 400 of a
    duplicate); the store is the one a single registration leaves. *)
Theorem concurrent_registrations_one_wins :
  forall (L : Libraries) (env : Env) (k : Kind) (body : Body) (w : World),
    statusOf (fst (run (register env k body) w)) = Some 201 ->
    exists r1,
      interleave alternately [register env k body; register env k body] w =
      ([Ret r1; Ret (mkResponse 500 (msg "Internal server error."))],
       snd (run (register env k body) w)) /\
      r1.(status) = 201.
Proof.
  intros L env k body w H.
  destruct (register_201_steps env k body w H)
    as [h [Hv [F1 [F2 [Eh Hk]]]]].
  destruct k; cbn [register requiredFields register_findOne register_save]
    in *.
  - destruct Hk as [Ef [d [s' Ec]]].
    cbn [requiredFields someFalsy existsb] in Hv.
    rewrite validation_guard7 in Hv.
    assert (R : snd (run (registerDoctor env body) w) = mkWorld s' (outbox w)).
    { unfold registerDoctor. rewrite Hv, run_try_await, F1. unfold query.
      rewrite Ef, run_try_orThrow, Eh, run_try_await, F2. unfold write.
      fold (doctorFields body h). rewrite Ec. reflexivity. }
    assert (Ed := Doctor_create_again _ _ _ _ Ec).
    rewrite R. unfold registerDoctor. rewrite Hv. unfold alternately.
    repeat (cbn [interleave nth_error replace_nth db orThrow bind
                 Monad_Task bindT];
            rewrite step_try_await; rewrite ?F1, ?F2;
            unfold query, write; fold (doctorFields body h);
            cbn [db]; rewrite ?Ef, ?Eh, ?Ec, ?Ed).
    cbn. eexists. split; reflexivity.
  - destruct Hk as [Ef [p [s' Ec]]].
    cbn [requiredFields someFalsy existsb] in Hv.
    rewrite validation_guard7 in Hv.
    assert (R : snd (run (registerPatient env body) w) = mkWorld s' (outbox w)).
    { unfold registerPatient. rewrite Hv, run_try_await, F1. unfold query.
      rewrite Ef, run_try_orThrow, Eh, run_try_await, F2. unfold write.
      fold (patientFields body h). rewrite Ec. reflexivity. }
    assert (Ed := Patient_create_again _ _ _ _ Ec).
    rewrite R. unfold registerPatient. rewrite Hv. unfold alternately.
    repeat (cbn [interleave nth_error replace_nth db orThrow bind
                 Monad_Task bindT];
            rewrite step_try_await; rewrite ?F1, ?F2;
            unfold query, write; fold (patientFields body h);
            cbn [db]; rewrite ?Ef, ?Eh, ?Ec, ?Ed).
    cbn. eexists. split; reflexivity.
Qed.

Lemma concurrent_registrations_one_wins_witness :
  exists r1,
    interleave alternately
      [register Sample.env AsDoctor Sample.drA;
       register Sample.env AsDoctor Sample.drA] emptyWorld =
    ([Ret r1; Ret (mkResponse 500 (msg "Internal server error."))],
     snd (run (register Sample.env AsDoctor Sample.drA) emptyWorld)) /\
    r1.(status) = 201.
Proof.
  exact (concurrent_registrations_one_wins Sample.libraries Sample.env
           AsDoctor Sample.drA emptyWorld eq_refl).
Defined.

(** ** Register, then search *)

(** X20.  A doctor shows up in the search as soon as the registration is
    answered 201: the search that follows, when the store answers,
    returns the doctors that were listed before, in the same order,
    followed by the new one, each without the password. *)
Theorem register_then_search :
  forall (L : Libraries) (env env' : Env) (body : Body) (r : Response)
         (w w' : World),
    run (registerDoctor env body) w = (inr r, w') ->
    r.(status) = 201 ->
    env'.(faults) Search_find = false ->
    exists d,
      toString (field "email" body) = Some d.(Doctor.email) /\
      run (searchDoctors env') w' =
      (inr (mkResponse 200
              (JArr (map doctorWithoutPassword w.(db).(doctors)
                     ++ [doctorWithoutPassword d]))), w').
Proof.
  intros L env env' body r w w' Hrun Hs Hf.
  destruct (register_201_inv env AsDoctor body r w w' Hrun Hs)
    as [e [h [_ [He [_ [_ [_ [_ [d [Hd [_ [_ [Hde _]]]]]]]]]]]]].
  exists d. split; [rewrite Hde; exact He|].
  unfold searchDoctors. rewrite run_try_await, Hf. unfold query, Doctor_find.
  rewrite Hd, map_app. reflexivity.
Qed.

Lemma register_then_search_witness :
  exists d,
    run (searchDoctors Sample.env)
      (snd (run (registerDoctor Sample.env Sample.drA) emptyWorld)) =
    (inr (mkResponse 200 (JArr [doctorWithoutPassword d])),
     snd (run (registerDoctor Sample.env Sample.drA) emptyWorld)).
Proof.
  assert (E : run (registerDoctor Sample.env Sample.drA) emptyWorld =
              (fst (run (registerDoctor Sample.env Sample.drA) emptyWorld),
               snd (run (registerDoctor Sample.env Sample.drA) emptyWorld)))
    by apply surjective_pairing.
  assert (S : fst (run (registerDoctor Sample.env Sample.drA) emptyWorld) =
              inr (mkResponse 201
                     (JObj [("message",
                              JStr "Doctor registered successfully!");
                            ("doctor",
                              JObj [("id", JStr "0");
                                    ("name", JStr "Dr. A");
                                    ("email", JStr "a@x.com")])])))
    by (vm_compute; reflexivity).
  rewrite S in E.
  destruct (register_then_search Sample.libraries Sample.env Sample.env
              Sample.drA _ emptyWorld _ E eq_refl eq_refl)
    as [d [_ H]].
  exists d. exact H.
Defined.
